(** * Habit tracker: streak analytics over the habit and tracker tables

    A shallow embedding of [analytics.py], [database.py], [habits.py] and
    [population.py].

    - The two SQLite tables are lists of rows in insertion order, together
      with the AUTOINCREMENT counters; every method of [Database] becomes a
      function that takes the database value and returns the new one next
      to the Python return value.  A query that reads only [habit.name] is
      answered from the index of the [UNIQUE] constraint, in the order of
      the names.
    - The cell [tracker.check_of_date] is embedded twice.  In [Db] and
      [Analytics] a cell is the [datetime] value of a text written with
      [%Y-%m-%d %H:%M:%S]: the loop of [calculate_streak] and the scenarios
      of the tests are stated on these values.  In [Stored] a cell is the
      text itself, whatever [increment_tracker] was given, and
      [datetime.strptime], SQLite's [DATE] and [strftime] are parameters:
      there [calculate_streak] can raise [ValueError] and [ORDER BY]
      compares text.  The two agree on text that [strftime] has written.
    - [str] values are sequences of code points below 256; [str.strip],
      [str.lower] and SQLite's [LOWER] are written out on that range.
    - A Python function that returns [int] or [str], or raises, returns a
      [result value]. *)

From Stdlib Require Import ZArith List String Ascii Bool Lia.
From Stdlib Require Import Sorting.Sorted Sorting.Permutation.
Import ListNotations.

Local Open Scope list_scope.
Local Open Scope string_scope.
Local Open Scope Z_scope.

(** ** Python's [datetime], as far as the analytics use it *)

Module Datetime.

Record datetime : Type := mk_datetime {
  year : Z;
  month : Z;
  day : Z;
  hour : Z;
  minute : Z;
  second : Z
}.

(** [_is_leap(year)]: [year % 4 == 0 and (year % 100 != 0 or year % 400 == 0)]. *)
Definition is_leap (y : Z) : bool :=
  (y mod 4 =? 0) && (negb (y mod 100 =? 0) || (y mod 400 =? 0)).

(** [_days_before_year(year)]: days before January 1st of [year]. *)
Definition days_before_year (y : Z) : Z :=
  let y := y - 1 in
  y * 365 + y / 4 - y / 100 + y / 400.

(** [_DAYS_BEFORE_MONTH], the running sum of the month lengths of a
    common year. *)
Definition DAYS_BEFORE_MONTH (m : Z) : Z :=
  match m with
  | 1 => 0 | 2 => 31 | 3 => 59 | 4 => 90 | 5 => 120 | 6 => 151
  | 7 => 181 | 8 => 212 | 9 => 243 | 10 => 273 | 11 => 304 | 12 => 334
  | _ => 0
  end.

Definition DAYS_IN_MONTH (m : Z) : Z :=
  match m with
  | 1 => 31 | 2 => 28 | 3 => 31 | 4 => 30 | 5 => 31 | 6 => 30
  | 7 => 31 | 8 => 31 | 9 => 30 | 10 => 31 | 11 => 30 | 12 => 31
  | _ => 0
  end.

(** [_days_in_month(year, month)]. *)
Definition days_in_month (y m : Z) : Z :=
  if (m =? 2) && is_leap y then 29 else DAYS_IN_MONTH m.

(** [_days_before_month(year, month)]. *)
Definition days_before_month (y m : Z) : Z :=
  DAYS_BEFORE_MONTH m + (if (2 <? m) && is_leap y then 1 else 0).

(** [_ymd2ord(year, month, day)]: the proleptic Gregorian ordinal, with
    0001-01-01 as day 1. *)
Definition ymd2ord (y m d : Z) : Z :=
  days_before_year y + days_before_month y m + d.

(** [datetime.toordinal()]: the ordinal of the calendar-date component. *)
Definition toordinal (t : datetime) : Z :=
  ymd2ord (year t) (month t) (day t).

(** Seconds since midnight, as [datetime.__sub__] computes them. *)
Definition seconds_of_day (t : datetime) : Z :=
  second t + minute t * 60 + hour t * 3600.

(** [(a - b).days]: [datetime.__sub__] builds
    [timedelta(days1 - days2, secs1 - secs2)] and [timedelta] normalises
    its seconds into [0, 86400), carrying into the days by floor
    division. *)
Definition timedelta_days (a b : datetime) : Z :=
  (toordinal a - toordinal b) + (seconds_of_day a - seconds_of_day b) / 86400.

(** [_isoweek1monday(year)]: the ordinal of the Monday that starts ISO
    week 1 of [year]. *)
Definition isoweek1monday (y : Z) : Z :=
  let THURSDAY := 3 in
  let firstday := ymd2ord y 1 1 in
  let firstweekday := (firstday + 6) mod 7 in
  let week1monday := firstday - firstweekday in
  if THURSDAY <? firstweekday then week1monday + 7 else week1monday.

(** [datetime.isocalendar()[:2]]: the ISO year and the ISO week number. *)
Definition isocalendar (t : datetime) : Z * Z :=
  let y := year t in
  let week1monday := isoweek1monday y in
  let today := ymd2ord (year t) (month t) (day t) in
  let week := (today - week1monday) / 7 in
  if week <? 0 then
    let y := y - 1 in
    let week1monday := isoweek1monday y in
    let week := (today - week1monday) / 7 in
    (y, week + 1)
  else if 52 <=? week then
    if isoweek1monday (y + 1) <=? today then (y + 1, 0 + 1)
    else (y, week + 1)
  else (y, week + 1).

(** The values a [datetime] object can hold. *)
Definition valid_datetime (t : datetime) : bool :=
  (1 <=? year t) && (year t <=? 9999) &&
  (1 <=? month t) && (month t <=? 12) &&
  (1 <=? day t) && (day t <=? days_in_month (year t) (month t)) &&
  (0 <=? hour t) && (hour t <? 24) &&
  (0 <=? minute t) && (minute t <? 60) &&
  (0 <=? second t) && (second t <? 60).

(** The order of the stored text: field by field, most significant first. *)
Definition sort_key (t : datetime) : list Z :=
  [year t; month t; day t; hour t; minute t; second t].

Fixpoint lex_leb (a b : list Z) : bool :=
  match a, b with
  | [], _ => true
  | _ :: _, [] => false
  | x :: a', y :: b' =>
      if x <? y then true else if y <? x then false else lex_leb a' b'
  end.

Definition leb (a b : datetime) : bool := lex_leb (sort_key a) (sort_key b).

(** One decimal digit, and a number zero-padded to two or four digits,
    as the directives of [strftime] write the fields. *)
Definition digit (n : Z) : ascii := ascii_of_N (Z.to_N (48 + n mod 10)).

Definition pad2 (n : Z) : string :=
  String (digit (n / 10)) (String (digit n) EmptyString).

Definition pad4 (n : Z) : string :=
  String (digit (n / 1000)) (String (digit (n / 100)) (pad2 n)).

(** [t.strftime("%Y-%m-%d %H:%M:%S")], for the years from 1000 on, which
    [%Y] writes with four digits. *)
Definition strftime (t : datetime) : string :=
  pad4 (year t) ++ "-" ++ pad2 (month t) ++ "-" ++ pad2 (day t) ++ " " ++
  pad2 (hour t) ++ ":" ++ pad2 (minute t) ++ ":" ++ pad2 (second t).

(** [t.weekday()], Monday being 0; SQLite's [daysAfterMonday] is the
    same number. *)
Definition weekday (t : datetime) : Z := (toordinal t + 6) mod 7.

(** The first ten characters of the stored text, [YYYY-MM-DD]. *)
Definition date_text (t : datetime) : string :=
  pad4 (year t) ++ "-" ++ pad2 (month t) ++ "-" ++ pad2 (day t).

(** SQLite's [DATE(text)] on the stored text: its calendar date. *)
Definition sql_DATE (t : datetime) : Z * Z * Z :=
  (year t, month t, day t).

(** SQLite's [strftime('%Y-%W', text)]: the calendar year, and the week
    of that year counted from its first Monday,
    [(daysAfterJan01 - daysAfterMonday + 7) / 7]. *)
Definition sql_year_week (t : datetime) : Z * Z :=
  let daysAfterJan01 := toordinal t - ymd2ord (year t) 1 1 in
  let daysAfterMonday := weekday t in
  (year t, (daysAfterJan01 - daysAfterMonday + 7) / 7).

End Datetime.

Import Datetime.

(** ** Text: Python's [str] methods and SQLite's [LOWER] *)

Module Text.

Definition code (c : ascii) : Z := Z.of_N (N_of_ascii c).

Definition chr (n : Z) : ascii := ascii_of_N (Z.to_N n).

(** [str.isspace] on one code point below 256. *)
Definition isspace (c : ascii) : bool :=
  let n := code c in
  ((9 <=? n) && (n <=? 13)) || ((28 <=? n) && (n <=? 32)) ||
  (n =? 133) || (n =? 160).

(** Python's lower-casing of one code point below 256: [A-Z] and the
    accented capitals 0xC0-0xDE (0xD7, the multiplication sign, is not a
    letter) move up by 32. *)
Definition py_lower_char (c : ascii) : ascii :=
  let n := code c in
  if ((65 <=? n) && (n <=? 90)) ||
     ((192 <=? n) && (n <=? 222) && negb (n =? 215))
  then chr (n + 32) else c.

(** SQLite's built-in [LOWER] folds the ASCII letters only. *)
Definition sql_lower_char (c : ascii) : ascii :=
  let n := code c in
  if (65 <=? n) && (n <=? 90) then chr (n + 32) else c.

Fixpoint map_string (f : ascii -> ascii) (s : string) : string :=
  match s with
  | EmptyString => EmptyString
  | String c s' => String (f c) (map_string f s')
  end.

(** [str.lower()]. *)
Definition lower (s : string) : string := map_string py_lower_char s.

(** SQL [LOWER(s)]. *)
Definition LOWER (s : string) : string := map_string sql_lower_char s.

(** [str.lstrip()]. *)
Fixpoint lstrip (s : string) : string :=
  match s with
  | EmptyString => EmptyString
  | String c s' => if isspace c then lstrip s' else s
  end.

(** [str.rstrip()]. *)
Fixpoint rstrip (s : string) : string :=
  match s with
  | EmptyString => EmptyString
  | String c s' =>
      match rstrip s' with
      | EmptyString => if isspace c then EmptyString else String c EmptyString
      | r => String c r
      end
  end.

(** [str.strip()]. *)
Definition strip (s : string) : string := rstrip (lstrip s).

(** Whether the first code point is white space. *)
Definition starts_blank (s : string) : bool :=
  match s with
  | EmptyString => false
  | String c _ => isspace c
  end.

(** Python's truth value of a [str]: [not s] holds for the empty string. *)
Definition is_empty (s : string) : bool :=
  match s with EmptyString => true | _ => false end.

End Text.

(** ** Outcomes of the Python functions *)

Inductive exn : Type :=
| TypeError
| ValueError.

(** What a call can evaluate to: [int] or [str]. *)
Inductive value : Type :=
| VInt (n : Z)
| VStr (s : string).

Inductive result (A : Type) : Type :=
| Return (a : A)
| Raises (e : exn).

Arguments Return {A} a.
Arguments Raises {A} e.

(** ** [database.py] *)

Module Db.

(** A row of table [habit]. *)
Record habit_row : Type := mk_habit {
  h_id : Z;
  h_name : string;
  h_description : string;
  h_periodicity : string;
  h_date : string
}.

(** A row of table [tracker] whose date cell holds text written with
    [%Y-%m-%d %H:%M:%S]; the row keeps the value of that text.  Rows
    with any other text are those of [Stored.tracker_row]. *)
Record tracker_row : Type := mk_tracker {
  t_id : Z;
  t_check_of_date : datetime;
  t_habit_name : string
}.

(** The connection's state: both tables and, for each, the largest id
    AUTOINCREMENT has handed out. *)
Record Database : Type := mk_db {
  habit : list habit_row;
  tracker : list tracker_row;
  habit_seq : Z;
  tracker_seq : Z
}.

(** SQL [=] on the values of [strftime('%Y-%W', _)] and of [DATE(_)]. *)
Definition year_week_eqb (a b : Z * Z) : bool :=
  (fst a =? fst b) && (snd a =? snd b).

Definition DATE_eqb (a b : Z * Z * Z) : bool :=
  (fst (fst a) =? fst (fst b)) && (snd (fst a) =? snd (fst b)) &&
  (snd a =? snd b).

(** [Database(name)] on a fresh file: [create_tables]. *)
Definition create_tables : Database := mk_db [] [] 0 0.

(** [SELECT COUNT( * ) FROM habit WHERE LOWER(name) = LOWER(?)]. *)
Definition count_lower (db : Database) (name : string) : Z :=
  Z.of_nat (List.length (filter
    (fun r => String.eqb (Text.LOWER (h_name r)) (Text.LOWER name))
    (habit db))).

(** [INSERT INTO habit (name, description, periodicity, date)]: the
    column [name] is [UNIQUE], a second row with the same text is an
    [IntegrityError]. *)
Definition insert_habit (db : Database)
    (name description periodicity date : string) : option Database :=
  if existsb (fun r => String.eqb (h_name r) name) (habit db) then None
  else
    let id := habit_seq db + 1 in
    Some (mk_db (habit db ++ [mk_habit id name description periodicity date])%list
                (tracker db) id (tracker_seq db)).

Definition add_habit (db : Database)
    (name description periodicity date : string) : Database * string :=
  let name := Text.lower (Text.strip name) in
  if Text.is_empty name then
    (db, "Error: Habit name cannot be empty or just whitespace.")
  else
    let description :=
      if Text.is_empty (Text.strip description) then "No description"
      else description in
    if 0 <? count_lower db name then
      (db, "Error: A habit with the name '" ++ name ++ "' already exists.")
    else
      match insert_habit db name description periodicity date with
      | Some db' => (db', "Habit '" ++ name ++ "' added successfully.")
      | None =>
          (db, "Error adding habit: UNIQUE constraint failed: habit.name")
      end.

(** The index behind [UNIQUE] on [habit.name] keeps the names in
    ascending order of their text (BINARY collation: code point by code
    point, a proper prefix first).  SQLite answers a query that reads no
    other column of [habit] by scanning this index, so the names come in
    that order and not in the order of the rows. *)
Fixpoint insert_name (name : string) (l : list string) : list string :=
  match l with
  | [] => [name]
  | e :: l' =>
      if String.leb name e then name :: l else e :: insert_name name l'
  end.

Definition name_index (names : list string) : list string :=
  fold_right insert_name [] names.

(** [SELECT name FROM habit]. *)
Definition select_names (db : Database) : list string :=
  name_index (map h_name (habit db)).

(** [SELECT name FROM habit WHERE LOWER(name) = LOWER(?)]. *)
Definition select_name_lower (db : Database) (habit_name : string)
    : list string :=
  name_index
    (map h_name
       (filter
          (fun r => String.eqb (Text.LOWER (h_name r)) (Text.LOWER habit_name))
          (habit db))).

(** [increment_tracker] for an [event_date] that is the text of a value:
    [now] is the reading of [datetime.now()], and the row keeps the value
    whose text [strftime] writes.  [fetchone()] takes the first name of
    the query's answer.  [Stored.increment_tracker] takes any text. *)
Definition increment_tracker (now : datetime) (db : Database)
    (habit_name : string) (event_date : option datetime)
    : Database * string :=
  let event_date :=
    match event_date with Some d => d | None => now end in
  match select_name_lower db habit_name with
  | [] => (db, "Habit '" ++ habit_name ++ "' not found. Cannot add event.")
  | matched_habit :: _ =>
      let habit_name := matched_habit in
      let id := tracker_seq db + 1 in
      (mk_db (habit db) (tracker db ++ [mk_tracker id event_date habit_name])%list
             (habit_seq db) id,
       "Event for habit '" ++ habit_name ++ "' added on "
         ++ strftime event_date ++ ".")
  end.

(** [SELECT * FROM tracker WHERE habit_name=?]. *)
Definition get_habit_data (db : Database) (habit_name : string)
    : list tracker_row :=
  filter (fun r => String.eqb (t_habit_name r) habit_name) (tracker db).

Definition proof_habit (db : Database) (habit_name : string) : bool :=
  0 <? count_lower db habit_name.

(** [DELETE FROM tracker WHERE habit_name = ?] and
    [DELETE FROM habit WHERE name = ?]. *)
Definition delete_habit_data (db : Database) (habit_name : string)
    : Database :=
  mk_db (filter (fun r => negb (String.eqb (h_name r) habit_name))
                (habit db))
        (filter (fun r => negb (String.eqb (t_habit_name r) habit_name))
                (tracker db))
        (habit_seq db) (tracker_seq db).

(** [DELETE FROM tracker WHERE habit_name = ?]. *)
Definition delete_tracker_data (db : Database) (habit_name : string)
    : Database :=
  mk_db (habit db)
        (filter (fun r => negb (String.eqb (t_habit_name r) habit_name))
                (tracker db))
        (habit_seq db) (tracker_seq db).

(** [SELECT * FROM habit]. *)
Definition get_current_habits (db : Database) : list habit_row := habit db.

(** [DELETE FROM tracker] and [DELETE FROM habit]; the AUTOINCREMENT
    counters live in [sqlite_sequence] and stay. *)
Definition delete_db (db : Database) : Database * string :=
  (mk_db [] [] (habit_seq db) (tracker_seq db),
   "All data has been successfully deleted.").

(** [SELECT periodicity FROM habit WHERE LOWER(name) = LOWER(?)] and
    [fetchone()]. *)
Definition get_habit_periodicity (db : Database) (habit_name : string)
    : option string :=
  match filter
          (fun r => String.eqb (Text.LOWER (h_name r)) (Text.LOWER habit_name))
          (habit db) with
  | [] => None
  | result :: _ => Some (h_periodicity result)
  end.

(** [check_event_exists] on text of the format, which [DATE] and
    [strftime] read to the date and to the week of the value.  With
    another periodicity no query is run, [fetchone()] gives [None] and
    [None[0]] is a [TypeError]. *)
Definition check_event_exists (db : Database) (habit_name : string)
    (event_date : datetime) (periodicity : string) : result bool :=
  if String.eqb periodicity "daily" then
    Return (0 <? Z.of_nat (List.length (filter
      (fun r => String.eqb (t_habit_name r) habit_name &&
                DATE_eqb (sql_DATE (t_check_of_date r))
                         (sql_DATE event_date))
      (tracker db))))
  else if String.eqb periodicity "weekly" then
    Return (0 <? Z.of_nat (List.length (filter
      (fun r => String.eqb (t_habit_name r) habit_name &&
                year_week_eqb (sql_year_week (t_check_of_date r))
                              (sql_year_week event_date))
      (tracker db))))
  else Raises TypeError.

(** What [sqlite3] raises when a statement breaks a constraint. *)
Inductive sqlite_error : Type :=
| IntegrityError.

(** Python's truth value of an optional [str] argument: [None] and the
    empty string are both skipped. *)
Definition truthy (o : option string) : option string :=
  match o with
  | Some s => if Text.is_empty s then None else Some s
  | None => None
  end.

(** [UPDATE habit SET name = ? WHERE name = ?]: a clash with the name of
    another row breaks [UNIQUE]; [ON UPDATE CASCADE] renames the
    check-offs with the habit. *)
Definition update_name (db : Database) (new_name exact_name : string)
    : option Database :=
  if negb (String.eqb new_name exact_name) &&
     existsb (fun r => String.eqb (h_name r) new_name) (habit db)
  then None
  else
    Some (mk_db
      (map (fun r =>
              if String.eqb (h_name r) exact_name
              then mk_habit (h_id r) new_name (h_description r)
                            (h_periodicity r) (h_date r)
              else r) (habit db))
      (map (fun r =>
              if String.eqb (t_habit_name r) exact_name
              then mk_tracker (t_id r) (t_check_of_date r) new_name
              else r) (tracker db))
      (habit_seq db) (tracker_seq db)).

(** [UPDATE habit SET description = ? WHERE name = ?]. *)
Definition update_description (db : Database)
    (new_description exact_name : string) : Database :=
  mk_db (map (fun r =>
                if String.eqb (h_name r) exact_name
                then mk_habit (h_id r) (h_name r) new_description
                              (h_periodicity r) (h_date r)
                else r) (habit db))
        (tracker db) (habit_seq db) (tracker_seq db).

(** [UPDATE habit SET periodicity = ? WHERE name = ?]. *)
Definition update_periodicity (db : Database)
    (new_periodicity exact_name : string) : Database :=
  mk_db (map (fun r =>
                if String.eqb (h_name r) exact_name
                then mk_habit (h_id r) (h_name r) (h_description r)
                              new_periodicity (h_date r)
                else r) (habit db))
        (tracker db) (habit_seq db) (tracker_seq db).

(** The [IntegrityError] of the first [UPDATE] is not caught: it leaves
    [update_habit] before anything is committed. *)
Definition update_habit (db : Database) (old_name : string)
    (new_name new_description new_periodicity : option string)
    : Database * string + sqlite_error :=
  match select_name_lower db old_name with
  | [] => inl (db, "Habit '" ++ old_name ++ "' not found. Cannot update.")
  | existing_name :: _ =>
      let exact_name := existing_name in
      let renamed :=
        match truthy new_name with
        | Some new_name =>
            match update_name db new_name exact_name with
            | Some db' => Some (db', new_name)
            | None => None
            end
        | None => Some (db, exact_name)
        end in
      match renamed with
      | None => inr IntegrityError
      | Some (db, exact_name) =>
          let db :=
            match truthy new_description with
            | Some new_description =>
                update_description db new_description exact_name
            | None => db
            end in
          let db :=
            match truthy new_periodicity with
            | Some new_periodicity =>
                update_periodicity db new_periodicity exact_name
            | None => db
            end in
          inl (db, "Habit '" ++ exact_name
                   ++ "' has been updated successfully.")
      end
  end.

End Db.

Import Db.

(** ** [habits.py] *)

Module Habits.

Record Habit : Type := mk_Habit {
  id : option Z;
  name : string;
  description : string;
  periodicity : string;
  date : string;
  count : Z
}.

(** [Habit.__init__]; [now] is [datetime.now().strftime(...)]. *)
Definition init (now : string) (name description periodicity : string)
    (id : option Z) : Habit :=
  mk_Habit id (Text.lower (Text.strip name)) (Text.strip description)
           periodicity now 0.

(** [DBHabit.store]. *)
Definition store (self : Habit) (db : Database) : Database * string :=
  if Text.is_empty (Text.strip (name self)) then
    (db, "Habit name cannot be blank or just whitespace. It was not added.")
  else
    let description :=
      if Text.is_empty (Text.strip (description self)) then "No description"
      else description self in
    if proof_habit db (name self) then
      (db, "Habit '" ++ name self ++ "' already exists. It was not added.")
    else
      add_habit db (name self) description (periodicity self) (date self).

(** [Habit.increment]. *)
Definition increment (self : Habit) : Habit :=
  mk_Habit (id self) (name self) (description self) (periodicity self)
           (date self) (count self + 1).

(** [Habit.reset]. *)
Definition reset (self : Habit) : Habit :=
  mk_Habit (id self) (name self) (description self) (periodicity self)
           (date self) 0.

(** The [date] argument of [add_event]: nothing (or the empty string),
    the zero-padded text [YYYY-MM-DD] of the day [y-m-d], or a text that
    [strptime] turns down.  [Stored.add_event] takes the text as
    typed. *)
Inductive date_arg : Type :=
| NoDate
| Day (y m d : Z)
| BadDate (text : string).

(** [DBHabit.add_event]; [now] is the reading of [datetime.now()]. *)
Definition add_event (now : datetime) (self : Habit) (db : Database)
    (date : date_arg) : result (Database * string) :=
  if proof_habit db (name self) then
    let parsed :=
      match date with
      | NoDate => inl now
      | Day y m d => inl (mk_datetime y m d 0 0 0)
      | BadDate text => inr text
      end in
    match parsed with
    | inr text =>
        Return (db, "Invalid date format: '" ++ text
                    ++ "'. Please use YYYY-MM-DD.")
    | inl date =>
        match truthy (get_habit_periodicity db (name self)) with
        | None =>
            Return (db, "Could not determine periodicity for habit '"
                        ++ name self ++ "'.")
        | Some periodicity =>
            match check_event_exists db (name self) date periodicity with
            | Raises e => Raises e
            | Return already_checked =>
                if already_checked && String.eqb periodicity "daily" then
                  Return (db, "Habit '" ++ name self
                              ++ "' was already checked-off on "
                              ++ date_text date ++ ".")
                else if already_checked && String.eqb periodicity "weekly"
                then
                  Return (db, "Habit '" ++ name self
                              ++ "' was already checked-off in this week.")
                else
                  Return (increment_tracker now db (name self) (Some date))
            end
        end
    end
  else
    Return (db, "Habit '" ++ name self ++ "' not found. Cannot add event.").

(** [DBHabit.delete]. *)
Definition delete (self : Habit) (db : Database) : Database * string :=
  if proof_habit db (name self) then
    (delete_habit_data db (name self),
     "The habit '" ++ name self ++ "' has been deleted.")
  else
    (db, "Habit '" ++ name self ++ "' not found or there may be a typo.").

(** [DBHabit.update]. *)
Definition update (self : Habit) (db : Database)
    (new_name new_description new_periodicity : option string)
    : Database * string + sqlite_error :=
  if negb (proof_habit db (name self)) then
    inl (db, "Habit '" ++ name self ++ "' does not exist.")
  else update_habit db (name self) new_name new_description new_periodicity.

(** [DBHabit.reset_in_db]. *)
Definition reset_in_db (self : Habit) (db : Database) : Database * string :=
  if proof_habit db (name self) then
    (delete_tracker_data db (name self),
     "All progress for habit '" ++ name self ++ "' has been reset.")
  else
    (db, "Habit '" ++ name self ++ "' not found.").

End Habits.

(** ** [analytics.py] *)

Module Analytics.

Definition calculate_count (db : Database) (habit_name : string) : Z :=
  Z.of_nat (List.length (get_habit_data db habit_name)).

(** [ORDER BY check_of_date ASC] on text of the format: the order of the
    text is the order of the values. *)
Fixpoint insert_asc (d : datetime) (l : list datetime) : list datetime :=
  match l with
  | [] => [d]
  | e :: l' => if Datetime.leb d e then d :: l else e :: insert_asc d l'
  end.

Definition order_by_asc (l : list datetime) : list datetime :=
  fold_right insert_asc [] l.

(** [SELECT check_of_date FROM tracker WHERE habit_name = ?
     ORDER BY check_of_date ASC]. *)
Definition select_check_off_dates (db : Database) (habit_name : string)
    : list datetime :=
  order_by_asc
    (map t_check_of_date
       (filter (fun r => String.eqb (t_habit_name r) habit_name)
               (tracker db))).

(** [SELECT periodicity FROM habit WHERE name = ?] followed by
    [fetchone()]: the first matching row, or [None]. *)
Definition select_periodicity (db : Database) (habit_name : string)
    : option string :=
  match filter (fun r => String.eqb (h_name r) habit_name) (habit db) with
  | [] => None
  | row :: _ => Some (h_periodicity row)
  end.

(** The body of the [for] loop of [calculate_streak], on the pair
    [check_off_dates[i - 1]], [check_off_dates[i]] and the two counters
    [(longest_streak, current_streak)]. *)
Definition loop_body (periodicity : string)
    (previous_date current_date : datetime) (st : Z * Z) : Z * Z :=
  let '(longest_streak, current_streak) := st in
  if String.eqb periodicity "daily" then
    if timedelta_days current_date previous_date =? 1 then
      (longest_streak, current_streak + 1)
    else
      (Z.max longest_streak current_streak, 1)
  else if String.eqb periodicity "weekly" then
    let current_week := isocalendar current_date in
    let previous_week := isocalendar previous_date in
    if ((fst current_week =? fst previous_week) &&
        (snd current_week =? snd previous_week + 1)) ||
       ((fst current_week =? fst previous_week + 1) &&
        (snd previous_week =? 52) && (snd current_week =? 1))
    then
      (longest_streak, current_streak + 1)
    else
      (Z.max longest_streak current_streak, 1)
  else st.

(** [for i in range(1, len(check_off_dates))]: the walk over the
    consecutive pairs, [previous_date] being the element before [rest]. *)
Fixpoint for_loop (periodicity : string) (previous_date : datetime)
    (rest : list datetime) (st : Z * Z) : Z * Z :=
  match rest with
  | [] => st
  | current_date :: rest' =>
      for_loop periodicity current_date rest'
               (loop_body periodicity previous_date current_date st)
  end.

(** The counters when the loop ends; they start as
    [longest_streak = 0], [current_streak = 1]. *)
Definition loop_state (periodicity : string) (check_off_dates : list datetime)
    : Z * Z :=
  match check_off_dates with
  | [] => (0, 1)
  | first :: rest => for_loop periodicity first rest (0, 1)
  end.

(** Lines 93-134 of [calculate_streak], from the fetched dates and the
    fetched periodicity to the returned number. *)
Definition streak_of_dates (periodicity : string)
    (check_off_dates : list datetime) : Z :=
  match check_off_dates with
  | [] => 0
  | _ :: _ =>
      let '(longest_streak, current_streak) :=
        loop_state periodicity check_off_dates in
      Z.max longest_streak current_streak
  end.

Definition not_found (habit_name : string) : string :=
  "Habit '" ++ habit_name ++ "' not found.".

(** [calculate_streak] on text of the format, which [strptime] reads to
    the values kept here; [Stored.calculate_streak] has the parse and
    its [ValueError]. *)
Definition calculate_streak (db : Database) (habit_name : string)
    : result value :=
  if proof_habit db habit_name then
    let check_off_dates := select_check_off_dates db habit_name in
    match check_off_dates with
    | [] => Return (VInt 0)
    | _ :: _ =>
        match select_periodicity db habit_name with
        | None => Raises TypeError
        | Some periodicity =>
            Return (VInt (streak_of_dates periodicity check_off_dates))
        end
    end
  else Return (VStr (not_found habit_name)).

(** The loop of [longest_streak_across] over the remaining names.
    Comparing a [str] with the [int] counter is a [TypeError]. *)
Fixpoint across_loop (db : Database) (all_habits : list string)
    (longest_streak : Z) (habits_with_longest_streak : list (string * Z))
    : result (list (string * Z)) :=
  match all_habits with
  | [] => Return habits_with_longest_streak
  | habit_name :: rest =>
      match calculate_streak db habit_name with
      | Raises e => Raises e
      | Return (VStr _) => Raises TypeError
      | Return (VInt streak) =>
          if longest_streak <? streak then
            across_loop db rest streak [(habit_name, streak)]
          else if streak =? longest_streak then
            across_loop db rest longest_streak
              (habits_with_longest_streak ++ [(habit_name, streak)])%list
          else
            across_loop db rest longest_streak habits_with_longest_streak
      end
  end.

Definition longest_streak_across (db : Database)
    : result (list (string * Z)) :=
  let all_habits := select_names db in
  across_loop db all_habits 0 [].

(** [habit[1] for habit in habits]. *)
Definition get_current_habit_names (db : Database) : list string :=
  map h_name (get_current_habits db).

(** [get_info]: the rows of [SELECT * FROM habit WHERE name = ?], or the
    text of the miss. *)
Definition get_info (db : Database) (habit_name : string)
    : list habit_row + string :=
  if proof_habit db habit_name then
    inl (filter (fun r => String.eqb (h_name r) habit_name) (habit db))
  else inr (not_found habit_name).

(** [SELECT name FROM habit WHERE periodicity = ?]. *)
Definition get_periodicity (db : Database) (periodicity : string)
    : list string :=
  map h_name
      (filter (fun r => String.eqb (h_periodicity r) periodicity) (habit db)).

End Analytics.

Import Analytics.

(** ** The tables with the text of the check-off cells

    [tracker.check_of_date] is a TEXT column: [increment_tracker] stores
    whatever text it is given, [ORDER BY] compares the stored text, and
    the text is read only later, by [datetime.strptime] in
    [calculate_streak] and by SQLite's [DATE] and [strftime] in
    [check_event_exists].  Here the cell is the text itself and those
    library calls are parameters; on text that [strftime] has written
    and that the library reads back, the functions agree with the ones
    above on the values. *)

Module Stored.

(** A row of table [tracker], its date cell as stored. *)
Record tracker_row : Type := mk_tracker {
  t_id : Z;
  t_check_of_date : string;
  t_habit_name : string
}.

Record Database : Type := mk_db {
  habit : list habit_row;
  tracker : list tracker_row;
  habit_seq : Z;
  tracker_seq : Z
}.

(** [SELECT COUNT( * ) FROM habit WHERE LOWER(name) = LOWER(?)] is
    positive. *)
Definition proof_habit (db : Database) (habit_name : string) : bool :=
  0 <? Z.of_nat (List.length (filter
    (fun r => String.eqb (Text.LOWER (h_name r)) (Text.LOWER habit_name))
    (habit db))).

(** [SELECT name FROM habit WHERE LOWER(name) = LOWER(?)], answered from
    the index on [name]. *)
Definition select_name_lower (db : Database) (habit_name : string)
    : list string :=
  name_index
    (map h_name
       (filter
          (fun r => String.eqb (Text.LOWER (h_name r)) (Text.LOWER habit_name))
          (habit db))).

(** [SELECT name FROM habit], answered from the same index. *)
Definition select_names (db : Database) : list string :=
  name_index (map h_name (habit db)).

(** [increment_tracker]; [now] is the text
    [datetime.now().strftime("%Y-%m-%d %H:%M:%S")].  [not event_date]
    holds for [None] and for the empty text; any other text is stored as
    it is. *)
Definition increment_tracker (now : string) (db : Database)
    (habit_name : string) (event_date : option string)
    : Database * string :=
  let event_date :=
    match truthy event_date with Some d => d | None => now end in
  match select_name_lower db habit_name with
  | [] => (db, "Habit '" ++ habit_name ++ "' not found. Cannot add event.")
  | matched_habit :: _ =>
      let habit_name := matched_habit in
      let id := tracker_seq db + 1 in
      (mk_db (habit db)
             (tracker db ++ [mk_tracker id event_date habit_name])%list
             (habit_seq db) id,
       "Event for habit '" ++ habit_name ++ "' added on "
         ++ event_date ++ ".")
  end.

(** [SELECT * FROM tracker WHERE habit_name=?]. *)
Definition get_habit_data (db : Database) (habit_name : string)
    : list tracker_row :=
  filter (fun r => String.eqb (t_habit_name r) habit_name) (tracker db).

(** [Analytics.calculate_count]. *)
Definition calculate_count (db : Database) (habit_name : string) : Z :=
  Z.of_nat (List.length (get_habit_data db habit_name)).

(** [SELECT periodicity FROM habit WHERE LOWER(name) = LOWER(?)] and
    [fetchone()]; this query reads the rows of the table. *)
Definition get_habit_periodicity (db : Database) (habit_name : string)
    : option string :=
  match filter
          (fun r => String.eqb (Text.LOWER (h_name r)) (Text.LOWER habit_name))
          (habit db) with
  | [] => None
  | result :: _ => Some (h_periodicity result)
  end.

(** [ORDER BY check_of_date ASC] on a TEXT column: the order of the
    text. *)
Fixpoint insert_text (d : string) (l : list string) : list string :=
  match l with
  | [] => [d]
  | e :: l' => if String.leb d e then d :: l else e :: insert_text d l'
  end.

Definition order_by_text (l : list string) : list string :=
  fold_right insert_text [] l.

(** [SELECT check_of_date FROM tracker WHERE habit_name = ?
     ORDER BY check_of_date ASC]. *)
Definition select_check_off_dates (db : Database) (habit_name : string)
    : list string :=
  order_by_text (map t_check_of_date (get_habit_data db habit_name)).

(** [SELECT periodicity FROM habit WHERE name = ?] and [fetchone()]. *)
Definition select_periodicity (db : Database) (habit_name : string)
    : option string :=
  match filter (fun r => String.eqb (h_name r) habit_name) (habit db) with
  | [] => None
  | row :: _ => Some (h_periodicity row)
  end.

(** SQL [=] on two values that may be NULL: NULL equals nothing. *)
Definition sql_eq (a b : option string) : bool :=
  match a, b with
  | Some x, Some y => String.eqb x y
  | _, _ => false
  end.

Section Library.

(** [datetime.strptime(text, "%Y-%m-%d %H:%M:%S")]: the value read, or
    [None] where it raises [ValueError]. *)
Variable strptime : string -> option datetime.

(** Whether [datetime.strptime(text, "%Y-%m-%d")] returns; [add_event]
    drops the value. *)
Variable strptime_date : string -> bool.

(** SQLite's [DATE(text)] and [strftime('%Y-%W', text)]; [None] is the
    NULL they give for text they do not read as a time. *)
Variable DATE : string -> option string.
Variable strftime_year_week : string -> option string.

(** The [for] loop of [calculate_streak] on the fetched text:
    [check_off_dates[i]] is parsed first, then [check_off_dates[i - 1]],
    and the counters move as in [Analytics.loop_body]. *)
Fixpoint for_loop (periodicity : string) (previous : string)
    (rest : list string) (st : Z * Z) : result (Z * Z) :=
  match rest with
  | [] => Return st
  | current :: rest' =>
      match strptime current with
      | None => Raises ValueError
      | Some current_date =>
          match strptime previous with
          | None => Raises ValueError
          | Some previous_date =>
              for_loop periodicity current rest'
                (loop_body periodicity previous_date current_date st)
          end
      end
  end.

Definition calculate_streak (db : Database) (habit_name : string)
    : result value :=
  if proof_habit db habit_name then
    let check_off_dates := select_check_off_dates db habit_name in
    match check_off_dates with
    | [] => Return (VInt 0)
    | first :: rest =>
        match select_periodicity db habit_name with
        | None => Raises TypeError
        | Some periodicity =>
            match for_loop periodicity first rest (0, 1) with
            | Raises e => Raises e
            | Return (longest_streak, current_streak) =>
                Return (VInt (Z.max longest_streak current_streak))
            end
        end
    end
  else Return (VStr (not_found habit_name)).

(** The loop of [longest_streak_across] over the remaining names.  An
    exception of [calculate_streak] leaves the loop; comparing a [str]
    with the [int] counter is a [TypeError]. *)
Fixpoint across_loop (db : Database) (all_habits : list string)
    (longest_streak : Z) (habits_with_longest_streak : list (string * Z))
    : result (list (string * Z)) :=
  match all_habits with
  | [] => Return habits_with_longest_streak
  | habit_name :: rest =>
      match calculate_streak db habit_name with
      | Raises e => Raises e
      | Return (VStr _) => Raises TypeError
      | Return (VInt streak) =>
          if longest_streak <? streak then
            across_loop db rest streak [(habit_name, streak)]
          else if streak =? longest_streak then
            across_loop db rest longest_streak
              (habits_with_longest_streak ++ [(habit_name, streak)])%list
          else
            across_loop db rest longest_streak habits_with_longest_streak
      end
  end.

Definition longest_streak_across (db : Database)
    : result (list (string * Z)) :=
  let all_habits := select_names db in
  across_loop db all_habits 0 [].

(** [check_event_exists]: with another periodicity no query is run,
    [fetchone()] gives [None] and [None[0]] is a [TypeError]. *)
Definition check_event_exists (db : Database) (habit_name : string)
    (event_date : string) (periodicity : string) : result bool :=
  if String.eqb periodicity "daily" then
    Return (0 <? Z.of_nat (List.length (filter
      (fun r => String.eqb (t_habit_name r) habit_name &&
                sql_eq (DATE (t_check_of_date r)) (DATE event_date))
      (tracker db))))
  else if String.eqb periodicity "weekly" then
    Return (0 <? Z.of_nat (List.length (filter
      (fun r => String.eqb (t_habit_name r) habit_name &&
                sql_eq (strftime_year_week (t_check_of_date r))
                       (strftime_year_week event_date))
      (tracker db))))
  else Raises TypeError.

(** [DBHabit.add_event]; [now] is the text of [datetime.now()].  A date
    that [strptime] accepts is stored as typed, followed by
    [" 00:00:00"]; [date[:10]] is the head of that text. *)
Definition add_event (now : string) (self : Habits.Habit) (db : Database)
    (date : option string) : result (Database * string) :=
  if proof_habit db (Habits.name self) then
    let parsed :=
      match truthy date with
      | None => inl now
      | Some date =>
          if strptime_date date then inl (date ++ " 00:00:00")
          else inr date
      end in
    match parsed with
    | inr date =>
        Return (db, "Invalid date format: '" ++ date
                    ++ "'. Please use YYYY-MM-DD.")
    | inl date =>
        match truthy (get_habit_periodicity db (Habits.name self)) with
        | None =>
            Return (db, "Could not determine periodicity for habit '"
                        ++ Habits.name self ++ "'.")
        | Some periodicity =>
            match check_event_exists db (Habits.name self) date
                                     periodicity with
            | Raises e => Raises e
            | Return already_checked =>
                if already_checked && String.eqb periodicity "daily" then
                  Return (db, "Habit '" ++ Habits.name self
                              ++ "' was already checked-off on "
                              ++ String.substring 0 10 date ++ ".")
                else if already_checked && String.eqb periodicity "weekly"
                then
                  Return (db, "Habit '" ++ Habits.name self
                              ++ "' was already checked-off in this week.")
                else
                  Return (increment_tracker now db (Habits.name self)
                                            (Some date))
            end
        end
    end
  else
    Return (db, "Habit '" ++ Habits.name self
                ++ "' not found. Cannot add event.").

End Library.

(** The tables of the value-level embedding, every date cell written out
    by [strftime]. *)
Definition of_values (db : Db.Database) : Database :=
  mk_db (Db.habit db)
        (map (fun r => mk_tracker (Db.t_id r)
                                  (strftime (Db.t_check_of_date r))
                                  (Db.t_habit_name r))
             (Db.tracker db))
        (Db.habit_seq db) (Db.tracker_seq db).

End Stored.

(** ** Scenarios *)

Module Scenario.

(** [Population._add_checkoffs]. *)
Definition add_checkoffs (now : datetime) (db : Database)
    (habit_name : string) (checkoffs : list datetime) : Database :=
  fold_left
    (fun db date => fst (increment_tracker now db habit_name (Some date)))
    checkoffs db.

Definition created : string := "2024-12-01 09:00:00".

Definition clock : datetime := mk_datetime 2024 12 1 9 0 0.

(** A database with the single habit [name], stored through
    [DBHabit(name, description, periodicity).store(db)], and the given
    check-offs. *)
Definition one_habit (name description periodicity : string)
    (checkoffs : list datetime) : Database :=
  let habit := Habits.init created name description periodicity None in
  let db := fst (Habits.store habit create_tables) in
  add_checkoffs clock db name checkoffs.

(** The days of December without the 16th and the 19th. *)
Definition december_days : list Z :=
  filter (fun d => negb ((d =? 16) || (d =? 19)))
         (map Z.of_nat (seq 1 31)).

(** One check-off on each of those days of December 2024, at the time of
    day [h:m:s]. *)
Definition december_checkoffs (h m s : Z) : list datetime :=
  map (fun d => mk_datetime 2024 12 d h m s) december_days.

Definition workout_db : Database :=
  one_habit "workout" "Exercise daily" "daily" (december_checkoffs 7 0 0).

(** Two check-offs on consecutive calendar days, two hours apart. *)
Definition late_then_early : list datetime :=
  [mk_datetime 2024 12 1 23 0 0; mk_datetime 2024 12 2 1 0 0].

(** Two check-offs two calendar days apart, less than 48 hours apart. *)
Definition early_then_late : list datetime :=
  [mk_datetime 2024 12 1 1 0 0; mk_datetime 2024 12 3 0 30 0].

Definition reading_db : Database :=
  one_habit "reading" "Read a chapter" "daily" late_then_early.

(** A habit whose periodicity is neither of the two known values. *)
Definition yoga_db : Database :=
  one_habit "yoga" "Stretch" "monthly"
    [mk_datetime 2024 12 1 7 0 0; mk_datetime 2024 12 2 7 0 0].

(** Week 52 of ISO year 2024 followed by week 1 of ISO year 2025. *)
Definition year_end_checkoffs : list datetime :=
  [mk_datetime 2024 12 23 15 0 0; mk_datetime 2024 12 30 15 0 0].

(** Two habits and no check-off anywhere. *)
Definition idle_db : Database :=
  let db :=
    fst (Habits.store (Habits.init created "reading" "Read" "daily" None)
                      create_tables) in
  fst (Habits.store (Habits.init created "car wash" "Wash" "weekly" None) db).

(** Three habits; the first two are checked off on December 1st, 2nd and
    3rd, the third on December 1st only. *)
Definition ties_db : Database :=
  let three :=
    [mk_datetime 2024 12 1 0 0 0; mk_datetime 2024 12 2 0 0 0;
     mk_datetime 2024 12 3 0 0 0] in
  let store name db :=
    fst (Habits.store (Habits.init created name "" "daily" None) db) in
  let db := store "habit3" (store "habit2" (store "habit1" create_tables)) in
  let db := add_checkoffs clock db "habit1" three in
  let db := add_checkoffs clock db "habit3" [mk_datetime 2024 12 1 0 0 0] in
  add_checkoffs clock db "habit2" three.

(** A reader that accepts the padded shape [YYYY-MM-DD HH:MM:SS] of a
    valid date and time and nothing else; every text it reads,
    [datetime.strptime] and SQLite read to the same value. *)
Definition digit_value (c : ascii) : option Z :=
  let n := Text.code c in
  if (48 <=? n) && (n <=? 57) then Some (n - 48) else None.

Fixpoint read_digits (k : nat) (acc : Z) (s : string) : option (Z * string) :=
  match k with
  | O => Some (acc, s)
  | S k' =>
      match s with
      | String c s' =>
          match digit_value c with
          | Some v => read_digits k' (10 * acc + v) s'
          | None => None
          end
      | EmptyString => None
      end
  end.

(** [k] digits followed by the separator [sep]. *)
Definition read_field (k : nat) (sep : ascii) (s : string)
    : option (Z * string) :=
  match read_digits k 0 s with
  | Some (n, String c s') => if Ascii.eqb c sep then Some (n, s') else None
  | _ => None
  end.

Definition read_padded (s : string) : option datetime :=
  match read_field 4 "-" s with
  | Some (y, s) =>
  match read_field 2 "-" s with
  | Some (mo, s) =>
  match read_field 2 " " s with
  | Some (d, s) =>
  match read_field 2 ":" s with
  | Some (h, s) =>
  match read_field 2 ":" s with
  | Some (mi, s) =>
  match read_digits 2 0 s with
  | Some (se, EmptyString) =>
      let t := mk_datetime y mo d h mi se in
      if valid_datetime t then Some t else None
  | _ => None end
  | None => None end
  | None => None end
  | None => None end
  | None => None end
  | None => None end.

(** One or two digits, as [%m] and [%d] read a month or a day. *)
Definition read_short (s : string) : option (Z * string) :=
  match s with
  | String c s' =>
      match digit_value c with
      | Some v =>
          match s' with
          | String c' s'' =>
              match digit_value c' with
              | Some v' => Some (10 * v + v', s'')
              | None => Some (v, s')
              end
          | EmptyString => Some (v, s')
          end
      | None => None
      end
  | EmptyString => None
  end.

(** A reader for the format [%Y-%m-%d]: four digits of year, then month
    and day with or without the leading zero, of a valid date. *)
Definition read_date (s : string) : bool :=
  match read_field 4 "-" s with
  | Some (y, s) =>
      match read_short s with
      | Some (mo, String c s) =>
          if Ascii.eqb c "-" then
            match read_short s with
            | Some (d, EmptyString) =>
                valid_datetime (mk_datetime y mo d 0 0 0)
            | _ => false
            end
          else false
      | _ => false
      end
  | None => false
  end.

(** The padded reader behind the two SQLite functions: NULL for any
    other text. *)

Definition padded_DATE (s : string) : option string :=
  match read_padded s with Some t => Some (date_text t) | None => None end.

Definition padded_year_week (s : string) : option string :=
  match read_padded s with
  | Some t =>
      Some (pad4 (fst (sql_year_week t)) ++ "-" ++ pad2 (snd (sql_year_week t)))
  | None => None
  end.

(** The tables of [test_habit.py] after [setup_method]: the habit
    "test_habit_1" and six check-offs logged through [increment_tracker]
    with date-only text. *)
Definition date_only_db : Stored.Database :=
  fold_left
    (fun db date =>
       fst (Stored.increment_tracker created db "test_habit_1" (Some date)))
    ["2024-12-15"; "2024-12-16"; "2024-12-17"; "2024-12-19"; "2024-12-20";
     "2024-12-21"]
    (Stored.mk_db [mk_habit 1 "test_habit_1" "test_description_1" "daily"
                            created] [] 1 0).

End Scenario.

(** ** [population.py] *)

Module Population.

(** The dummy habits: name, description, periodicity. *)
Definition habits : list (string * string * string) :=
  [("workout", "Exercise daily", "daily");
   ("car wash", "Wash the car weekly", "weekly");
   ("meditation", "Meditate every day", "daily");
   ("grocery shop", "Shop weekly", "weekly");
   ("studying", "Study 30 minutes daily", "daily")].

(** [f"2024-12-{day:02d} {hour:02d}:00:00" for day in range(1, 31)
     if day not in skipped]. *)
Definition december (skipped : list Z) (hour : Z) : list datetime :=
  map (fun day => mk_datetime 2024 12 day hour 0 0)
      (filter (fun day => negb (existsb (Z.eqb day) skipped))
              (map Z.of_nat (seq 1 30))).

(** [populate_dummy_data]; [now] is the creation text of the habits and
    [clock] the reading of [datetime.now()]. *)
Definition populate_dummy_data (now : string) (clock : datetime)
    (db : Database) : Database :=
  let db :=
    fold_left
      (fun db h =>
         let '(name, description, periodicity) := h in
         fst (Habits.store (Habits.init now name description periodicity None)
                           db))
      habits db in
  let db := Scenario.add_checkoffs clock db "workout"
              (december [16; 19] 7) in
  let db := Scenario.add_checkoffs clock db "meditation"
              (december [6; 13; 19] 7) in
  let db := Scenario.add_checkoffs clock db "studying"
              (december [15; 17; 22] 8) in
  let db := Scenario.add_checkoffs clock db "car wash"
              [mk_datetime 2024 12 2 15 0 0; mk_datetime 2024 12 9 15 0 0;
               mk_datetime 2024 12 23 15 0 0] in
  Scenario.add_checkoffs clock db "grocery shop"
    [mk_datetime 2024 12 2 10 0 0; mk_datetime 2024 12 9 10 0 0;
     mk_datetime 2024 12 16 10 0 0].

(** [check_and_populate_dummy_data]. *)
Definition check_and_populate_dummy_data (now : string) (clock : datetime)
    (db : Database) : Database * string :=
  match get_current_habits db with
  | [] =>
      (populate_dummy_data now clock db,
       "No data found in the database. Dummy data populated successfully.")
  | _ :: _ =>
      (db, "Database already populated. Skipping dummy data population.")
  end.

End Population.

(** ** The calls that change the tables *)

Module Session.

Inductive operation : Type :=
| AddHabit (name description periodicity date : string)
| IncrementTracker (now : datetime) (habit_name : string)
                   (event_date : option datetime)
| DeleteHabitData (habit_name : string)
| DeleteTrackerData (habit_name : string)
| UpdateHabit (old_name : string)
              (new_name new_description new_periodicity : option string)
| DeleteDb
| Store (self : Habits.Habit)
| AddEvent (now : datetime) (self : Habits.Habit) (date : Habits.date_arg)
| Delete (self : Habits.Habit)
| Update (self : Habits.Habit)
         (new_name new_description new_periodicity : option string)
| ResetInDb (self : Habits.Habit)
| Populate (now : string) (clock : datetime).

(** The tables after one call; a call that raises commits nothing. *)
Definition run_operation (db : Database) (op : operation) : Database :=
  match op with
  | AddHabit name description periodicity date =>
      fst (add_habit db name description periodicity date)
  | IncrementTracker now habit_name event_date =>
      fst (increment_tracker now db habit_name event_date)
  | DeleteHabitData habit_name => delete_habit_data db habit_name
  | DeleteTrackerData habit_name => delete_tracker_data db habit_name
  | UpdateHabit old_name new_name new_description new_periodicity =>
      match update_habit db old_name new_name new_description
                         new_periodicity with
      | inl (db', _) => db'
      | inr _ => db
      end
  | DeleteDb => fst (delete_db db)
  | Store self => fst (Habits.store self db)
  | AddEvent now self date =>
      match Habits.add_event now self db date with
      | Return (db', _) => db'
      | Raises _ => db
      end
  | Delete self => fst (Habits.delete self db)
  | Update self new_name new_description new_periodicity =>
      match Habits.update self db new_name new_description
                          new_periodicity with
      | inl (db', _) => db'
      | inr _ => db
      end
  | ResetInDb self => fst (Habits.reset_in_db self db)
  | Populate now clock =>
      fst (Population.check_and_populate_dummy_data now clock db)
  end.

(** The tables after a sequence of calls on a fresh database. *)
Definition run (ops : list operation) : Database :=
  fold_left run_operation ops create_tables.

End Session.

(** ** Notions the statements are written with *)

Module Spec.

(** The order in which the accessor hands the timestamps over. *)
Definition ascending (l : list datetime) : Prop :=
  Sorted (fun a b => Datetime.leb a b = true) l.

(** The daily rule in the words of the specification: the calendar date
    of [current] is exactly one calendar day after the calendar date of
    [previous], whatever the times of day. *)
Definition next_calendar_day (previous current : datetime) : bool :=
  toordinal current =? toordinal previous + 1.

(** The weekly rule in the words of the specification, on two ISO
    (year, week) pairs: the same ISO year and the next week number, or
    week 52 followed by week 1 of the next ISO year. *)
Definition week_successor (previous current : Z * Z) : bool :=
  let '(py, pw) := previous in
  let '(cy, cw) := current in
  ((cy =? py) && (cw =? pw + 1)) ||
  ((pw =? 52) && (cw =? 1) && (cy =? py + 1)).

(** A periodicity the calculator knows. *)
Definition recognized (periodicity : string) : Prop :=
  periodicity = "daily" \/ periodicity = "weekly".

(** The [UNIQUE] constraint on [habit.name]. *)
Definition unique_names (db : Database) : Prop :=
  NoDup (map h_name (habit db)).

(** The running maximum of the aggregator, started at [m]. *)
Definition running_max (m : Z) (ps : list (string * Z)) : Z :=
  fold_left (fun m p => Z.max m (snd p)) ps m.

(** The pairs whose streak is [m]. *)
Definition attaining (m : Z) (ps : list (string * Z)) : list (string * Z) :=
  filter (fun p => snd p =? m) ps.

(** The row [add_habit] stores for its four arguments. *)
Definition stored_row (db : Database)
    (name description periodicity date : string) : habit_row :=
  mk_habit (habit_seq db + 1)
           (Text.lower (Text.strip name))
           (if Text.is_empty (Text.strip description)
            then "No description" else description)
           periodicity date.

(** The foreign key of [tracker.habit_name]: every check-off belongs to
    a stored habit. *)
Definition foreign_keys_ok (db : Database) : Prop :=
  Forall (fun t => In (t_habit_name t) (map h_name (habit db))) (tracker db).

(** Ids grow along each table and never exceed the table's counter. *)
Definition ids_ok (db : Database) : Prop :=
  (0 <= habit_seq db /\
   StronglySorted Z.lt (map h_id (habit db)) /\
   Forall (fun i => 1 <= i <= habit_seq db) (map h_id (habit db))) /\
  (0 <= tracker_seq db /\
   StronglySorted Z.lt (map t_id (tracker db)) /\
   Forall (fun i => 1 <= i <= tracker_seq db) (map t_id (tracker db))).

(** No stored name is empty. *)
Definition names_not_empty (db : Database) : Prop :=
  Forall (fun r => h_name r <> EmptyString) (habit db).

Definition consistent (db : Database) : Prop :=
  unique_names db /\ foreign_keys_ok db /\ ids_ok db /\ names_not_empty db.

(** How the ids of one table may differ between a state and a later
    one: the counter has not gone back, and every id of the later table
    is an id of the earlier table or lies above the earlier counter. *)
Definition ids_advance (ids : list Z) (seq : Z) (ids' : list Z) (seq' : Z)
    : Prop :=
  seq <= seq' /\ Forall (fun i => In i ids \/ seq < i) ids'.

Definition advances (db db' : Database) : Prop :=
  ids_advance (map h_id (habit db)) (habit_seq db)
              (map h_id (habit db')) (habit_seq db') /\
  ids_advance (map t_id (tracker db)) (tracker_seq db)
              (map t_id (tracker db')) (tracker_seq db').

(** No two stored names are equal up to ASCII case. *)
Definition lower_unique (db : Database) : Prop :=
  NoDup (map (fun r => Text.LOWER (h_name r)) (habit db)).

(** The test of the loop body of [calculate_streak] on one pair. *)
Definition extends (periodicity : string) (previous current : datetime)
    : bool :=
  if String.eqb periodicity "daily" then
    timedelta_days current previous =? 1
  else if String.eqb periodicity "weekly" then
    week_successor (isocalendar previous) (isocalendar current)
  else false.

(** Every entry of the list extends the run of the one before it. *)
Fixpoint chain (adjacent : datetime -> datetime -> bool)
    (l : list datetime) : bool :=
  match l with
  | [] => true
  | x :: l' =>
      match l' with
      | [] => true
      | y :: _ => adjacent x y && chain adjacent l'
      end
  end.

(** [seg] is a run of consecutive entries of [l]. *)
Definition segment (seg l : list datetime) : Prop :=
  exists pre post, l = (pre ++ seg ++ post)%list.

(** The daily loop in the words of the specification, with the calendar
    rule, on the counters [(longest, current)]. *)
Fixpoint calendar_loop (previous : datetime) (rest : list datetime)
    (st : Z * Z) : Z * Z :=
  match rest with
  | [] => st
  | current :: rest' =>
      calendar_loop current rest'
        (if next_calendar_day previous current
         then (fst st, snd st + 1)
         else (Z.max (fst st) (snd st), 1))
  end.

Definition calendar_streak (l : list datetime) : Z :=
  match l with
  | [] => 0
  | first :: rest =>
      let st := calendar_loop first rest (0, 1) in
      Z.max (fst st) (snd st)
  end.

(** A value [strftime] writes with four digits of year: a valid date and
    time from the year 1000 on. *)
Definition written (t : datetime) : Prop :=
  valid_datetime t = true /\ 1000 <= year t.

(** A value whose text the library reads back: a valid date and time
    of a year with four digits (the years for which [%Y] writes four),
    that [strptime] parses from the text [strftime] writes for it. *)
Definition reads_back (strptime : string -> option datetime) (t : datetime)
    : Prop :=
  valid_datetime t = true /\ 1000 <= year t /\
  strptime (strftime t) = Some t.

(** The values of a list of texts, when [strptime] reads every one. *)
Fixpoint parse_all (strptime : string -> option datetime)
    (texts : list string) : option (list datetime) :=
  match texts with
  | [] => Some []
  | text :: texts' =>
      match strptime text, parse_all strptime texts' with
      | Some v, Some vs => Some (v :: vs)
      | _, _ => None
      end
  end.

(** The foreign key and the uniqueness of names, on the tables with the
    stored text. *)
Definition stored_foreign_keys_ok (db : Stored.Database) : Prop :=
  Forall (fun t => In (Stored.t_habit_name t)
                      (map h_name (Stored.habit db)))
         (Stored.tracker db).


(** The Monday that starts the week of [t], as an ordinal. *)
Definition monday_of (t : datetime) : Z := toordinal t - weekday t.

End Spec.

Import Spec.

(** * Properties *)

(** ** Lists and the tables *)

Lemma filter_In_length {A : Type} (f : A -> bool) (l : list A) (x : A) :
  In x l -> f x = true -> (0 < List.length (filter f l))%nat.
Proof.
  induction l as [|a l IH]; simpl; [tauto|].
  intros [->|Hin] Hf.
  - rewrite Hf. simpl. lia.
  - destruct (f a); simpl; [lia|auto].
Qed.

(** The name index holds the names it is given, each as often. *)
Lemma insert_name_permutation (n : string) (l : list string) :
  Permutation (insert_name n l) (n :: l).
Proof.
  induction l as [|e l IH]; cbn [insert_name]; [reflexivity|].
  destruct (String.leb n e); [reflexivity|].
  rewrite IH. apply perm_swap.
Qed.

Lemma name_index_permutation (l : list string) :
  Permutation (name_index l) l.
Proof.
  induction l as [|n l IH]; [reflexivity|].
  unfold name_index in *. cbn [fold_right].
  rewrite insert_name_permutation. constructor. exact IH.
Qed.

Lemma name_index_In (l : list string) (n : string) :
  In n (name_index l) <-> In n l.
Proof.
  split; apply Permutation_in;
    [|symmetry]; apply name_index_permutation.
Qed.

(** A name the query [SELECT name ... WHERE LOWER(name) = LOWER(?)]
    yields is the name of a row that matches. *)
Lemma select_name_lower_In (db : Database) (x n : string) :
  In n (select_name_lower db x) <->
  exists r, In r (habit db) /\ h_name r = n /\
            Text.LOWER (h_name r) = Text.LOWER x.
Proof.
  unfold select_name_lower. rewrite name_index_In, in_map_iff.
  split.
  - intros (r & E & Hr). apply filter_In in Hr. destruct Hr as [Hr Hm].
    apply String.eqb_eq in Hm. exists r. tauto.
  - intros (r & Hr & E & Hm). exists r. split; [exact E|].
    apply filter_In. split; [exact Hr|]. apply String.eqb_eq. exact Hm.
Qed.

Lemma proof_habit_stored (db : Database) (row : habit_row) :
  In row (habit db) -> proof_habit db (h_name row) = true.
Proof.
  intros Hin. unfold proof_habit, count_lower.
  apply Z.ltb_lt.
  pose proof (filter_In_length
    (fun r => String.eqb (Text.LOWER (h_name r)) (Text.LOWER (h_name row)))
    (habit db) row Hin (String.eqb_refl _)).
  lia.
Qed.

Lemma select_periodicity_stored (db : Database) (row : habit_row) :
  In row (habit db) ->
  exists p, select_periodicity db (h_name row) = Some p.
Proof.
  intros Hin. unfold select_periodicity.
  pose proof (filter_In_length
    (fun r => String.eqb (h_name r) (h_name row))
    (habit db) row Hin (String.eqb_refl _)) as Hlen.
  destruct (filter _ (habit db)) as [|r l]; simpl in Hlen; [lia|eauto].
Qed.

Lemma insert_asc_length (d : datetime) (l : list datetime) :
  List.length (insert_asc d l) = S (List.length l).
Proof.
  induction l as [|e l IH]; simpl; [reflexivity|].
  destruct (Datetime.leb d e); simpl; congruence.
Qed.

Lemma order_by_asc_length (l : list datetime) :
  List.length (order_by_asc l) = List.length l.
Proof.
  induction l as [|d l IH]; simpl; [reflexivity|].
  rewrite insert_asc_length. congruence.
Qed.

Lemma select_check_off_dates_length (db : Database) (habit_name : string) :
  Z.of_nat (List.length (select_check_off_dates db habit_name))
  = calculate_count db habit_name.
Proof.
  unfold select_check_off_dates, calculate_count, get_habit_data.
  rewrite order_by_asc_length, length_map. reflexivity.
Qed.

(** What [calculate_streak] returns for the name of a stored habit. *)
Lemma calculate_streak_stored (db : Database) (row : habit_row) :
  In row (habit db) ->
  exists p,
    select_periodicity db (h_name row) = Some p /\
    calculate_streak db (h_name row)
    = Return (VInt (streak_of_dates p
                      (select_check_off_dates db (h_name row)))).
Proof.
  intros Hin.
  destruct (select_periodicity_stored db row Hin) as [p Hp].
  exists p. split; [exact Hp|].
  unfold calculate_streak.
  rewrite (proof_habit_stored db row Hin), Hp.
  destruct (select_check_off_dates db (h_name row)); reflexivity.
Qed.

(** ** The loop of [calculate_streak] *)

Lemma loop_body_cases (p : string) (prev cur : datetime) (l c : Z) :
  loop_body p prev cur (l, c) = (l, c + 1) \/
  loop_body p prev cur (l, c) = (Z.max l c, 1) \/
  loop_body p prev cur (l, c) = (l, c).
Proof.
  unfold loop_body.
  destruct (String.eqb p "daily").
  - destruct (timedelta_days cur prev =? 1); auto.
  - destruct (String.eqb p "weekly"); auto.
    match goal with |- context [if ?b then _ else _] => destruct b end; auto.
Qed.

Lemma last_cons_default {A : Type} (x : A) (l : list A) (d1 d2 : A) :
  last (x :: l) d1 = last (x :: l) d2.
Proof.
  revert x. induction l as [|y l IH]; intros x; [reflexivity|].
  change (last (y :: l) d1 = last (y :: l) d2). apply IH.
Qed.

Lemma for_loop_app (p : string) (prev : datetime) (rest : list datetime)
    (t : datetime) (st : Z * Z) :
  for_loop p prev (rest ++ [t])%list st
  = loop_body p (last rest prev) t (for_loop p prev rest st).
Proof.
  revert prev st. induction rest as [|d rest IH]; intros prev st.
  - reflexivity.
  - change (for_loop p prev ((d :: rest) ++ [t])%list st)
      with (for_loop p d (rest ++ [t])%list (loop_body p prev d st)).
    rewrite IH. cbn [for_loop].
    destruct rest as [|e rest]; [reflexivity|].
    rewrite (last_cons_default e rest d prev). reflexivity.
Qed.

(** Appending one timestamp runs the loop body once more, on the last
    pair. *)
Lemma loop_state_snoc (p : string) (ts : list datetime) (prev t : datetime) :
  loop_state p ((ts ++ [prev]) ++ [t])%list
  = loop_body p prev t (loop_state p (ts ++ [prev])%list).
Proof.
  destruct ts as [|d ts]; [reflexivity|].
  cbn [app loop_state].
  rewrite for_loop_app, last_last. reflexivity.
Qed.

Lemma firstn_succ_nth_error {A : Type} (l : list A) (i : nat) (x : A) :
  nth_error l i = Some x -> firstn (S i) l = (firstn i l ++ [x])%list.
Proof.
  revert i. induction l as [|a l IH]; intros [|i] H; try discriminate.
  - injection H as ->. reflexivity.
  - cbn [nth_error] in H. cbn [firstn app]. f_equal.
    apply IH. exact H.
Qed.

(** Iteration [i + 1] of [for i in range(1, len(check_off_dates))]: the
    counters after reading the first [i + 2] entries come from those
    after the first [i + 1] by one run of the body on
    [check_off_dates[i]] and [check_off_dates[i + 1]]. *)
Lemma loop_state_iteration (p : string) (check_off_dates : list datetime)
    (i : nat) (previous_date current_date : datetime) :
  nth_error check_off_dates i = Some previous_date ->
  nth_error check_off_dates (S i) = Some current_date ->
  loop_state p (firstn (S (S i)) check_off_dates)
  = loop_body p previous_date current_date
              (loop_state p (firstn (S i) check_off_dates)).
Proof.
  intros Hp Hc.
  rewrite (firstn_succ_nth_error _ _ _ Hc), (firstn_succ_nth_error _ _ _ Hp).
  apply loop_state_snoc.
Qed.

Ltac split_loop_body p prev cur l c :=
  destruct (loop_body_cases p prev cur l c) as [E|[E|E]]; rewrite E; clear E.

(** The counters stay within the number of timestamps read so far, and
    the current run never drops below 1. *)
Lemma for_loop_bounds (p : string) (rest : list datetime) :
  forall (prev : datetime) (l c k : Z),
    0 <= l <= k -> 1 <= c <= k ->
    0 <= fst (for_loop p prev rest (l, c))
      <= k + Z.of_nat (List.length rest) /\
    1 <= snd (for_loop p prev rest (l, c))
      <= k + Z.of_nat (List.length rest).
Proof.
  induction rest as [|d rest IH]; intros prev l c k Hl Hc.
  - simpl. lia.
  - cbn [for_loop List.length]. rewrite Nat2Z.inj_succ.
    split_loop_body p prev d l c.
    + pose proof (IH d l (c + 1) (k + 1) ltac:(lia) ltac:(lia)). lia.
    + pose proof (IH d (Z.max l c) 1 (k + 1) ltac:(lia) ltac:(lia)). lia.
    + pose proof (IH d l c (k + 1) ltac:(lia) ltac:(lia)). lia.
Qed.

Lemma streak_of_dates_bounds (p : string) (ds : list datetime) :
  0 <= streak_of_dates p ds <= Z.of_nat (List.length ds) /\
  (streak_of_dates p ds = 0 <-> ds = []).
Proof.
  destruct ds as [|d rest].
  - simpl. split; [lia|tauto].
  - unfold streak_of_dates, loop_state.
    pose proof (for_loop_bounds p rest d 0 1 1 ltac:(lia) ltac:(lia)) as H.
    destruct (for_loop p d rest (0, 1)) as [l c]. cbn [fst snd] in H.
    cbn [List.length]. rewrite Nat2Z.inj_succ. split; [lia|].
    split; [lia|discriminate].
Qed.

Lemma streak_of_dates_nonempty (p : string) (ds : list datetime) :
  ds <> [] ->
  streak_of_dates p ds
  = Z.max (fst (loop_state p ds)) (snd (loop_state p ds)).
Proof.
  destruct ds as [|d rest]; [congruence|]. intros _.
  unfold streak_of_dates.
  destruct (loop_state p (d :: rest)); reflexivity.
Qed.

(** ** Zero, one and many check-offs *)

(** C5: for a habit of the table, [calculate_streak] returns 0 when the
    habit has no check-off and 1 when it has exactly one, whatever the
    periodicity of the habit (daily and weekly included). *)
Theorem calculate_streak_zero_or_one_checkoff
    (db : Database) (row : habit_row) :
  In row (habit db) ->
  (calculate_count db (h_name row) = 0 ->
   calculate_streak db (h_name row) = Return (VInt 0)) /\
  (calculate_count db (h_name row) = 1 ->
   calculate_streak db (h_name row) = Return (VInt 1)).
Proof.
  intros Hin.
  destruct (calculate_streak_stored db row Hin) as (p & _ & ->).
  rewrite <- select_check_off_dates_length.
  destruct (select_check_off_dates db (h_name row)) as [|d [|e rest]];
    cbn [List.length]; split; intros H; try reflexivity; lia.
Qed.

Lemma calculate_streak_zero_or_one_checkoff_witness :
  calculate_streak (Scenario.one_habit "car wash" "Wash the car" "weekly" [])
                   "car wash" = Return (VInt 0) /\
  calculate_streak (Scenario.one_habit "car wash" "Wash the car" "weekly"
                      [mk_datetime 2024 12 2 15 0 0])
                   "car wash" = Return (VInt 1).
Proof.
  split.
  - apply (calculate_streak_zero_or_one_checkoff
             (Scenario.one_habit "car wash" "Wash the car" "weekly" [])
             (mk_habit 1 "car wash" "Wash the car" "weekly"
                       Scenario.created)).
    + vm_compute. left. reflexivity.
    + vm_compute. reflexivity.
  - apply (calculate_streak_zero_or_one_checkoff
             (Scenario.one_habit "car wash" "Wash the car" "weekly"
                [mk_datetime 2024 12 2 15 0 0])
             (mk_habit 1 "car wash" "Wash the car" "weekly"
                       Scenario.created)).
    + vm_compute. left. reflexivity.
    + vm_compute. reflexivity.
Defined.

(** C9: the number [calculate_streak] computes on lines 93-134 from the
    timestamps of a habit is an integer between 0 and the number of those
    timestamps, and it is 0 exactly when there is none, so it is at least
    1 as soon as the habit has a check-off.  The bound holds for every
    periodicity text, the two recognized ones included. *)
Theorem streak_within_number_of_checkoffs
    (periodicity : string) (check_off_dates : list datetime) :
  0 <= streak_of_dates periodicity check_off_dates
    <= Z.of_nat (List.length check_off_dates) /\
  (streak_of_dates periodicity check_off_dates = 0 <-> check_off_dates = []) /\
  (check_off_dates <> [] -> 1 <= streak_of_dates periodicity check_off_dates).
Proof.
  destruct (streak_of_dates_bounds periodicity check_off_dates) as [Hb Hz].
  split; [exact Hb|]. split; [exact Hz|].
  intros Hne.
  assert (streak_of_dates periodicity check_off_dates <> 0)
    by (intros E; apply Hne, Hz, E).
  lia.
Qed.

Lemma streak_of_dates_append_le
    (p : string) (ts : list datetime) (t : datetime) :
  streak_of_dates p ts <= streak_of_dates p (ts ++ [t])%list.
Proof.
  induction ts as [|prev ts _] using rev_ind.
  - vm_compute. discriminate.
  - rewrite !streak_of_dates_nonempty
      by (intros E; apply app_eq_nil in E; destruct E; discriminate).
    rewrite loop_state_snoc.
    destruct (loop_state p (ts ++ [prev])%list) as [l c].
    split_loop_body p prev t l c; cbn [fst snd]; lia.
Qed.

(** C10: for an ascending sequence of timestamps and a recognized
    periodicity, appending one further timestamp at the end never lowers
    the streak. *)
Theorem streak_of_dates_monotone_append
    (p : string) (ts : list datetime) (t : datetime) :
  recognized p -> ascending (ts ++ [t])%list ->
  streak_of_dates p ts <= streak_of_dates p (ts ++ [t])%list.
Proof.
  intros _ _. apply streak_of_dates_append_le.
Qed.

Lemma streak_of_dates_monotone_append_witness :
  streak_of_dates "weekly" [mk_datetime 2024 12 23 15 0 0]
  <= streak_of_dates "weekly" Scenario.year_end_checkoffs.
Proof.
  apply (streak_of_dates_monotone_append "weekly"
           [mk_datetime 2024 12 23 15 0 0] (mk_datetime 2024 12 30 15 0 0)).
  - right. reflexivity.
  - repeat constructor.
Defined.

Lemma insert_asc_last (d t : datetime) (l : list datetime) :
  Datetime.leb d t = true ->
  insert_asc d (l ++ [t])%list = (insert_asc d l ++ [t])%list.
Proof.
  intros Hle. induction l as [|e l IH]; cbn [app insert_asc].
  - rewrite Hle. reflexivity.
  - destruct (Datetime.leb d e); [reflexivity|].
    rewrite IH. reflexivity.
Qed.

(** A timestamp that is not before any stored one is fetched last. *)
Lemma order_by_asc_last (l : list datetime) (t : datetime) :
  Forall (fun e => Datetime.leb e t = true) l ->
  order_by_asc (l ++ [t])%list = (order_by_asc l ++ [t])%list.
Proof.
  induction 1 as [|e l He _ IH]; [reflexivity|].
  cbn [app]. unfold order_by_asc in *. cbn [fold_right].
  rewrite IH. apply insert_asc_last. exact He.
Qed.

(** ** A name without a record *)

(** C6: when no record matches the name, [calculate_streak] returns the
    text [Habit '<name>' not found.], which is no integer: the caller can
    tell it from the streak 0 of a habit that exists. *)
Theorem calculate_streak_not_found (db : Database) (habit_name : string) :
  proof_habit db habit_name = false ->
  calculate_streak db habit_name
  = Return (VStr ("Habit '" ++ habit_name ++ "' not found.")) /\
  forall n, calculate_streak db habit_name <> Return (VInt n).
Proof.
  intros H. unfold calculate_streak. rewrite H.
  split; [reflexivity|discriminate].
Qed.

Lemma calculate_streak_not_found_witness :
  calculate_streak Scenario.workout_db "swimming"
  = Return (VStr "Habit 'swimming' not found.") /\
  forall n, calculate_streak Scenario.workout_db "swimming"
            <> Return (VInt n).
Proof.
  apply (calculate_streak_not_found Scenario.workout_db "swimming").
  vm_compute. reflexivity.
Defined.

(** A name that matches a record never yields text. *)
Lemma calculate_streak_found_no_text (db : Database) (habit_name : string) :
  proof_habit db habit_name = true ->
  forall s, calculate_streak db habit_name <> Return (VStr s).
Proof.
  intros H s. unfold calculate_streak. rewrite H.
  destruct (select_check_off_dates db habit_name); [discriminate|].
  destruct (select_periodicity db habit_name); discriminate.
Qed.

(** ** The adjacency rules *)

Lemma loop_state_current_positive (p : string) (ds : list datetime) :
  1 <= snd (loop_state p ds).
Proof.
  destruct ds as [|d rest]; [simpl; lia|].
  unfold loop_state.
  pose proof (for_loop_bounds p rest d 0 1 1 ltac:(lia) ltac:(lia)). lia.
Qed.

(** The weekly branch of the loop body tests the week successor of the
    specification. *)
Lemma loop_body_weekly (previous current : datetime) (l c : Z) :
  loop_body "weekly" previous current (l, c)
  = if week_successor (isocalendar previous) (isocalendar current)
    then (l, c + 1) else (Z.max l c, 1).
Proof.
  unfold loop_body, week_successor.
  change (String.eqb "weekly" "daily") with false.
  change (String.eqb "weekly" "weekly") with true.
  destruct (isocalendar previous) as [py pw].
  destruct (isocalendar current) as [cy cw].
  cbn [fst snd].
  destruct (cy =? py), (cw =? pw + 1), (cy =? py + 1), (pw =? 52), (cw =? 1);
    reflexivity.
Qed.

(** C3: on a weekly habit the pair [previous], [current] extends the
    current run exactly when the ISO (year, week) of [current] is the
    successor of that of [previous] (same ISO year and next week, or week
    52 followed by week 1 of the next ISO year); otherwise the run is
    folded into the longest one and restarts at 1.  The pair
    2024-12-23, 2024-12-30 crosses from week 52 of 2024 to week 1 of 2025
    and counts as adjacent. *)
Theorem weekly_run_extends_iff_week_successor
    (ts : list datetime) (previous current : datetime) :
  let st := loop_state "weekly" (ts ++ [previous])%list in
  let st' := loop_state "weekly" ((ts ++ [previous]) ++ [current])%list in
  st' = (if week_successor (isocalendar previous) (isocalendar current)
         then (fst st, snd st + 1)
         else (Z.max (fst st) (snd st), 1)) /\
  (snd st' = snd st + 1
   <-> week_successor (isocalendar previous) (isocalendar current) = true) /\
  map isocalendar Scenario.year_end_checkoffs = [(2024, 52); (2025, 1)] /\
  streak_of_dates "weekly" Scenario.year_end_checkoffs = 2.
Proof.
  cbv zeta. rewrite loop_state_snoc.
  pose proof (loop_state_current_positive "weekly" (ts ++ [previous])%list)
    as Hpos.
  destruct (loop_state "weekly" (ts ++ [previous])%list) as [l c].
  cbn [fst snd] in *. rewrite loop_body_weekly.
  split; [reflexivity|].
  split; [|split; reflexivity].
  destruct (week_successor (isocalendar previous) (isocalendar current));
    cbn [snd]; split; intros H; try reflexivity; try discriminate; lia.
Qed.

(** The daily branch of the loop body tests the whole days elapsed
    between the two timestamps. *)
Lemma loop_body_daily (previous current : datetime) (l c : Z) :
  loop_body "daily" previous current (l, c)
  = if timedelta_days current previous =? 1
    then (l, c + 1) else (Z.max l c, 1).
Proof. reflexivity. Qed.

(** When [current] is not earlier in its day than [previous] in its own,
    the elapsed whole days are the calendar days between the dates. *)
Lemma timedelta_days_calendar (previous current : datetime) :
  0 <= seconds_of_day current - seconds_of_day previous < 86400 ->
  timedelta_days current previous = toordinal current - toordinal previous.
Proof.
  intros H. unfold timedelta_days.
  rewrite (Z.div_small _ _ H). lia.
Qed.

(** The time of day of a [datetime] object lies within one day, so
    the condition above says that [current] is not earlier in its day
    than [previous]. *)
Lemma seconds_of_day_range (t : datetime) :
  valid_datetime t = true -> 0 <= seconds_of_day t < 86400.
Proof.
  unfold valid_datetime, seconds_of_day. intros H.
  repeat (apply andb_prop in H; destruct H as [H ?]).
  repeat match goal with
         | H : (_ <=? _) = true |- _ => apply Z.leb_le in H
         | H : (_ <? _) = true |- _ => apply Z.ltb_lt in H
         end.
  lia.
Qed.

(** On such a pair the daily test is the calendar rule of the
    specification.  Check-offs entered with a date only are stored at
    00:00:00 and always form such pairs. *)
Lemma loop_body_daily_calendar (previous current : datetime) (l c : Z) :
  0 <= seconds_of_day current - seconds_of_day previous < 86400 ->
  loop_body "daily" previous current (l, c)
  = if next_calendar_day previous current
    then (l, c + 1) else (Z.max l c, 1).
Proof.
  intros H. rewrite loop_body_daily, (timedelta_days_calendar _ _ H).
  unfold next_calendar_day.
  destruct (Z.eqb_spec (toordinal current - toordinal previous) 1),
           (Z.eqb_spec (toordinal current) (toordinal previous + 1));
    try reflexivity; lia.
Qed.

(** C1, on the code: the daily test is [(current - previous).days == 1],
    the whole days elapsed between the two timestamps, not the distance
    of their calendar dates.  23:00 on December 1st followed by 01:00 on
    December 2nd are consecutive calendar days, yet the run is not
    extended and the streak is 1; 01:00 on December 1st followed by 00:30
    on December 3rd are two calendar days apart, yet the run is extended
    and the streak is 2. *)
Theorem daily_rule_counts_elapsed_days :
  (forallb valid_datetime Scenario.late_then_early = true /\
   ascending Scenario.late_then_early /\
   next_calendar_day (mk_datetime 2024 12 1 23 0 0)
                     (mk_datetime 2024 12 2 1 0 0) = true /\
   loop_state "daily" Scenario.late_then_early = (1, 1) /\
   calculate_streak Scenario.reading_db "reading" = Return (VInt 1)) /\
  (forallb valid_datetime Scenario.early_then_late = true /\
   ascending Scenario.early_then_late /\
   next_calendar_day (mk_datetime 2024 12 1 1 0 0)
                     (mk_datetime 2024 12 3 0 30 0) = false /\
   loop_state "daily" Scenario.early_then_late = (0, 2) /\
   streak_of_dates "daily" Scenario.early_then_late = 2).
Proof.
  split; (split; [vm_compute; reflexivity|]);
    (split; [repeat constructor|]);
    (split; [vm_compute; reflexivity|]);
    split; vm_compute; reflexivity.
Qed.

(** ** A periodicity that is neither daily nor weekly *)

Lemma filter_unique_name (l : list habit_row) (row : habit_row) :
  NoDup (map h_name l) -> In row l ->
  filter (fun r => String.eqb (h_name r) (h_name row)) l = [row].
Proof.
  induction l as [|a l IH]; intros Hnd Hin; [contradiction|].
  cbn [map] in Hnd. inversion Hnd as [|? ? Hnotin Hnd']; subst.
  cbn [filter]. destruct Hin as [->|Hin].
  - rewrite String.eqb_refl. f_equal.
    clear IH Hnd Hnd'. induction l as [|b l IHl]; [reflexivity|].
    cbn [filter map In] in *.
    destruct (String.eqb_spec (h_name b) (h_name row)) as [E|_].
    + exfalso. apply Hnotin. left. exact E.
    + apply IHl. intros H. apply Hnotin. right. exact H.
  - destruct (String.eqb_spec (h_name a) (h_name row)) as [E|_].
    + exfalso. apply Hnotin. rewrite E. apply in_map. exact Hin.
    + apply IH; assumption.
Qed.

(** Under the [UNIQUE] constraint the periodicity fetched for the name of
    a row is the periodicity of that row. *)
Lemma select_periodicity_unique (db : Database) (row : habit_row) :
  unique_names db -> In row (habit db) ->
  select_periodicity db (h_name row) = Some (h_periodicity row).
Proof.
  intros Hu Hin. unfold select_periodicity.
  rewrite (filter_unique_name _ _ Hu Hin). reflexivity.
Qed.

Lemma for_loop_unrecognized (p : string) (rest : list datetime) :
  ~ recognized p ->
  forall prev st, for_loop p prev rest st = st.
Proof.
  intros Hp. induction rest as [|d rest IH]; intros prev st; [reflexivity|].
  cbn [for_loop]. rewrite IH. unfold loop_body. destruct st as [l c].
  destruct (String.eqb_spec p "daily") as [E|_];
    [exfalso; apply Hp; left; exact E|].
  destruct (String.eqb_spec p "weekly") as [E|_];
    [exfalso; apply Hp; right; exact E|].
  reflexivity.
Qed.

(** C2 as stated fails: the habit "yoga" is stored with the periodicity
    "monthly" and two check-offs, and [calculate_streak] returns the
    number 1 for it. *)
Lemma unknown_periodicity_not_refused :
  ~ (forall (db : Database) (row : habit_row),
       unique_names db -> In row (habit db) ->
       ~ recognized (h_periodicity row) ->
       forall n, calculate_streak db (h_name row) <> Return (VInt n)).
Proof.
  intros H.
  apply (H Scenario.yoga_db
           (mk_habit 1 "yoga" "Stretch" "monthly" Scenario.created)) with 1.
  - vm_compute. repeat constructor. intros [].
  - vm_compute. left. reflexivity.
  - cbn [h_periodicity]. intros [E|E]; discriminate E.
  - vm_compute. reflexivity.
Qed.

(** C2, amended: for a periodicity that is neither "daily" nor "weekly"
    [calculate_streak] has no refusing branch.  Its loop has no arm for
    such a value: no pair of fetched timestamps changes the counters,
    they end as they started, and the number computed from the
    timestamps is 0 when there is none and 1 when there is at least
    one. *)
Theorem unknown_periodicity_counts_no_pair
    (periodicity : string) (check_off_dates : list datetime) :
  ~ recognized periodicity ->
  (forall previous_date current_date st,
     loop_body periodicity previous_date current_date st = st) /\
  loop_state periodicity check_off_dates = (0, 1) /\
  streak_of_dates periodicity check_off_dates
  = match check_off_dates with [] => 0 | _ :: _ => 1 end.
Proof.
  intros Hp. split; [|split].
  - intros previous_date current_date st.
    exact (for_loop_unrecognized periodicity [current_date] Hp
             previous_date st).
  - destruct check_off_dates as [|d rest]; [reflexivity|].
    apply (for_loop_unrecognized _ rest Hp).
  - destruct check_off_dates as [|d rest]; [reflexivity|].
    unfold streak_of_dates, loop_state.
    rewrite (for_loop_unrecognized _ rest Hp). reflexivity.
Qed.

Lemma unknown_periodicity_counts_no_pair_witness :
  streak_of_dates "monthly"
    [mk_datetime 2024 12 1 7 0 0; mk_datetime 2024 12 2 7 0 0] = 1.
Proof.
  apply (unknown_periodicity_counts_no_pair "monthly"
           [mk_datetime 2024 12 1 7 0 0; mk_datetime 2024 12 2 7 0 0]).
  intros [E|E]; discriminate E.
Defined.

(** ** The December scenario *)






(** ** The longest streak across all habits *)

Lemma running_max_ge (ps : list (string * Z)) :
  forall m, m <= running_max m ps.
Proof.
  unfold running_max.
  induction ps as [|p ps IH]; intros m; cbn [fold_left]; [lia|].
  specialize (IH (Z.max m (snd p))). lia.
Qed.

Lemma running_max_upper (ps : list (string * Z)) :
  forall m q, In q ps -> snd q <= running_max m ps.
Proof.
  unfold running_max.
  induction ps as [|p ps IH]; intros m q Hin; [contradiction|].
  cbn [fold_left]. destruct Hin as [->|Hin].
  - pose proof (running_max_ge ps (Z.max m (snd q))) as H.
    unfold running_max in H. lia.
  - apply IH. exact Hin.
Qed.

Lemma running_max_cases (ps : list (string * Z)) :
  forall m,
    running_max m ps = m \/
    exists q, In q ps /\ snd q = running_max m ps.
Proof.
  unfold running_max.
  induction ps as [|p ps IH]; intros m; cbn [fold_left]; [left; reflexivity|].
  destruct (IH (Z.max m (snd p))) as [E|(q & Hq & E)].
  - rewrite E. destruct (Z.max_spec m (snd p)) as [[_ ->]|[_ ->]].
    + right. exists p. split; [left|]; reflexivity.
    + left. reflexivity.
  - right. exists q. split; [right; exact Hq|exact E].
Qed.

Lemma attaining_none (m M : Z) (acc : list (string * Z)) :
  (forall p, In p acc -> snd p = m) -> m <> M -> attaining M acc = [].
Proof.
  intros Hacc Hne. unfold attaining.
  induction acc as [|a acc IH]; [reflexivity|].
  cbn [filter]. rewrite (Hacc a (or_introl eq_refl)).
  destruct (Z.eqb_spec m M); [contradiction|].
  apply IH. intros p Hp. apply Hacc. right. exact Hp.
Qed.

Lemma running_max_zero (names : list string) :
  running_max 0 (map (fun n => (n, 0)) names) = 0.
Proof.
  unfold running_max. induction names as [|a l IH]; [reflexivity|exact IH].
Qed.

Lemma attaining_zero (names : list string) :
  attaining 0 (map (fun n => (n, 0)) names) = map (fun n => (n, 0)) names.
Proof.
  unfold attaining. induction names as [|a l IH]; [reflexivity|].
  cbn [map filter snd]. rewrite Z.eqb_refl. f_equal. exact IH.
Qed.

(** The tie of the specification: "habit1" and "habit2" both reach 3. *)
Example longest_streak_across_two_ties :
  longest_streak_across Scenario.ties_db
  = Return [("habit1", 3); ("habit2", 3)].
Proof. vm_compute. reflexivity. Qed.

(** ** Adding a habit *)

Lemma count_lower_positive (db : Database) (row : habit_row) (n : string) :
  In row (habit db) -> Text.LOWER (h_name row) = Text.LOWER n ->
  (0 <? count_lower db n) = true.
Proof.
  intros Hin E. unfold count_lower. apply Z.ltb_lt.
  pose proof (filter_In_length
    (fun r => String.eqb (Text.LOWER (h_name r)) (Text.LOWER n))
    (habit db) row Hin) as H.
  cbv beta in H. rewrite E, String.eqb_refl in H.
  specialize (H eq_refl). lia.
Qed.

(** Without a row of the same name up to ASCII case there is no row of
    exactly that name, and the [INSERT] meets no [UNIQUE] conflict. *)
Lemma insert_habit_succeeds (db : Database)
    (name description periodicity date : string) :
  proof_habit db name = false ->
  insert_habit db name description periodicity date
  = Some (mk_db (habit db ++ [mk_habit (habit_seq db + 1) name description
                                       periodicity date])%list
                (tracker db) (habit_seq db + 1) (tracker_seq db)).
Proof.
  intros Hnew. unfold insert_habit.
  destruct (existsb (fun r => String.eqb (h_name r) name) (habit db)) eqn:Ex;
    [|reflexivity].
  apply existsb_exists in Ex. destruct Ex as (r & Hr & E).
  apply String.eqb_eq in E.
  unfold proof_habit in Hnew.
  rewrite (count_lower_positive db r name Hr) in Hnew by (rewrite E; reflexivity).
  discriminate.
Qed.

(** A name that matches a stored one up to [LOWER] is turned down and the
    tables stay as they are. *)
Lemma add_habit_rejects_duplicate (db : Database) (row : habit_row)
    (name description periodicity date : string) :
  In row (habit db) ->
  Text.is_empty (Text.lower (Text.strip name)) = false ->
  Text.LOWER (h_name row) = Text.LOWER (Text.lower (Text.strip name)) ->
  add_habit db name description periodicity date
  = (db, "Error: A habit with the name '" ++ Text.lower (Text.strip name)
         ++ "' already exists.").
Proof.
  intros Hin Hne E. unfold add_habit.
  rewrite Hne, (count_lower_positive db row _ Hin E). reflexivity.
Qed.

(** A name that is not blank and not taken is stored. *)
Lemma add_habit_stores (db : Database)
    (name description periodicity date : string) :
  Text.is_empty (Text.lower (Text.strip name)) = false ->
  proof_habit db (Text.lower (Text.strip name)) = false ->
  add_habit db name description periodicity date
  = (mk_db (habit db ++ [stored_row db name description periodicity date])%list
           (tracker db) (habit_seq db + 1) (tracker_seq db),
     "Habit '" ++ Text.lower (Text.strip name) ++ "' added successfully.").
Proof.
  intros Hne Hnew. unfold add_habit. rewrite Hne.
  unfold proof_habit in Hnew. rewrite Hnew.
  rewrite insert_habit_succeeds by exact Hnew. reflexivity.
Qed.

(** C8: a first [add_habit] of a name that is not blank and not yet taken
    stores the row whose name is the trimmed, lower-cased argument and
    whose description is "No description" when the argument is blank; a
    second [add_habit] whose name is the same after trimming and
    lower-casing is turned down as a duplicate and changes nothing. *)
Theorem add_habit_identity (db : Database)
    (name description periodicity date : string) :
  Text.is_empty (Text.lower (Text.strip name)) = false ->
  proof_habit db (Text.lower (Text.strip name)) = false ->
  let db' :=
    mk_db (habit db ++ [stored_row db name description periodicity date])%list
          (tracker db) (habit_seq db + 1) (tracker_seq db) in
  add_habit db name description periodicity date
  = (db', "Habit '" ++ Text.lower (Text.strip name)
          ++ "' added successfully.") /\
  h_name (stored_row db name description periodicity date)
  = Text.lower (Text.strip name) /\
  (Text.is_empty (Text.strip description) = true ->
   h_description (stored_row db name description periodicity date)
   = "No description") /\
  forall name2 description2 periodicity2 date2 : string,
    Text.lower (Text.strip name2) = Text.lower (Text.strip name) ->
    add_habit db' name2 description2 periodicity2 date2
    = (db', "Error: A habit with the name '" ++ Text.lower (Text.strip name)
            ++ "' already exists.").
Proof.
  intros Hne Hnew. cbv zeta.
  split; [|split; [reflexivity|split]].
  - apply add_habit_stores; assumption.
  - intros Hblank. unfold stored_row. cbn [h_description].
    rewrite Hblank. reflexivity.
  - intros name2 description2 periodicity2 date2 Hsame.
    rewrite <- Hsame.
    apply (add_habit_rejects_duplicate _
             (stored_row db name description periodicity date)).
    + cbn [habit]. apply in_or_app. right. left. reflexivity.
    + rewrite Hsame. exact Hne.
    + rewrite Hsame. reflexivity.
Qed.

Lemma add_habit_identity_witness :
  let db' :=
    mk_db [mk_habit 1 "work out" "No description" "daily"
                    "2024-12-01 09:00:00"] [] 1 0 in
  add_habit create_tables "  Work Out " "   " "daily" "2024-12-01 09:00:00"
  = (db', "Habit 'work out' added successfully.") /\
  add_habit db' "WORK OUT" "Lift" "weekly" "2024-12-02 09:00:00"
  = (db', "Error: A habit with the name 'work out' already exists.").
Proof.
  cbv zeta.
  pose proof (add_habit_identity create_tables "  Work Out " "   " "daily"
                "2024-12-01 09:00:00" eq_refl eq_refl) as H.
  cbv zeta in H. destruct H as (Hadd & _ & _ & Hdup).
  split.
  - exact Hadd.
  - exact (Hdup "WORK OUT" "Lift" "weekly" "2024-12-02 09:00:00" eq_refl).
Defined.

(** *** The same through [DBHabit(...).store(db)] *)

Lemma isspace_py_lower_char (c : ascii) :
  Text.isspace (Text.py_lower_char c) = Text.isspace c.
Proof. destruct c as [[] [] [] [] [] [] [] []]; reflexivity. Qed.

Lemma py_lower_char_idempotent (c : ascii) :
  Text.py_lower_char (Text.py_lower_char c) = Text.py_lower_char c.
Proof. destruct c as [[] [] [] [] [] [] [] []]; reflexivity. Qed.

Lemma lower_idempotent (s : string) :
  Text.lower (Text.lower s) = Text.lower s.
Proof.
  unfold Text.lower. induction s as [|c s IH]; [reflexivity|].
  cbn [Text.map_string]. rewrite py_lower_char_idempotent, IH. reflexivity.
Qed.

Lemma lstrip_lower (s : string) :
  Text.lstrip (Text.lower s) = Text.lower (Text.lstrip s).
Proof.
  unfold Text.lower. induction s as [|c s IH]; [reflexivity|].
  cbn [Text.map_string Text.lstrip]. rewrite isspace_py_lower_char.
  destruct (Text.isspace c); [exact IH|reflexivity].
Qed.

Lemma rstrip_lower (s : string) :
  Text.rstrip (Text.lower s) = Text.lower (Text.rstrip s).
Proof.
  unfold Text.lower. induction s as [|c s IH]; [reflexivity|].
  cbn [Text.map_string Text.rstrip]. rewrite IH, isspace_py_lower_char.
  destruct (Text.rstrip s); cbn [Text.map_string];
    [destruct (Text.isspace c)|]; reflexivity.
Qed.

Lemma strip_lower (s : string) :
  Text.strip (Text.lower s) = Text.lower (Text.strip s).
Proof. unfold Text.strip. rewrite lstrip_lower, rstrip_lower. reflexivity. Qed.

Lemma lstrip_starts_blank (s : string) :
  Text.starts_blank (Text.lstrip s) = false.
Proof.
  induction s as [|c s IH]; [reflexivity|].
  cbn [Text.lstrip]. destruct (Text.isspace c) eqn:E; [exact IH|].
  cbn [Text.starts_blank]. exact E.
Qed.

Lemma lstrip_fixed (s : string) :
  Text.starts_blank s = false -> Text.lstrip s = s.
Proof.
  destruct s as [|c s]; [reflexivity|].
  cbn [Text.starts_blank Text.lstrip]. intros ->. reflexivity.
Qed.

Lemma rstrip_starts_blank (s : string) :
  Text.starts_blank s = false -> Text.starts_blank (Text.rstrip s) = false.
Proof.
  destruct s as [|c s]; [reflexivity|].
  cbn [Text.starts_blank Text.rstrip]. intros E.
  destruct (Text.rstrip s); [rewrite E|]; cbn [Text.starts_blank]; exact E.
Qed.

Lemma rstrip_cons (c : ascii) (s : string) :
  Text.rstrip (String c s)
  = match Text.rstrip s with
    | EmptyString =>
        if Text.isspace c then EmptyString else String c EmptyString
    | r => String c r
    end.
Proof. reflexivity. Qed.

Lemma rstrip_idempotent (s : string) :
  Text.rstrip (Text.rstrip s) = Text.rstrip s.
Proof.
  induction s as [|c s IH]; [reflexivity|].
  rewrite rstrip_cons.
  destruct (Text.rstrip s) as [|a r] eqn:E.
  - destruct (Text.isspace c) eqn:Ec; [reflexivity|].
    rewrite rstrip_cons. cbn [Text.rstrip]. rewrite Ec. reflexivity.
  - rewrite rstrip_cons, IH. reflexivity.
Qed.

Lemma strip_idempotent (s : string) :
  Text.strip (Text.strip s) = Text.strip s.
Proof.
  unfold Text.strip.
  rewrite (lstrip_fixed (Text.rstrip (Text.lstrip s)))
    by (apply rstrip_starts_blank, lstrip_starts_blank).
  apply rstrip_idempotent.
Qed.

(** X17: [Habit.__init__] keeps the trimmed, lower-cased name, and trimming
    and lower-casing it again in [store] and [add_habit] changes
    nothing: the object and the row carry the same name. *)
Lemma store_init_stores (now : string) (db : Database)
    (name description periodicity : string) :
  Text.is_empty (Text.lower (Text.strip name)) = false ->
  proof_habit db (Text.lower (Text.strip name)) = false ->
  let self := Habits.init now name description periodicity None in
  Habits.name self = Text.lower (Text.strip name) /\
  Habits.store self db
  = (mk_db (habit db ++
            [mk_habit (habit_seq db + 1) (Text.lower (Text.strip name))
                      (if Text.is_empty (Text.strip description)
                       then "No description" else Text.strip description)
                      periodicity now])%list
           (tracker db) (habit_seq db + 1) (tracker_seq db),
     "Habit '" ++ Text.lower (Text.strip name) ++ "' added successfully.").
Proof.
  intros Hne Hnew. cbv zeta. split; [reflexivity|].
  assert (Hnorm : Text.lower (Text.strip (Text.lower (Text.strip name)))
                  = Text.lower (Text.strip name))
    by (rewrite strip_lower, lower_idempotent, strip_idempotent; reflexivity).
  assert (Hstrip : Text.strip (Text.lower (Text.strip name))
                   = Text.lower (Text.strip name))
    by (rewrite strip_lower, strip_idempotent; reflexivity).
  unfold Habits.store, Habits.init.
  cbn [Habits.name Habits.description Habits.periodicity Habits.date].
  rewrite Hstrip, Hne, Hnew, strip_idempotent.
  rewrite add_habit_stores by (rewrite Hnorm; assumption).
  unfold stored_row. rewrite Hnorm.
  destruct (Text.is_empty (Text.strip description)) eqn:Hd.
  - reflexivity.
  - rewrite strip_idempotent, Hd. reflexivity.
Qed.

(** [add_habit] keeps the [UNIQUE] constraint. *)
Lemma add_habit_unique_names (db : Database)
    (name description periodicity date : string) :
  unique_names db ->
  unique_names (fst (add_habit db name description periodicity date)).
Proof.
  intros Hu. unfold add_habit.
  destruct (Text.is_empty _); [exact Hu|].
  destruct (0 <? count_lower db _); [exact Hu|].
  unfold insert_habit.
  destruct (existsb _ (habit db)) eqn:Ex; [exact Hu|].
  unfold unique_names. cbn [fst habit]. rewrite map_app. cbn [map h_name].
  set (n := Text.lower (Text.strip name)) in *.
  assert (Hnew : ~ In n (map h_name (habit db))).
  { intros Hn. apply in_map_iff in Hn. destruct Hn as (r & E & Hr).
    assert (existsb (fun r => String.eqb (h_name r) n) (habit db) = true)
      by (apply existsb_exists; exists r; split;
          [exact Hr|rewrite E; apply String.eqb_refl]).
    congruence. }
  unfold unique_names in Hu. clear Ex.
  induction (map h_name (habit db)) as [|a l IH]; cbn [app].
  - constructor; [intros []|constructor].
  - inversion Hu as [|? ? Ha Hl]; subst. constructor.
    + intros Hin. apply in_app_or in Hin. destruct Hin as [Hin|[E|[]]].
      * contradiction.
      * apply Hnew. left. symmetry. exact E.
    + apply IH; [exact Hl|]. intros Hn. apply Hnew. right. exact Hn.
Qed.

(** The existence test folds case, the two queries of [calculate_streak]
    do not: with another capitalisation than the stored one the name is
    found and its check-offs are not. *)
Example calculate_streak_other_capitalisation :
  calculate_count Scenario.reading_db "reading" = 2 /\
  proof_habit Scenario.reading_db "Reading" = true /\
  calculate_streak Scenario.reading_db "Reading" = Return (VInt 0).
Proof. split; [|split]; vm_compute; reflexivity. Qed.

(** * Beyond the streak claims *)

(** ** The fetched check-offs *)

Lemma lex_leb_total (a : list Z) :
  forall b, List.length a = List.length b ->
            lex_leb a b = true \/ lex_leb b a = true.
Proof.
  induction a as [|x a IH]; intros [|y b] Hlen; try discriminate.
  - left. reflexivity.
  - cbn [lex_leb].
    destruct (Z.ltb_spec x y); [left; reflexivity|].
    destruct (Z.ltb_spec y x); [right; reflexivity|].
    apply IH. simpl in Hlen. congruence.
Qed.

Lemma leb_total (a b : datetime) :
  Datetime.leb a b = true \/ Datetime.leb b a = true.
Proof. apply lex_leb_total. reflexivity. Qed.

Lemma insert_asc_ascending (d : datetime) (l : list datetime) :
  ascending l -> ascending (insert_asc d l).
Proof.
  unfold ascending. induction l as [|e l IH]; intros Hs.
  - repeat constructor.
  - cbn [insert_asc]. destruct (Datetime.leb d e) eqn:Hde.
    + constructor; [exact Hs|]. constructor. exact Hde.
    + inversion Hs as [|? ? Hs' Hhd]; subst.
      constructor; [apply IH; exact Hs'|].
      destruct l as [|f l]; cbn [insert_asc].
      * constructor. destruct (leb_total d e) as [H|H]; congruence.
      * destruct (Datetime.leb d f).
        -- constructor. destruct (leb_total d e) as [H|H]; congruence.
        -- constructor. inversion Hhd; assumption.
Qed.

Lemma insert_asc_permutation (d : datetime) (l : list datetime) :
  Permutation (d :: l) (insert_asc d l).
Proof.
  induction l as [|e l IH]; [apply Permutation_refl|].
  cbn [insert_asc]. destruct (Datetime.leb d e); [apply Permutation_refl|].
  eapply perm_trans; [apply perm_swap|]. apply perm_skip. exact IH.
Qed.

(** ** Logging a check-off *)

Lemma filter_unique_key {A : Type} (key : A -> string) (l : list A) (x : A) :
  NoDup (map key l) -> In x l ->
  filter (fun r => String.eqb (key r) (key x)) l = [x].
Proof.
  induction l as [|a l IH]; intros Hnd Hin; [contradiction|].
  cbn [map] in Hnd. inversion Hnd as [|? ? Hnotin Hnd']; subst.
  cbn [filter]. destruct Hin as [->|Hin].
  - rewrite String.eqb_refl. f_equal.
    clear IH Hnd Hnd'. induction l as [|b l IHl]; [reflexivity|].
    cbn [filter map In] in *.
    destruct (String.eqb_spec (key b) (key x)) as [E|_].
    + exfalso. apply Hnotin. left. exact E.
    + apply IHl. intros H. apply Hnotin. right. exact H.
  - destruct (String.eqb_spec (key a) (key x)) as [E|_].
    + exfalso. apply Hnotin. rewrite E. apply in_map. exact Hin.
    + apply IH; assumption.
Qed.

(** With names unique up to ASCII case, every capitalisation of a stored
    name selects the one row of that habit. *)
Lemma filter_lower_unique (db : Database) (row : habit_row) (n : string) :
  lower_unique db -> In row (habit db) ->
  Text.LOWER n = Text.LOWER (h_name row) ->
  filter (fun r => String.eqb (Text.LOWER (h_name r)) (Text.LOWER n))
         (habit db) = [row].
Proof.
  intros Hu Hin ->.
  apply (filter_unique_key (fun r => Text.LOWER (h_name r)) _ _ Hu Hin).
Qed.

Lemma select_name_lower_unique (db : Database) (row : habit_row)
    (n : string) :
  lower_unique db -> In row (habit db) ->
  Text.LOWER n = Text.LOWER (h_name row) ->
  select_name_lower db n = [h_name row].
Proof.
  intros Hu Hin Hn. unfold select_name_lower.
  rewrite (filter_lower_unique db row n Hu Hin Hn). reflexivity.
Qed.

Lemma select_name_lower_none (db : Database) (n : string) :
  proof_habit db n = false -> select_name_lower db n = [].
Proof.
  unfold proof_habit, count_lower, select_name_lower. intros H.
  destruct (filter _ (habit db)) as [|r l]; [reflexivity|].
  cbn [List.length] in H. apply Z.ltb_ge in H. lia.
Qed.

Lemma filter_app_one {A : Type} (f : A -> bool) (l : list A) (x : A) :
  filter f (l ++ [x])%list
  = (filter f l ++ (if f x then [x] else []))%list.
Proof. rewrite filter_app. reflexivity. Qed.

(** X6: [increment_tracker] finds the habit under any capitalisation of its
    name and files the check-off under the stored name: the habit gets
    exactly one more check-off, at the end, every other habit keeps its
    check-offs, and the habit table is untouched.  A name that matches
    no habit changes nothing. *)
Theorem increment_tracker_logs
    (now : datetime) (db : Database) (row : habit_row) (n : string)
    (event_date : datetime) :
  lower_unique db -> In row (habit db) ->
  Text.LOWER n = Text.LOWER (h_name row) ->
  let db' := fst (increment_tracker now db n (Some event_date)) in
  habit db' = habit db /\
  get_habit_data db' (h_name row)
  = (get_habit_data db (h_name row)
     ++ [mk_tracker (tracker_seq db + 1) event_date (h_name row)])%list /\
  calculate_count db' (h_name row) = calculate_count db (h_name row) + 1 /\
  (forall m, m <> h_name row ->
             get_habit_data db' m = get_habit_data db m) /\
  (forall m, proof_habit db m = false ->
             fst (increment_tracker now db m (Some event_date)) = db).
Proof.
  intros Hu Hin Hn. cbv zeta. unfold increment_tracker.
  rewrite (select_name_lower_unique db row n Hu Hin Hn). cbn [fst habit].
  split; [reflexivity|].
  unfold calculate_count, get_habit_data. cbn [tracker].
  rewrite !filter_app_one. cbn [t_habit_name].
  rewrite String.eqb_refl.
  split; [reflexivity|]. split.
  - rewrite length_app. cbn [List.length]. lia.
  - split.
    + intros m Hm. rewrite filter_app_one. cbn [t_habit_name].
      destruct (String.eqb_spec (h_name row) m) as [E|_];
        [congruence|apply app_nil_r].
    + intros m Hm. rewrite (select_name_lower_none db m Hm). reflexivity.
Qed.

Lemma increment_tracker_logs_witness :
  calculate_count
    (fst (increment_tracker Scenario.clock Scenario.reading_db "READING"
            (Some (mk_datetime 2024 12 3 8 0 0)))) "reading"
  = calculate_count Scenario.reading_db "reading" + 1.
Proof.
  apply (increment_tracker_logs Scenario.clock Scenario.reading_db
           (mk_habit 1 "reading" "Read a chapter" "daily" Scenario.created)
           "READING" (mk_datetime 2024 12 3 8 0 0)).
  - vm_compute. repeat constructor; intros [].
  - vm_compute. left. reflexivity.
  - vm_compute. reflexivity.
Defined.

(** ** What every call keeps *)

Lemma StronglySorted_snoc (l : list Z) (x : Z) :
  StronglySorted Z.lt l -> Forall (fun i => i < x) l ->
  StronglySorted Z.lt (l ++ [x])%list.
Proof.
  induction l as [|a l IH]; intros Hs Hb; cbn [app].
  - repeat constructor.
  - inversion Hs as [|? ? Hs' Ha]; subst.
    inversion Hb as [|? ? Hax Hb']; subst.
    constructor; [apply IH; assumption|].
    apply Forall_app. split; [exact Ha|]. constructor; [exact Hax|constructor].
Qed.

Lemma StronglySorted_map_filter {A : Type} (f : A -> Z) (g : A -> bool)
    (l : list A) :
  StronglySorted Z.lt (map f l) -> StronglySorted Z.lt (map f (filter g l)).
Proof.
  induction l as [|a l IH]; intros Hs; [constructor|].
  cbn [map] in Hs. inversion Hs as [|? ? Hs' Ha]; subst.
  cbn [filter]. destruct (g a); [|apply IH; exact Hs'].
  cbn [map]. constructor; [apply IH; exact Hs'|].
  rewrite Forall_forall in *. intros x Hx. apply Ha.
  apply in_map_iff in Hx. destruct Hx as (r & <- & Hr).
  apply filter_In in Hr. apply in_map. tauto.
Qed.

Lemma NoDup_map_filter {A B : Type} (f : A -> B) (g : A -> bool)
    (l : list A) :
  NoDup (map f l) -> NoDup (map f (filter g l)).
Proof.
  induction l as [|a l IH]; intros Hn; [constructor|].
  cbn [map] in Hn. inversion Hn as [|? ? Ha Hn']; subst.
  cbn [filter]. destruct (g a); [|apply IH; exact Hn'].
  cbn [map]. constructor; [|apply IH; exact Hn'].
  intros Hin. apply Ha. apply in_map_iff in Hin.
  destruct Hin as (r & E & Hr). apply filter_In in Hr.
  rewrite <- E. apply in_map. tauto.
Qed.

Lemma Forall_map_filter {A B : Type} (P : B -> Prop) (f : A -> B)
    (g : A -> bool) (l : list A) :
  Forall P (map f l) -> Forall P (map f (filter g l)).
Proof.
  rewrite !Forall_forall. intros H x Hx. apply H.
  apply in_map_iff in Hx. destruct Hx as (r & <- & Hr).
  apply filter_In in Hr. apply in_map. tauto.
Qed.

Lemma consistent_create_tables : consistent create_tables.
Proof.
  unfold consistent, unique_names, foreign_keys_ok, ids_ok, names_not_empty.
  cbn. repeat split; try constructor; lia.
Qed.

(** Appending a row with the next id keeps one table's ids in order. *)
Lemma ids_snoc (ids : list Z) (seq : Z) :
  0 <= seq /\ StronglySorted Z.lt ids /\ Forall (fun i => 1 <= i <= seq) ids ->
  0 <= seq + 1 /\ StronglySorted Z.lt (ids ++ [seq + 1])%list /\
  Forall (fun i => 1 <= i <= seq + 1) (ids ++ [seq + 1])%list.
Proof.
  intros (H0 & Hs & Hb). split; [lia|]. split.
  - apply StronglySorted_snoc; [exact Hs|].
    eapply Forall_impl; [|exact Hb]. cbn beta. intros i Hi. lia.
  - apply Forall_app. split.
    + eapply Forall_impl; [|exact Hb]. cbn beta. intros i Hi. lia.
    + constructor; [lia|constructor].
Qed.

Lemma ids_filter {A : Type} (f : A -> Z) (g : A -> bool) (l : list A)
    (seq : Z) :
  0 <= seq /\ StronglySorted Z.lt (map f l) /\
  Forall (fun i => 1 <= i <= seq) (map f l) ->
  0 <= seq /\ StronglySorted Z.lt (map f (filter g l)) /\
  Forall (fun i => 1 <= i <= seq) (map f (filter g l)).
Proof.
  intros (H0 & Hs & Hb). split; [exact H0|]. split.
  - apply StronglySorted_map_filter. exact Hs.
  - apply Forall_map_filter. exact Hb.
Qed.

Lemma consistent_add_habit (db : Database)
    (name description periodicity date : string) :
  consistent db ->
  consistent (fst (add_habit db name description periodicity date)).
Proof.
  intros Hc. pose proof Hc as (Hu & Hfk & (Hh & Ht) & Hne).
  split; [apply add_habit_unique_names; exact Hu|].
  unfold add_habit.
  destruct (Text.is_empty (Text.lower (Text.strip name))) eqn:En;
    [apply Hc|].
  destruct (0 <? count_lower db _); [apply Hc|].
  unfold insert_habit. destruct (existsb _ (habit db)); [apply Hc|].
  cbn [fst]. split; [|split; [split|]].
  - unfold foreign_keys_ok in *. cbn [habit tracker].
    rewrite map_app. eapply Forall_impl; [|exact Hfk].
    intros t Hin. apply in_or_app. left. exact Hin.
  - cbn [habit habit_seq]. rewrite map_app. cbn [map h_id].
    apply ids_snoc. exact Hh.
  - exact Ht.
  - unfold names_not_empty in *. cbn [habit]. apply Forall_app.
    split; [exact Hne|]. constructor; [|constructor]. cbn [h_name].
    intros E. rewrite E in En. discriminate.
Qed.

Lemma consistent_increment_tracker (now : datetime) (db : Database)
    (habit_name : string) (event_date : option datetime) :
  consistent db ->
  consistent (fst (increment_tracker now db habit_name event_date)).
Proof.
  intros Hc. pose proof Hc as (Hu & Hfk & (Hh & Ht) & Hne).
  unfold increment_tracker.
  destruct (select_name_lower db habit_name) as [|matched rest] eqn:E;
    [exact Hc|].
  assert (Hin : In matched (map h_name (habit db))).
  { assert (H : In matched (matched :: rest)) by (left; reflexivity).
    rewrite <- E in H. apply select_name_lower_In in H.
    destruct H as (r & Hr & <- & _). apply in_map. exact Hr. }
  cbn [fst]. split; [exact Hu|]. split; [|split; [split|exact Hne]].
  - unfold foreign_keys_ok in *. cbn [habit tracker]. apply Forall_app.
    split; [exact Hfk|]. constructor; [|constructor].
    cbn [t_habit_name]. exact Hin.
  - exact Hh.
  - cbn [tracker tracker_seq]. rewrite map_app. cbn [map t_id].
    apply ids_snoc. exact Ht.
Qed.

Lemma consistent_delete_habit_data (db : Database) (habit_name : string) :
  consistent db -> consistent (delete_habit_data db habit_name).
Proof.
  intros (Hu & Hfk & (Hh & Ht) & Hne). unfold delete_habit_data.
  split; [|split; [|split; [split|]]].
  - unfold unique_names in *. cbn [habit]. apply NoDup_map_filter. exact Hu.
  - unfold foreign_keys_ok in *. cbn [habit tracker].
    rewrite Forall_forall in *. intros t Hin. apply filter_In in Hin.
    destruct Hin as [Hin Hneq]. specialize (Hfk t Hin).
    apply in_map_iff in Hfk. destruct Hfk as (r & E & Hr).
    apply in_map_iff. exists r. split; [exact E|].
    apply filter_In. split; [exact Hr|]. rewrite E. exact Hneq.
  - cbn [habit habit_seq]. apply ids_filter. exact Hh.
  - cbn [tracker tracker_seq]. apply ids_filter. exact Ht.
  - unfold names_not_empty in *. cbn [habit].
    rewrite Forall_forall in *. intros r Hr. apply filter_In in Hr.
    apply Hne. tauto.
Qed.

Lemma consistent_delete_tracker_data (db : Database) (habit_name : string) :
  consistent db -> consistent (delete_tracker_data db habit_name).
Proof.
  intros (Hu & Hfk & (Hh & Ht) & Hne). unfold delete_tracker_data.
  split; [exact Hu|]. split; [|split; [split|exact Hne]].
  - unfold foreign_keys_ok in *. cbn [habit tracker].
    rewrite Forall_forall in *. intros t Hin. apply filter_In in Hin.
    apply Hfk. tauto.
  - exact Hh.
  - cbn [tracker tracker_seq]. apply ids_filter. exact Ht.
Qed.

Lemma consistent_delete_db (db : Database) :
  consistent db -> consistent (fst (delete_db db)).
Proof.
  intros (_ & _ & ((Hh & _) & (Ht & _)) & _).
  unfold consistent, unique_names, foreign_keys_ok, ids_ok, names_not_empty.
  cbn. repeat split; try constructor; assumption.
Qed.

Lemma NoDup_rename (l : list string) (new_name exact_name : string) :
  NoDup l -> new_name = exact_name \/ ~ In new_name l ->
  NoDup (map (fun n => if String.eqb n exact_name then new_name else n) l).
Proof.
  intros Hn [->|Hnew].
  - rewrite (map_ext _ (fun n => n)), map_id; [exact Hn|].
    intros n. destruct (String.eqb_spec n exact_name); congruence.
  - induction l as [|a l IH]; [constructor|].
    inversion Hn as [|? ? Ha Hn']; subst. cbn [map].
    constructor.
    + intros Hin. apply in_map_iff in Hin. destruct Hin as (b & E & Hb).
      destruct (String.eqb_spec a exact_name) as [Ea|Ea],
               (String.eqb_spec b exact_name) as [Eb|Eb]; subst.
      * contradiction.
      * apply Hnew. right. exact Hb.
      * apply Hnew. left. reflexivity.
      * contradiction.
    + apply IH; [exact Hn'|]. intros H. apply Hnew. right. exact H.
Qed.

Lemma update_name_names (db db' : Database) (new_name exact_name : string) :
  update_name db new_name exact_name = Some db' ->
  (new_name = exact_name \/ ~ In new_name (map h_name (habit db))) /\
  map h_name (habit db')
  = map (fun n => if String.eqb n exact_name then new_name else n)
        (map h_name (habit db)) /\
  map t_habit_name (tracker db')
  = map (fun n => if String.eqb n exact_name then new_name else n)
        (map t_habit_name (tracker db)) /\
  map h_id (habit db') = map h_id (habit db) /\
  map t_id (tracker db') = map t_id (tracker db) /\
  habit_seq db' = habit_seq db /\ tracker_seq db' = tracker_seq db.
Proof.
  unfold update_name.
  destruct (String.eqb_spec new_name exact_name) as [E|E]; cbn [negb andb].
  - intros H. injection H as <-. cbn [habit tracker habit_seq tracker_seq].
    rewrite !map_map. split; [left; exact E|].
    repeat split; apply map_ext; intros r;
      destruct (String.eqb _ exact_name); reflexivity.
  - destruct (existsb _ (habit db)) eqn:Ex; [discriminate|].
    intros H. injection H as <-. cbn [habit tracker habit_seq tracker_seq].
    rewrite !map_map. split.
    + right. intros Hin. apply in_map_iff in Hin.
      destruct Hin as (r & Er & Hr).
      assert (existsb (fun r => String.eqb (h_name r) new_name) (habit db)
              = true)
        by (apply existsb_exists; exists r; split;
            [exact Hr|rewrite Er; apply String.eqb_refl]).
      congruence.
    + repeat split; apply map_ext; intros r;
        destruct (String.eqb _ exact_name); reflexivity.
Qed.

Lemma consistent_update_name (db db' : Database)
    (new_name exact_name : string) :
  new_name <> EmptyString ->
  update_name db new_name exact_name = Some db' ->
  consistent db -> consistent db'.
Proof.
  intros Hnew Hup (Hu & Hfk & (Hh & Ht) & Hne).
  destruct (update_name_names db db' _ _ Hup)
    as (Hfree & Hn & Htn & Hi & Hti & Hseq & Htseq).
  split; [|split; [|split; [split|]]].
  - unfold unique_names in *. rewrite Hn. apply NoDup_rename; assumption.
  - unfold foreign_keys_ok in *. rewrite Forall_forall in Hfk |- *.
    intros t Hin. rewrite Hn.
    assert (Hmem : In (t_habit_name t) (map t_habit_name (tracker db')))
      by (apply in_map; exact Hin).
    rewrite Htn in Hmem. apply in_map_iff in Hmem.
    destruct Hmem as (m & <- & Hm).
    apply (in_map (fun n => if String.eqb n exact_name then new_name else n)).
    apply in_map_iff in Hm. destruct Hm as (t0 & <- & Ht0).
    apply Hfk. exact Ht0.
  - rewrite Hi, Hseq. exact Hh.
  - rewrite Hti, Htseq. exact Ht.
  - unfold names_not_empty in *. rewrite Forall_forall in Hne |- *.
    intros r Hr.
    assert (Hmem : In (h_name r) (map h_name (habit db')))
      by (apply in_map; exact Hr).
    rewrite Hn in Hmem. apply in_map_iff in Hmem.
    destruct Hmem as (m & E & Hm). rewrite <- E.
    destruct (String.eqb m exact_name); [exact Hnew|].
    apply in_map_iff in Hm. destruct Hm as (r0 & <- & Hr0).
    apply Hne. exact Hr0.
Qed.

(** An update of the description or of the periodicity moves no name and
    no id. *)
Lemma consistent_same_keys (db db' : Database) :
  map h_name (habit db') = map h_name (habit db) ->
  map h_id (habit db') = map h_id (habit db) ->
  tracker db' = tracker db ->
  habit_seq db' = habit_seq db -> tracker_seq db' = tracker_seq db ->
  consistent db -> consistent db'.
Proof.
  intros Hn Hi Ht Hs Hts (Hu & Hfk & (Hh & Htr) & Hne).
  unfold consistent, unique_names, foreign_keys_ok, ids_ok, names_not_empty
    in *.
  rewrite Hn, Hi, Ht, Hs, Hts.
  split; [exact Hu|]. split; [exact Hfk|]. split; [split; assumption|].
  rewrite Forall_forall in Hne |- *. intros r Hr.
  assert (Hmem : In (h_name r) (map h_name (habit db')))
    by (apply in_map; exact Hr).
  rewrite Hn in Hmem. apply in_map_iff in Hmem.
  destruct Hmem as (r0 & <- & Hr0). apply Hne. exact Hr0.
Qed.

Lemma consistent_update_description (db : Database) (d n : string) :
  consistent db -> consistent (update_description db d n).
Proof.
  apply consistent_same_keys; try reflexivity;
    unfold update_description; cbn [habit]; rewrite map_map;
    apply map_ext; intros r; destruct (String.eqb (h_name r) n); reflexivity.
Qed.

Lemma consistent_update_periodicity (db : Database) (p n : string) :
  consistent db -> consistent (update_periodicity db p n).
Proof.
  apply consistent_same_keys; try reflexivity;
    unfold update_periodicity; cbn [habit]; rewrite map_map;
    apply map_ext; intros r; destruct (String.eqb (h_name r) n); reflexivity.
Qed.

Lemma truthy_not_empty (o : option string) (s : string) :
  truthy o = Some s -> s <> EmptyString.
Proof.
  destruct o as [t|]; [|discriminate]. cbn [truthy].
  destruct t; cbn [Text.is_empty]; [discriminate|].
  intros H. injection H as <-. discriminate.
Qed.

Lemma consistent_update_habit (db db' : Database) (old_name msg : string)
    (new_name new_description new_periodicity : option string) :
  update_habit db old_name new_name new_description new_periodicity
  = inl (db', msg) ->
  consistent db -> consistent db'.
Proof.
  unfold update_habit. intros H Hc.
  destruct (select_name_lower db old_name) as [|existing rest].
  { injection H as <- _. exact Hc. }
  destruct (truthy new_name) as [n|] eqn:En.
  - destruct (update_name db n existing) as [db1|] eqn:Eu;
      [|discriminate].
    pose proof (consistent_update_name db db1 n _
                  (truthy_not_empty _ _ En) Eu Hc) as Hc1.
    injection H as <- _.
    destruct (truthy new_description), (truthy new_periodicity);
      repeat first [apply consistent_update_periodicity
                   |apply consistent_update_description]; exact Hc1.
  - injection H as <- _.
    destruct (truthy new_description), (truthy new_periodicity);
      repeat first [apply consistent_update_periodicity
                   |apply consistent_update_description]; exact Hc.
Qed.

Lemma consistent_add_checkoffs (clock : datetime) (habit_name : string)
    (checkoffs : list datetime) :
  forall db, consistent db ->
             consistent (Scenario.add_checkoffs clock db habit_name checkoffs).
Proof.
  unfold Scenario.add_checkoffs.
  induction checkoffs as [|d l IH]; intros db Hc; [exact Hc|].
  cbn [fold_left]. apply IH. apply consistent_increment_tracker. exact Hc.
Qed.

Lemma consistent_store (self : Habits.Habit) (db : Database) :
  consistent db -> consistent (fst (Habits.store self db)).
Proof.
  intros Hc. unfold Habits.store.
  destruct (Text.is_empty _); [exact Hc|].
  destruct (proof_habit db _); [exact Hc|].
  apply consistent_add_habit. exact Hc.
Qed.

Lemma consistent_populate (now : string) (clock : datetime) (db : Database) :
  consistent db ->
  consistent (Population.populate_dummy_data now clock db).
Proof.
  intros Hc. unfold Population.populate_dummy_data.
  repeat apply consistent_add_checkoffs.
  generalize Population.habits. intros hs. revert db Hc.
  induction hs as [|[[n d] p] hs IH]; intros db Hc; [exact Hc|].
  cbn [fold_left]. apply IH. apply consistent_store. exact Hc.
Qed.

Lemma consistent_run_operation (db : Database) (op : Session.operation) :
  consistent db -> consistent (Session.run_operation db op).
Proof.
  intros Hc. destruct op; cbn [Session.run_operation].
  - apply consistent_add_habit. exact Hc.
  - apply consistent_increment_tracker. exact Hc.
  - apply consistent_delete_habit_data. exact Hc.
  - apply consistent_delete_tracker_data. exact Hc.
  - destruct (update_habit db old_name new_name new_description
                           new_periodicity) as [[db' msg]|] eqn:E;
      [|exact Hc].
    apply (consistent_update_habit _ _ _ _ _ _ _ E Hc).
  - apply consistent_delete_db. exact Hc.
  - apply consistent_store. exact Hc.
  - unfold Habits.add_event.
    destruct (proof_habit db (Habits.name self)); [|exact Hc].
    destruct date as [|y m d|text];
      try exact Hc;
      (destruct (truthy (get_habit_periodicity db (Habits.name self)))
         as [p|]; [|exact Hc];
       destruct (check_event_exists db (Habits.name self) _ p)
         as [[|]|e]; try exact Hc;
       repeat match goal with
              | |- context [if ?b then _ else _] => destruct b
              end;
       try exact Hc; apply consistent_increment_tracker; exact Hc).
  - unfold Habits.delete. destruct (proof_habit db _); [|exact Hc].
    apply consistent_delete_habit_data. exact Hc.
  - unfold Habits.update. destruct (proof_habit db _); cbn [negb];
      [|exact Hc].
    destruct (update_habit db (Habits.name self) new_name new_description
                           new_periodicity) as [[db' msg]|] eqn:E;
      [|exact Hc].
    apply (consistent_update_habit _ _ _ _ _ _ _ E Hc).
  - unfold Habits.reset_in_db. destruct (proof_habit db _); [|exact Hc].
    apply consistent_delete_tracker_data. exact Hc.
  - unfold Population.check_and_populate_dummy_data.
    destruct (get_current_habits db); [|exact Hc].
    apply consistent_populate. exact Hc.
Qed.

Lemma fold_run_consistent (ops : list Session.operation) :
  forall db, consistent db ->
             consistent (fold_left Session.run_operation ops db).
Proof.
  induction ops as [|op ops IH]; intros db Hc; [exact Hc|].
  cbn [fold_left]. apply IH. apply consistent_run_operation. exact Hc.
Qed.

(** *** Ids are handed out once *)

Lemma ids_advance_refl (ids : list Z) (seq : Z) :
  ids_advance ids seq ids seq.
Proof.
  split; [lia|]. apply Forall_forall. intros i Hi. left. exact Hi.
Qed.

Lemma ids_advance_trans (ids1 ids2 ids3 : list Z) (s1 s2 s3 : Z) :
  ids_advance ids1 s1 ids2 s2 -> ids_advance ids2 s2 ids3 s3 ->
  ids_advance ids1 s1 ids3 s3.
Proof.
  intros [H12 F12] [H23 F23]. split; [lia|].
  rewrite Forall_forall in *. intros i Hi.
  destruct (F23 i Hi) as [H|H]; [apply F12; exact H|right; lia].
Qed.

Lemma ids_advance_subset (ids ids' : list Z) (seq : Z) :
  (forall i, In i ids' -> In i ids) -> ids_advance ids seq ids' seq.
Proof.
  intros H. split; [lia|]. apply Forall_forall. intros i Hi.
  left. apply H. exact Hi.
Qed.

Lemma ids_advance_snoc (ids : list Z) (seq : Z) :
  ids_advance ids seq (ids ++ [seq + 1])%list (seq + 1).
Proof.
  split; [lia|]. apply Forall_forall. intros i Hi.
  apply in_app_or in Hi. destruct Hi as [Hi|[<-|[]]]; [left; exact Hi|].
  right. lia.
Qed.

Lemma ids_advance_filter {A : Type} (f : A -> Z) (g : A -> bool)
    (l : list A) (seq : Z) :
  ids_advance (map f l) seq (map f (filter g l)) seq.
Proof.
  apply ids_advance_subset. intros i Hi. apply in_map_iff in Hi.
  destruct Hi as (r & <- & Hr). apply filter_In in Hr.
  apply in_map. tauto.
Qed.

Lemma advances_refl (db : Database) : advances db db.
Proof. split; apply ids_advance_refl. Qed.

Lemma advances_trans (db1 db2 db3 : Database) :
  advances db1 db2 -> advances db2 db3 -> advances db1 db3.
Proof.
  intros [Hh Ht] [Hh' Ht'].
  split; eapply ids_advance_trans; eassumption.
Qed.

(** A call that moves no id and no counter. *)
Lemma advances_same_ids (db db' : Database) :
  map h_id (habit db') = map h_id (habit db) ->
  map t_id (tracker db') = map t_id (tracker db) ->
  habit_seq db' = habit_seq db -> tracker_seq db' = tracker_seq db ->
  advances db db'.
Proof.
  intros E1 E2 E3 E4. unfold advances. rewrite E1, E2, E3, E4.
  split; apply ids_advance_refl.
Qed.

Lemma advances_add_habit (db : Database)
    (name description periodicity date : string) :
  advances db (fst (add_habit db name description periodicity date)).
Proof.
  unfold add_habit.
  destruct (Text.is_empty _); [apply advances_refl|].
  destruct (0 <? count_lower db _); [apply advances_refl|].
  unfold insert_habit. destruct (existsb _ (habit db));
    [apply advances_refl|].
  cbn [fst]. split; cbn [habit tracker habit_seq tracker_seq].
  - rewrite map_app. cbn [map h_id]. apply ids_advance_snoc.
  - apply ids_advance_refl.
Qed.

Lemma advances_increment_tracker (now : datetime) (db : Database)
    (habit_name : string) (event_date : option datetime) :
  advances db (fst (increment_tracker now db habit_name event_date)).
Proof.
  unfold increment_tracker.
  destruct (select_name_lower db habit_name); [apply advances_refl|].
  cbn [fst]. split; cbn [habit tracker habit_seq tracker_seq].
  - apply ids_advance_refl.
  - rewrite map_app. cbn [map t_id]. apply ids_advance_snoc.
Qed.

Lemma advances_delete_habit_data (db : Database) (habit_name : string) :
  advances db (delete_habit_data db habit_name).
Proof.
  split; cbn [delete_habit_data habit tracker habit_seq tracker_seq];
    apply ids_advance_filter.
Qed.

Lemma advances_delete_tracker_data (db : Database) (habit_name : string) :
  advances db (delete_tracker_data db habit_name).
Proof.
  split; cbn [delete_tracker_data habit tracker habit_seq tracker_seq];
    [apply ids_advance_refl|apply ids_advance_filter].
Qed.

Lemma advances_delete_db (db : Database) : advances db (fst (delete_db db)).
Proof.
  split; cbn [delete_db fst habit tracker habit_seq tracker_seq map];
    apply ids_advance_subset; intros i [].
Qed.

Lemma advances_update_description (db : Database) (d n : string) :
  advances db (update_description db d n).
Proof.
  apply advances_same_ids; try reflexivity.
  unfold update_description; cbn [habit]; rewrite map_map.
  apply map_ext; intros r; destruct (String.eqb (h_name r) n); reflexivity.
Qed.

Lemma advances_update_periodicity (db : Database) (p n : string) :
  advances db (update_periodicity db p n).
Proof.
  apply advances_same_ids; try reflexivity.
  unfold update_periodicity; cbn [habit]; rewrite map_map.
  apply map_ext; intros r; destruct (String.eqb (h_name r) n); reflexivity.
Qed.

Lemma advances_update_habit (db db' : Database) (old_name msg : string)
    (new_name new_description new_periodicity : option string) :
  update_habit db old_name new_name new_description new_periodicity
  = inl (db', msg) ->
  advances db db'.
Proof.
  unfold update_habit. intros H.
  destruct (select_name_lower db old_name) as [|existing rest].
  { injection H as <- _. apply advances_refl. }
  assert (Hrest : forall db1 n,
            advances db db1 ->
            advances db
              (match truthy new_periodicity with
               | Some p =>
                   update_periodicity
                     (match truthy new_description with
                      | Some d => update_description db1 d n
                      | None => db1
                      end) p n
               | None =>
                   match truthy new_description with
                   | Some d => update_description db1 d n
                   | None => db1
                   end
               end)).
  { intros db1 n H1.
    destruct (truthy new_description), (truthy new_periodicity);
      repeat first
        [exact H1
        |eapply advances_trans; [|apply advances_update_periodicity]
        |eapply advances_trans; [|apply advances_update_description]]. }
  destruct (truthy new_name) as [n|] eqn:En.
  - destruct (update_name db n existing) as [db1|] eqn:Eu; [|discriminate].
    destruct (update_name_names db db1 _ _ Eu)
      as (_ & _ & _ & Hi & Hti & Hseq & Htseq).
    injection H as <- _. apply Hrest.
    apply advances_same_ids; assumption.
  - injection H as <- _. apply Hrest. apply advances_refl.
Qed.

Lemma advances_add_checkoffs (clock : datetime) (habit_name : string)
    (checkoffs : list datetime) :
  forall db,
    advances db (Scenario.add_checkoffs clock db habit_name checkoffs).
Proof.
  unfold Scenario.add_checkoffs.
  induction checkoffs as [|d l IH]; intros db; [apply advances_refl|].
  cbn [fold_left].
  eapply advances_trans; [apply advances_increment_tracker|apply IH].
Qed.

Lemma advances_store (self : Habits.Habit) (db : Database) :
  advances db (fst (Habits.store self db)).
Proof.
  unfold Habits.store.
  destruct (Text.is_empty _); [apply advances_refl|].
  destruct (proof_habit db _); [apply advances_refl|].
  apply advances_add_habit.
Qed.

Lemma advances_populate (now : string) (clock : datetime) (db : Database) :
  advances db (Population.populate_dummy_data now clock db).
Proof.
  unfold Population.populate_dummy_data.
  repeat (eapply advances_trans; [|apply advances_add_checkoffs]).
  generalize Population.habits. intros hs. revert db.
  induction hs as [|[[n d] p] hs IH]; intros db; [apply advances_refl|].
  cbn [fold_left].
  eapply advances_trans; [apply advances_store|apply IH].
Qed.

Lemma advances_run_operation (db : Database) (op : Session.operation) :
  advances db (Session.run_operation db op).
Proof.
  destruct op; cbn [Session.run_operation].
  - apply advances_add_habit.
  - apply advances_increment_tracker.
  - apply advances_delete_habit_data.
  - apply advances_delete_tracker_data.
  - destruct (update_habit db old_name new_name new_description
                           new_periodicity) as [[db' msg]|] eqn:E;
      [|apply advances_refl].
    apply (advances_update_habit _ _ _ _ _ _ _ E).
  - apply advances_delete_db.
  - apply advances_store.
  - unfold Habits.add_event.
    destruct (proof_habit db (Habits.name self)); [|apply advances_refl].
    destruct date as [|y m d|text];
      try apply advances_refl;
      (destruct (truthy (get_habit_periodicity db (Habits.name self)))
         as [p|]; [|apply advances_refl];
       destruct (check_event_exists db (Habits.name self) _ p)
         as [[|]|e]; try apply advances_refl;
       repeat match goal with
              | |- context [if ?b then _ else _] => destruct b
              end;
       try apply advances_refl; apply advances_increment_tracker).
  - unfold Habits.delete. destruct (proof_habit db _);
      [|apply advances_refl].
    apply advances_delete_habit_data.
  - unfold Habits.update. destruct (proof_habit db _); cbn [negb];
      [|apply advances_refl].
    destruct (update_habit db (Habits.name self) new_name new_description
                           new_periodicity) as [[db' msg]|] eqn:E;
      [|apply advances_refl].
    apply (advances_update_habit _ _ _ _ _ _ _ E).
  - unfold Habits.reset_in_db. destruct (proof_habit db _);
      [|apply advances_refl].
    apply advances_delete_tracker_data.
  - unfold Population.check_and_populate_dummy_data.
    destruct (get_current_habits db); [|apply advances_refl].
    apply advances_populate.
Qed.

Lemma fold_run_advances (ops : list Session.operation) :
  forall db, advances db (fold_left Session.run_operation ops db).
Proof.
  induction ops as [|op ops IH]; intros db; [apply advances_refl|].
  cbn [fold_left].
  eapply advances_trans; [apply advances_run_operation|apply IH].
Qed.

(** An id that was in a table and has left it does not come back. *)
Lemma ids_not_reused (ids1 ids2 ids3 : list Z) (s1 s2 s3 : Z) (i : Z) :
  Forall (fun i => 1 <= i <= s1) ids1 ->
  ids_advance ids1 s1 ids2 s2 -> ids_advance ids2 s2 ids3 s3 ->
  In i ids1 -> ~ In i ids2 -> ~ In i ids3.
Proof.
  intros Hb [H12 _] [_ F23] H1 H2 H3.
  rewrite Forall_forall in *.
  specialize (Hb i H1). destruct (F23 i H3) as [H|H]; [contradiction|lia].
Qed.

(** X7: Whatever sequence of calls has run since the tables were created:
    no two habits share a name, every check-off belongs to a stored
    habit, no stored name is empty, and ids grow along each table within
    its counter.  Further calls never move a counter back and give a new
    row an id above the counter, so that an id that has left a table
    (its row was deleted) is never handed out again. *)
Theorem run_consistent (ops more later : list Session.operation) :
  consistent (Session.run ops) /\
  advances (Session.run ops) (Session.run (ops ++ more)) /\
  (forall i,
     In i (map h_id (habit (Session.run ops))) ->
     ~ In i (map h_id (habit (Session.run (ops ++ more)))) ->
     ~ In i (map h_id (habit (Session.run (ops ++ more ++ later))))) /\
  (forall i,
     In i (map t_id (tracker (Session.run ops))) ->
     ~ In i (map t_id (tracker (Session.run (ops ++ more)))) ->
     ~ In i (map t_id (tracker (Session.run (ops ++ more ++ later))))).
Proof.
  assert (Hc : consistent (Session.run ops)).
  { unfold Session.run. apply fold_run_consistent.
    apply consistent_create_tables. }
  assert (H12 : advances (Session.run ops) (Session.run (ops ++ more))).
  { unfold Session.run. rewrite fold_left_app. apply fold_run_advances. }
  assert (H23 : advances (Session.run (ops ++ more))
                         (Session.run (ops ++ more ++ later))).
  { unfold Session.run. rewrite !fold_left_app. apply fold_run_advances. }
  destruct Hc as (Hu & Hfk & ((H0 & Hs & Hb) & (H0' & Hs' & Hb')) & Hne).
  split; [repeat split; assumption|]. split; [exact H12|].
  destruct H12 as [Hh12 Ht12]. destruct H23 as [Hh23 Ht23].
  split; intros i.
  - apply (ids_not_reused _ _ _ _ _ _ i Hb Hh12 Hh23).
  - apply (ids_not_reused _ _ _ _ _ _ i Hb' Ht12 Ht23).
Qed.

Lemma run_consistent_witness :
  ~ In 1 (map h_id (habit (Session.run
       ([Session.AddHabit "reading" "Read" "daily" Scenario.created]
        ++ [Session.DeleteDb]
        ++ [Session.AddHabit "yoga" "Stretch" "daily" Scenario.created])))).
Proof.
  destruct (run_consistent
              [Session.AddHabit "reading" "Read" "daily" Scenario.created]
              [Session.DeleteDb]
              [Session.AddHabit "yoga" "Stretch" "daily" Scenario.created])
    as (_ & _ & H & _).
  apply (H 1).
  - vm_compute. left. reflexivity.
  - vm_compute. intros [].
Defined.

(** ** Deleting and resetting *)









(** ** Renaming a habit *)

Lemma lower_unique_names (db : Database) :
  lower_unique db -> unique_names db.
Proof.
  unfold lower_unique, unique_names. intros H.
  apply (NoDup_map_inv Text.LOWER). rewrite map_map. exact H.
Qed.

Lemma filter_renamed {A : Type} (key : A -> string) (ren : A -> A)
    (l : list A) (old new : string) :
  (forall x, key (ren x) = if String.eqb (key x) old then new else key x) ->
  (forall x, In x l -> key x <> new) ->
  filter (fun r => String.eqb (key r) new) (map ren l)
  = map ren (filter (fun r => String.eqb (key r) old) l).
Proof.
  intros Hren Hfree. induction l as [|a l IH]; [reflexivity|].
  cbn [map filter]. rewrite Hren.
  rewrite IH by (intros x Hx; apply Hfree; right; exact Hx).
  destruct (String.eqb_spec (key a) old) as [E|E].
  - rewrite String.eqb_refl. reflexivity.
  - destruct (String.eqb_spec (key a) new) as [E'|_]; [|reflexivity].
    exfalso. apply (Hfree a); [left; reflexivity|exact E'].
Qed.

Lemma filter_renamed_away {A : Type} (key : A -> string) (ren : A -> A)
    (l : list A) (old new : string) :
  (forall x, key (ren x) = if String.eqb (key x) old then new else key x) ->
  new <> old ->
  filter (fun r => String.eqb (key r) old) (map ren l) = [].
Proof.
  intros Hren Hne. induction l as [|a l IH]; [reflexivity|].
  cbn [map filter]. rewrite Hren, IH.
  destruct (String.eqb_spec (key a) old) as [E|E].
  - destruct (String.eqb_spec new old); [contradiction|reflexivity].
  - destruct (String.eqb_spec (key a) old); [contradiction|reflexivity].
Qed.

(** X12: On tables where no two names are equal up to ASCII case and
    every check-off belongs to a stored habit, [update_habit] of a
    stored habit with a new name that no habit carries: the habit is
    stored under the new name, its check-offs follow it ([ON UPDATE
    CASCADE]), so the count under the new name is the one it had under
    the old one, [calculate_streak] of the new name gives what it gave
    for the old one, and nothing is left under the old name. *)
Theorem update_habit_rename_keeps_checkoffs
    (db : Database) (row : habit_row) (new_name : string) :
  lower_unique db -> foreign_keys_ok db -> In row (habit db) ->
  new_name <> EmptyString -> ~ In new_name (map h_name (habit db)) ->
  exists db',
    update_habit db (h_name row) (Some new_name) None None
    = inl (db', "Habit '" ++ new_name ++ "' has been updated successfully.")
    /\ calculate_count db' new_name = calculate_count db (h_name row)
    /\ calculate_streak db' new_name = calculate_streak db (h_name row)
    /\ calculate_count db' (h_name row) = 0.
Proof.
  intros Hlu Hfk Hin Hne Hfree.
  pose proof (lower_unique_names db Hlu) as Hu.
  assert (Hold : new_name <> h_name row)
    by (intros E; apply Hfree; rewrite E; apply in_map; exact Hin).
  set (ren_h := fun r => if String.eqb (h_name r) (h_name row)
                         then mk_habit (h_id r) new_name (h_description r)
                                       (h_periodicity r) (h_date r)
                         else r).
  set (ren_t := fun r => if String.eqb (t_habit_name r) (h_name row)
                         then mk_tracker (t_id r) (t_check_of_date r) new_name
                         else r).
  set (db' := mk_db (map ren_h (habit db)) (map ren_t (tracker db))
                    (habit_seq db) (tracker_seq db)).
  assert (Hkey_h : forall x, h_name (ren_h x)
                   = if String.eqb (h_name x) (h_name row)
                     then new_name else h_name x)
    by (intros x; unfold ren_h;
        destruct (String.eqb (h_name x) (h_name row)); reflexivity).
  assert (Hkey_t : forall x, t_habit_name (ren_t x)
                   = if String.eqb (t_habit_name x) (h_name row)
                     then new_name else t_habit_name x)
    by (intros x; unfold ren_t;
        destruct (String.eqb (t_habit_name x) (h_name row)); reflexivity).
  assert (Hfree_h : forall x, In x (habit db) -> h_name x <> new_name)
    by (intros x Hx E; apply Hfree; rewrite <- E; apply in_map; exact Hx).
  assert (Hfree_t : forall x, In x (tracker db) -> t_habit_name x <> new_name).
  { intros x Hx E. apply Hfree. rewrite <- E.
    unfold foreign_keys_ok in Hfk. rewrite Forall_forall in Hfk.
    apply Hfk. exact Hx. }
  assert (Hdata : get_habit_data db' new_name
                  = map ren_t (get_habit_data db (h_name row)))
    by (apply (filter_renamed t_habit_name ren_t); assumption).
  assert (Hdates : select_check_off_dates db' new_name
                   = select_check_off_dates db (h_name row)).
  { unfold select_check_off_dates.
    fold (get_habit_data db' new_name). fold (get_habit_data db (h_name row)).
    rewrite Hdata, map_map. f_equal. apply map_ext. intros t.
    unfold ren_t. destruct (String.eqb (t_habit_name t) (h_name row));
      reflexivity. }
  exists db'. split; [|split; [|split]].
  - unfold update_habit.
    rewrite (select_name_lower_unique db row (h_name row) Hlu Hin eq_refl).
    cbn [truthy].
    destruct new_name as [|c new_name]; [contradiction|].
    cbn [Text.is_empty]. unfold update_name.
    assert (Hex : existsb (fun r => String.eqb (h_name r) (String c new_name))
                          (habit db) = false).
    { destruct (existsb _ (habit db)) eqn:Ex; [|reflexivity].
      apply existsb_exists in Ex. destruct Ex as (r & Hr & E).
      apply String.eqb_eq in E. exfalso. apply (Hfree_h r Hr E). }
    rewrite Hex, andb_false_r. reflexivity.
  - unfold calculate_count. rewrite Hdata, length_map. reflexivity.
  - assert (Hrow' : In (ren_h row) (habit db'))
      by (apply in_map; exact Hin).
    assert (Hname' : h_name (ren_h row) = new_name)
      by (rewrite Hkey_h, String.eqb_refl; reflexivity).
    assert (Hp' : proof_habit db' new_name = true)
      by (rewrite <- Hname'; apply proof_habit_stored; exact Hrow').
    unfold calculate_streak.
    rewrite Hp', (proof_habit_stored db row Hin), Hdates.
    rewrite (select_periodicity_unique db row Hu Hin).
    unfold select_periodicity. cbn [habit db'].
    rewrite (filter_renamed h_name ren_h (habit db) (h_name row) new_name
               Hkey_h Hfree_h).
    rewrite (filter_unique_name _ _ Hu Hin). cbn [map].
    unfold ren_h at 1. rewrite String.eqb_refl. reflexivity.
  - unfold calculate_count, get_habit_data. cbn [tracker db'].
    rewrite (filter_renamed_away t_habit_name ren_t (tracker db)
               (h_name row) new_name Hkey_t Hold).
    reflexivity.
Qed.

Lemma update_habit_rename_keeps_checkoffs_witness :
  exists db',
    update_habit Scenario.reading_db "reading" (Some "novels") None None
    = inl (db', "Habit 'novels' has been updated successfully.")
    /\ calculate_count db' "novels"
       = calculate_count Scenario.reading_db "reading"
    /\ calculate_streak db' "novels"
       = calculate_streak Scenario.reading_db "reading"
    /\ calculate_count db' "reading" = 0.
Proof.
  apply (update_habit_rename_keeps_checkoffs Scenario.reading_db
           (mk_habit 1 "reading" "Read a chapter" "daily" Scenario.created)
           "novels").
  - vm_compute. repeat constructor. intros [].
  - vm_compute. repeat constructor.
  - vm_compute. left. reflexivity.
  - discriminate.
  - vm_compute. intros [E|[]]. discriminate E.
Defined.

(** ** What the streak measures *)

Lemma for_loop_calendar (rest : list datetime) :
  forall previous st,
    Forall (fun t => valid_datetime t = true) (previous :: rest) ->
    chain (fun a b => seconds_of_day a <=? seconds_of_day b)
          (previous :: rest) = true ->
    for_loop "daily" previous rest st = calendar_loop previous rest st.
Proof.
  induction rest as [|d rest IH]; intros previous [l c] Hv Hch;
    [reflexivity|].
  inversion Hv as [|? ? Hp Hv']; subst.
  inversion Hv' as [|? ? Hd _]; subst.
  change (chain (fun a b => seconds_of_day a <=? seconds_of_day b)
                (previous :: d :: rest))
    with ((seconds_of_day previous <=? seconds_of_day d)
          && chain (fun a b => seconds_of_day a <=? seconds_of_day b)
                   (d :: rest)) in Hch.
  apply andb_prop in Hch. destruct Hch as [Hle Hch].
  apply Z.leb_le in Hle.
  pose proof (seconds_of_day_range previous Hp).
  pose proof (seconds_of_day_range d Hd).
  cbn [for_loop calendar_loop fst snd].
  rewrite loop_body_daily_calendar by lia.
  apply IH; assumption.
Qed.

(** X2: When along the fetched sequence of a daily habit the time of day
    never goes backwards (as with the 00:00:00 of [add_event] with a
    date, or the one time of day of the dummy data), the streak is the
    one of the calendar rule: a run goes on exactly from one calendar
    day to the next. *)
Theorem daily_streak_calendar_rule (ds : list datetime) :
  Forall (fun t => valid_datetime t = true) ds ->
  chain (fun a b => seconds_of_day a <=? seconds_of_day b) ds = true ->
  streak_of_dates "daily" ds = calendar_streak ds.
Proof.
  intros Hv Hch. destruct ds as [|d rest]; [reflexivity|].
  unfold streak_of_dates, loop_state, calendar_streak.
  rewrite (for_loop_calendar rest d (0, 1) Hv Hch).
  destruct (calendar_loop d rest (0, 1)); reflexivity.
Qed.

Lemma daily_streak_calendar_rule_witness :
  streak_of_dates "daily" (Scenario.december_checkoffs 7 0 0)
  = calendar_streak (Scenario.december_checkoffs 7 0 0).
Proof.
  apply (daily_streak_calendar_rule (Scenario.december_checkoffs 7 0 0)).
  - vm_compute. repeat constructor.
  - vm_compute. reflexivity.
Defined.

Lemma loop_body_extends (p : string) (prev cur : datetime) (l c : Z) :
  (extends p prev cur = true /\ loop_body p prev cur (l, c) = (l, c + 1)) \/
  (extends p prev cur = false /\
   loop_body p prev cur (l, c) = (Z.max l c, 1)) \/
  ((forall a b, extends p a b = false) /\ loop_body p prev cur (l, c) = (l, c)).
Proof.
  unfold extends, loop_body.
  destruct (String.eqb p "daily").
  - destruct (timedelta_days cur prev =? 1); [left|right; left]; auto.
  - destruct (String.eqb p "weekly"); [|right; right; auto].
    unfold week_successor.
    destruct (isocalendar prev) as [py pw].
    destruct (isocalendar cur) as [cy cw]. cbn [fst snd].
    destruct (cy =? py), (cw =? pw + 1), (cy =? py + 1), (pw =? 52),
             (cw =? 1); cbn [andb orb]; auto.
Qed.

Lemma chain_cons2 (adj : datetime -> datetime -> bool) (x y : datetime)
    (l : list datetime) :
  chain adj (x :: y :: l) = adj x y && chain adj (y :: l).
Proof. reflexivity. Qed.

Lemma chain_never (adj : datetime -> datetime -> bool) (seg : list datetime) :
  (forall a b, adj a b = false) -> chain adj seg = true ->
  (List.length seg <= 1)%nat.
Proof.
  intros Hadj. destruct seg as [|x [|y l]]; cbn [List.length]; try lia.
  rewrite chain_cons2, Hadj. discriminate.
Qed.

(** No run of adjacent check-offs is longer than what the loop ends
    with: the prefixes of the rest count on top of the run that is open
    at [prev]. *)
Lemma for_loop_upper (p : string) (rest : list datetime) :
  forall prev l c, 0 <= l -> 1 <= c ->
    let st := for_loop p prev rest (l, c) in
    let R := Z.max (fst st) (snd st) in
    Z.max l c <= R /\
    (forall seg post, prev :: rest = (seg ++ post)%list -> seg <> [] ->
       chain (extends p) seg = true ->
       c - 1 + Z.of_nat (List.length seg) <= R) /\
    (forall seg, segment seg rest -> chain (extends p) seg = true ->
       Z.of_nat (List.length seg) <= R).
Proof.
  induction rest as [|d rest IH]; intros prev l c Hl Hc; cbv zeta.
  - cbn [for_loop fst snd]. split; [lia|]. split.
    + intros seg post E Hne _. destruct seg as [|x seg]; [contradiction|].
      injection E as _ E. destruct seg; [cbn [List.length]; lia|discriminate].
    + intros seg (pre & post & E) _.
      destruct pre; [|discriminate]. destruct seg; [|discriminate].
      cbn [List.length]. lia.
  - cbn [for_loop].
    assert (Hstep :
      exists l' c', loop_body p prev d (l, c) = (l', c') /\
                    0 <= l' /\ 1 <= c' /\ Z.max l c <= Z.max l' c' /\
                    (extends p prev d = true -> c' = c + 1)).
    { destruct (loop_body_extends p prev d l c)
        as [[He ->]|[[He ->]|[He ->]]].
      - exists l, (c + 1). repeat split; lia.
      - exists (Z.max l c), 1. repeat split; try lia. congruence.
      - exists l, c. repeat split; try lia. rewrite He. discriminate. }
    destruct Hstep as (l' & c' & -> & Hl' & Hc' & Hmax & Hext).
    specialize (IH d l' c' Hl' Hc'). cbv zeta in IH.
    destruct IH as (IH1 & IH2 & IH3).
    set (R := Z.max (fst (for_loop p d rest (l', c')))
                    (snd (for_loop p d rest (l', c')))) in *.
    split; [lia|]. split.
    + intros seg post E Hne Hch.
      destruct seg as [|x [|y seg]]; [contradiction| |].
      * cbn [List.length]. lia.
      * cbn [app] in E. injection E as <- <- E.
        rewrite chain_cons2 in Hch. apply andb_prop in Hch.
        destruct Hch as [Hxy Hch].
        specialize (IH2 (d :: seg) post). cbn [app] in IH2.
        rewrite E in IH2. specialize (IH2 eq_refl ltac:(discriminate) Hch).
        rewrite (Hext Hxy) in IH2. cbn [List.length] in *. lia.
    + intros seg (pre & post & E) Hch.
      destruct seg as [|x seg]; [cbn [List.length]; lia|].
      destruct pre as [|a pre].
      * specialize (IH2 (x :: seg) post E ltac:(discriminate) Hch). lia.
      * cbn [app] in E. injection E as _ E.
        apply IH3; [exists pre, post; exact E|exact Hch].
Qed.

(** What the loop ends with is the length of some run of adjacent
    check-offs, possibly counted on top of the open run, or the longest
    value it started from. *)
Lemma for_loop_attained (p : string) (rest : list datetime) :
  forall prev l c, 1 <= c ->
    let st := for_loop p prev rest (l, c) in
    let R := Z.max (fst st) (snd st) in
    R = l \/
    (exists seg post, prev :: rest = (seg ++ post)%list /\ seg <> [] /\
       chain (extends p) seg = true /\
       c - 1 + Z.of_nat (List.length seg) = R) \/
    (exists seg, segment seg rest /\ chain (extends p) seg = true /\
       Z.of_nat (List.length seg) = R).
Proof.
  induction rest as [|d rest IH]; intros prev l c Hc; cbv zeta.
  - cbn [for_loop fst snd].
    destruct (Z.max_spec l c) as [[_ ->]|[_ ->]]; [|left; reflexivity].
    right. left. exists [prev], []. repeat split; try discriminate.
    cbn [List.length]. lia.
  - cbn [for_loop].
    destruct (loop_body_extends p prev d l c)
      as [[He ->]|[[He ->]|[He ->]]].
    + destruct (IH d l (c + 1) ltac:(lia))
        as [E|[(seg & post & E & Hne & Hch & Hlen)|(seg & Hseg & Hch & Hlen)]].
      * left. exact E.
      * right. left. destruct seg as [|x seg]; [contradiction|].
        injection E as <- E.
        exists (prev :: d :: seg), post. repeat split.
        -- cbn [app]. rewrite E. reflexivity.
        -- discriminate.
        -- rewrite chain_cons2, He, Hch. reflexivity.
        -- cbn [List.length] in *. lia.
      * right. right. exists seg. split; [|split; assumption].
        destruct Hseg as (pre & post & E). exists (d :: pre), post.
        rewrite E. reflexivity.
    + destruct (IH d (Z.max l c) 1 ltac:(lia))
        as [E|[(seg & post & E & Hne & Hch & Hlen)|(seg & Hseg & Hch & Hlen)]].
      * destruct (Z.max_spec l c) as [[Hlt Em]|[Hge Em]].
        -- right. left. exists [prev], (d :: rest).
           repeat split; try discriminate. cbn [List.length]. lia.
        -- left. lia.
      * right. right. exists seg. split; [|split; [exact Hch|lia]].
        exists [], post. exact E.
      * right. right. exists seg. split; [|split; assumption].
        destruct Hseg as (pre & post & E). exists (d :: pre), post.
        rewrite E. reflexivity.
    + destruct (IH d l c Hc)
        as [E|[(seg & post & E & Hne & Hch & Hlen)|(seg & Hseg & Hch & Hlen)]].
      * left. exact E.
      * right. left. exists [prev], (d :: rest).
        repeat split; try discriminate.
        pose proof (chain_never _ seg He Hch) as H1.
        destruct seg as [|x seg]; [contradiction|].
        cbn [List.length] in *. lia.
      * right. right. exists seg. split; [|split; assumption].
        destruct Hseg as (pre & post & E). exists (d :: pre), post.
        rewrite E. reflexivity.
Qed.

(** X1: The number [calculate_streak] computes from the fetched dates is the
    length of the longest run of consecutive entries in which every
    entry passes the loop's test against the one before it: no such run
    is longer, and (for a non-empty sequence) one has exactly that
    length.  In particular a sequence that is one such run has its own
    length as streak. *)
Theorem streak_is_longest_run (p : string) (ds : list datetime) :
  (forall seg, segment seg ds -> chain (extends p) seg = true ->
     Z.of_nat (List.length seg) <= streak_of_dates p ds) /\
  (ds <> [] ->
   exists seg, segment seg ds /\ chain (extends p) seg = true /\
     Z.of_nat (List.length seg) = streak_of_dates p ds) /\
  (chain (extends p) ds = true ->
   streak_of_dates p ds = Z.of_nat (List.length ds)).
Proof.
  assert (Hupper : forall seg, segment seg ds ->
            chain (extends p) seg = true ->
            Z.of_nat (List.length seg) <= streak_of_dates p ds).
  { intros seg Hseg Hch. destruct ds as [|d rest].
    - destruct Hseg as (pre & post & E).
      destruct pre; [|discriminate]. destruct seg; [|discriminate].
      cbn. lia.
    - rewrite streak_of_dates_nonempty by discriminate. unfold loop_state.
      destruct (for_loop_upper p rest d 0 1 ltac:(lia) ltac:(lia))
        as (H1 & H2 & H3).
      destruct seg as [|x seg]; [cbn [List.length]; lia|].
      destruct Hseg as ([|a pre] & post & E).
      + specialize (H2 (x :: seg) post E ltac:(discriminate) Hch). lia.
      + cbn [app] in E. injection E as _ E.
        apply H3; [exists pre, post; exact E|exact Hch]. }
  split; [exact Hupper|]. split.
  - intros Hne. destruct ds as [|d rest]; [contradiction|].
    rewrite streak_of_dates_nonempty by discriminate. unfold loop_state.
    pose proof (for_loop_bounds p rest d 0 1 1 ltac:(lia) ltac:(lia)) as Hb.
    destruct (for_loop_attained p rest d 0 1 ltac:(lia))
      as [E|[(seg & post & E & _ & Hch & Hlen)|(seg & Hseg & Hch & Hlen)]].
    + lia.
    + exists seg. split; [exists [], post; exact E|].
      split; [exact Hch|lia].
    + exists seg. split; [|split; assumption].
      destruct Hseg as (pre & post & E). exists (d :: pre), post.
      rewrite E. reflexivity.
  - intros Hch.
    pose proof (Hupper ds ltac:(exists [], []; rewrite app_nil_r; reflexivity)
                       Hch) as Hlow.
    pose proof (streak_of_dates_bounds p ds) as [Hb _]. lia.
Qed.

Lemma streak_is_longest_run_witness :
  streak_of_dates "weekly" Scenario.year_end_checkoffs
  = Z.of_nat (List.length Scenario.year_end_checkoffs).
Proof.
  apply (streak_is_longest_run "weekly" Scenario.year_end_checkoffs).
  vm_compute. reflexivity.
Defined.

(** ** Weeks: the test of [add_event] against the test of the streak *)

Lemma monday_of_is_monday (t : datetime) : (monday_of t + 6) mod 7 = 0.
Proof.
  unfold monday_of, weekday. generalize (toordinal t). intros o.
  Z.div_mod_to_equations. lia.
Qed.

Lemma monday_of_window (t : datetime) :
  monday_of t <= toordinal t < monday_of t + 7.
Proof.
  unfold monday_of, weekday. generalize (toordinal t). intros o.
  Z.div_mod_to_equations. lia.
Qed.

(** A day within the seven days from a Monday belongs to that Monday. *)
Lemma monday_of_unique (t : datetime) (W : Z) :
  (W + 6) mod 7 = 0 -> W <= toordinal t < W + 7 -> monday_of t = W.
Proof.
  unfold monday_of, weekday. generalize (toordinal t). intros o.
  Z.div_mod_to_equations. lia.
Qed.

(** Days of one week are equally many whole weeks away from any
    Monday. *)
Lemma same_monday_weeks (a b : datetime) (N : Z) :
  monday_of a = monday_of b -> (N + 6) mod 7 = 0 ->
  (toordinal a - N) / 7 = (toordinal b - N) / 7.
Proof.
  intros Hm HN.
  pose proof (monday_of_is_monday a) as Ha.
  pose proof (monday_of_window a) as Hwa.
  pose proof (monday_of_window b) as Hwb.
  rewrite <- Hm in Hwb. revert Ha Hwa Hwb HN.
  generalize (monday_of a) (toordinal a) (toordinal b). intros M oa ob.
  Z.div_mod_to_equations. lia.
Qed.

Lemma isoweek1monday_is_monday (y : Z) : (isoweek1monday y + 6) mod 7 = 0.
Proof.
  unfold isoweek1monday. cbv zeta. generalize (ymd2ord y 1 1). intros j.
  destruct (3 <? (j + 6) mod 7); Z.div_mod_to_equations; lia.
Qed.

Lemma isoweek1monday_near (y : Z) :
  ymd2ord y 1 1 - 3 <= isoweek1monday y <= ymd2ord y 1 1 + 3.
Proof.
  unfold isoweek1monday. cbv zeta. generalize (ymd2ord y 1 1). intros j.
  destruct (Z.ltb_spec 3 ((j + 6) mod 7)); Z.div_mod_to_equations; lia.
Qed.

(** The SQL key [%Y-%W] of two days of one calendar year is the same
    exactly when the days share their Monday. *)
Lemma sql_year_week_same_monday (a b : datetime) :
  year a = year b ->
  (sql_year_week a = sql_year_week b <-> monday_of a = monday_of b).
Proof.
  intros Hy. unfold sql_year_week. cbv zeta. rewrite <- Hy.
  fold (monday_of a). fold (monday_of b).
  pose proof (monday_of_is_monday a) as Ha.
  pose proof (monday_of_is_monday b) as Hb.
  replace (toordinal a - ymd2ord (year a) 1 1 - weekday a + 7)
    with (monday_of a - ymd2ord (year a) 1 1 + 7)
    by (unfold monday_of; lia).
  replace (toordinal b - ymd2ord (year a) 1 1 - weekday b + 7)
    with (monday_of b - ymd2ord (year a) 1 1 + 7)
    by (unfold monday_of; lia).
  revert Ha Hb. generalize (monday_of a) (monday_of b) (ymd2ord (year a) 1 1).
  intros Ma Mb j Ha Hb. split.
  - intros E. injection E as E. revert E Ha Hb.
    Z.div_mod_to_equations. lia.
  - intros ->. reflexivity.
Qed.

Lemma days_before_year_succ (y : Z) :
  days_before_year (y + 1)
  = days_before_year y + 365 + (if is_leap y then 1 else 0).
Proof.
  unfold days_before_year, is_leap. cbv zeta.
  replace (y + 1 - 1) with y by lia.
  destruct (Z.eqb_spec (y mod 4) 0), (Z.eqb_spec (y mod 100) 0),
           (Z.eqb_spec (y mod 400) 0); cbn [negb andb orb];
    Z.div_mod_to_equations; lia.
Qed.

(** A date lies within its calendar year. *)
Lemma toordinal_within_year (t : datetime) :
  valid_datetime t = true ->
  ymd2ord (year t) 1 1 <= toordinal t < ymd2ord (year t + 1) 1 1.
Proof.
  unfold valid_datetime. intros H.
  repeat (apply andb_prop in H; destruct H as [H ?]).
  repeat match goal with
         | H : (_ <=? _) = true |- _ => apply Z.leb_le in H
         | H : (_ <? _) = true |- _ => apply Z.ltb_lt in H
         end.
  unfold toordinal, ymd2ord. rewrite days_before_year_succ.
  unfold days_before_month, days_in_month in *.
  change (DAYS_BEFORE_MONTH 1) with 0. change (2 <? 1) with false.
  cbn [andb].
  assert (Hm : month t = 1 \/ month t = 2 \/ month t = 3 \/ month t = 4 \/
               month t = 5 \/ month t = 6 \/ month t = 7 \/ month t = 8 \/
               month t = 9 \/ month t = 10 \/ month t = 11 \/ month t = 12)
    by lia.
  destruct (is_leap (year t));
    repeat (destruct Hm as [Hm|Hm]);
    rewrite Hm in *; cbn in *; lia.
Qed.

(** [isocalendar] in terms of whole weeks from the three Mondays. *)
Lemma isocalendar_weeks (t : datetime) :
  isocalendar t
  = (if (toordinal t - isoweek1monday (year t)) / 7 <? 0 then
       (year t - 1, (toordinal t - isoweek1monday (year t - 1)) / 7 + 1)
     else if 52 <=? (toordinal t - isoweek1monday (year t)) / 7 then
       if 0 <=? (toordinal t - isoweek1monday (year t + 1)) / 7
       then (year t + 1, 1)
       else (year t, (toordinal t - isoweek1monday (year t)) / 7 + 1)
     else (year t, (toordinal t - isoweek1monday (year t)) / 7 + 1)).
Proof.
  unfold isocalendar. cbv zeta. fold (toordinal t).
  replace (isoweek1monday (year t + 1) <=? toordinal t)
    with (0 <=? (toordinal t - isoweek1monday (year t + 1)) / 7);
    [reflexivity|].
  generalize (toordinal t) (isoweek1monday (year t + 1)). intros o N.
  destruct (Z.leb_spec 0 ((o - N) / 7)), (Z.leb_spec N o);
    try reflexivity; exfalso; Z.div_mod_to_equations; lia.
Qed.

Lemma isocalendar_same_monday (a b : datetime) :
  year a = year b -> monday_of a = monday_of b ->
  isocalendar a = isocalendar b.
Proof.
  intros Hy Hm. rewrite !isocalendar_weeks, <- Hy.
  rewrite <- (same_monday_weeks a b _ Hm (isoweek1monday_is_monday _)).
  rewrite <- (same_monday_weeks a b _ Hm (isoweek1monday_is_monday (year a - 1))).
  rewrite <- (same_monday_weeks a b _ Hm (isoweek1monday_is_monday (year a + 1))).
  reflexivity.
Qed.

(** The ISO pair of a date names the seven days from a Monday in which
    the date lies. *)
Lemma isocalendar_window (t : datetime) :
  valid_datetime t = true ->
  isoweek1monday (fst (isocalendar t)) + 7 * (snd (isocalendar t) - 1)
  <= toordinal t
  < isoweek1monday (fst (isocalendar t)) + 7 * snd (isocalendar t).
Proof.
  intros Hv. pose proof (toordinal_within_year t Hv) as [_ Hend].
  pose proof (isoweek1monday_near (year t + 1)) as Hnear.
  rewrite isocalendar_weeks.
  destruct (Z.ltb_spec ((toordinal t - isoweek1monday (year t)) / 7) 0);
    [cbn [fst snd]; Z.div_mod_to_equations; lia|].
  destruct (Z.leb_spec 52 ((toordinal t - isoweek1monday (year t)) / 7));
    [|cbn [fst snd]; Z.div_mod_to_equations; lia].
  destruct (Z.leb_spec 0 ((toordinal t - isoweek1monday (year t + 1)) / 7));
    cbn [fst snd]; Z.div_mod_to_equations; lia.
Qed.

Lemma isocalendar_monday (a b : datetime) :
  valid_datetime a = true -> valid_datetime b = true ->
  isocalendar a = isocalendar b -> monday_of a = monday_of b.
Proof.
  intros Ha Hb E.
  pose proof (isocalendar_window a Ha) as Hwa.
  pose proof (isocalendar_window b Hb) as Hwb.
  rewrite <- E in Hwb.
  pose proof (isoweek1monday_is_monday (fst (isocalendar a))) as HM.
  set (W := isoweek1monday (fst (isocalendar a))
            + 7 * (snd (isocalendar a) - 1)) in *.
  assert (HW : (W + 6) mod 7 = 0).
  { unfold W. revert HM.
    generalize (isoweek1monday (fst (isocalendar a))) (snd (isocalendar a)).
    intros N w. Z.div_mod_to_equations. lia. }
  rewrite (monday_of_unique a W HW) by (unfold W in *; lia).
  rewrite (monday_of_unique b W HW) by (unfold W in *; lia).
  reflexivity.
Qed.

(** X15: For a weekly habit [add_event] compares the keys
    [strftime('%Y-%W', _)], while [calculate_streak] compares ISO weeks.
    On two dates of one calendar year the two agree: the keys are equal
    exactly when the dates lie in the same ISO week.  Dates of different
    calendar years never have equal keys, also when they share an ISO
    week, as 2024-12-31 and 2025-01-01 do. *)
Theorem weekly_key_against_iso_week (a b : datetime) :
  valid_datetime a = true -> valid_datetime b = true ->
  (year a = year b ->
   (year_week_eqb (sql_year_week a) (sql_year_week b) = true
    <-> isocalendar a = isocalendar b)) /\
  (year a <> year b ->
   year_week_eqb (sql_year_week a) (sql_year_week b) = false) /\
  year_week_eqb (sql_year_week (mk_datetime 2024 12 31 0 0 0))
                (sql_year_week (mk_datetime 2025 1 1 0 0 0)) = false /\
  isocalendar (mk_datetime 2024 12 31 0 0 0)
  = isocalendar (mk_datetime 2025 1 1 0 0 0).
Proof.
  intros Ha Hb.
  assert (Hkey : year_week_eqb (sql_year_week a) (sql_year_week b) = true
                 <-> sql_year_week a = sql_year_week b).
  { unfold year_week_eqb.
    destruct (sql_year_week a) as [ya wa], (sql_year_week b) as [yb wb].
    cbn [fst snd]. rewrite andb_true_iff, !Z.eqb_eq. split.
    - intros [-> ->]. reflexivity.
    - intros E. injection E as -> ->. split; reflexivity. }
  split; [|split; [|split; reflexivity]].
  - intros Hy. rewrite Hkey, (sql_year_week_same_monday a b Hy). split.
    + apply isocalendar_same_monday. exact Hy.
    + apply isocalendar_monday; assumption.
  - intros Hy. apply not_true_is_false. intros E.
    apply Hy. apply Hkey in E. unfold sql_year_week in E.
    cbv zeta in E. injection E as E _. exact E.
Qed.

Lemma weekly_key_against_iso_week_witness :
  year_week_eqb (sql_year_week (mk_datetime 2024 12 2 15 0 0))
                (sql_year_week (mk_datetime 2024 12 8 9 0 0)) = true
  <-> isocalendar (mk_datetime 2024 12 2 15 0 0)
      = isocalendar (mk_datetime 2024 12 8 9 0 0).
Proof.
  apply (weekly_key_against_iso_week (mk_datetime 2024 12 2 15 0 0)
           (mk_datetime 2024 12 8 9 0 0)); reflexivity.
Defined.

(** ** Two check-offs in one period *)

(** X3: Two check-offs on one calendar day (daily), or in one ISO week
    (weekly), never extend a run, in whichever order they come: the loop
    folds the current run into the longest one and restarts it at 1.  A
    check-off logged twice therefore cuts the streak at that point. *)
Theorem same_period_ends_run (a b : datetime) (l c : Z) :
  valid_datetime a = true -> valid_datetime b = true ->
  (toordinal a = toordinal b ->
   loop_body "daily" a b (l, c) = (Z.max l c, 1)) /\
  (isocalendar a = isocalendar b ->
   loop_body "weekly" a b (l, c) = (Z.max l c, 1)).
Proof.
  intros Ha Hb. split.
  - intros E. rewrite loop_body_daily. unfold timedelta_days. rewrite E.
    pose proof (seconds_of_day_range a Ha) as Hsa.
    pose proof (seconds_of_day_range b Hb) as Hsb.
    destruct (Z.eqb_spec
                (toordinal b - toordinal b
                 + (seconds_of_day b - seconds_of_day a) / 86400) 1)
      as [H|_]; [|reflexivity].
    exfalso. revert H Hsa Hsb.
    generalize (seconds_of_day a) (seconds_of_day b) (toordinal b).
    intros sa sb o. Z.div_mod_to_equations. lia.
  - intros E. rewrite loop_body_weekly, E. unfold week_successor.
    destruct (isocalendar b) as [y w].
    destruct (Z.eqb_spec w (w + 1)); [lia|].
    destruct (Z.eqb_spec w 52), (Z.eqb_spec w 1); try lia;
      rewrite ?andb_false_r; reflexivity.
Qed.

Lemma same_period_ends_run_witness :
  loop_body "daily" (mk_datetime 2024 12 1 7 0 0)
            (mk_datetime 2024 12 1 7 0 0) (3, 5) = (5, 1).
Proof.
  apply (same_period_ends_run (mk_datetime 2024 12 1 7 0 0)
           (mk_datetime 2024 12 1 7 0 0) 3 5); reflexivity.
Defined.

(** ** Storing and looking up *)

(** X16: After a first [add_habit] of a free name, [get_info] of the stored
    name gives exactly the stored row, the name is listed last among the
    current habits and under its own periodicity. *)
Theorem add_habit_then_lookup (db : Database)
    (name description periodicity date : string) :
  Text.is_empty (Text.lower (Text.strip name)) = false ->
  proof_habit db (Text.lower (Text.strip name)) = false ->
  let db' := fst (add_habit db name description periodicity date) in
  get_info db' (Text.lower (Text.strip name))
  = inl [stored_row db name description periodicity date] /\
  get_current_habit_names db'
  = (get_current_habit_names db ++ [Text.lower (Text.strip name)])%list /\
  In (Text.lower (Text.strip name)) (get_periodicity db' periodicity) /\
  get_habit_periodicity db' (Text.lower (Text.strip name))
  = Some periodicity.
Proof.
  intros Hne Hnew. cbv zeta.
  rewrite (add_habit_stores db name description periodicity date Hne Hnew).
  cbn [fst].
  set (n := Text.lower (Text.strip name)) in *.
  set (row := stored_row db name description periodicity date).
  set (db' := mk_db (habit db ++ [row])%list (tracker db) (habit_seq db + 1)
                    (tracker_seq db)).
  assert (Hrow : In row (habit db'))
    by (apply in_or_app; right; left; reflexivity).
  assert (Hnone : forall f,
            (forall r, f r = true ->
                       Text.LOWER (h_name r) = Text.LOWER n) ->
            filter f (habit db) = []).
  { intros f Hf. destruct (filter f (habit db)) as [|r l] eqn:E;
      [reflexivity|].
    assert (H : In r (r :: l)) by (left; reflexivity).
    rewrite <- E in H. apply filter_In in H. destruct H as [Hr Hfr].
    unfold proof_habit in Hnew.
    rewrite (count_lower_positive db r n Hr (Hf r Hfr)) in Hnew.
    discriminate. }
  split; [|split; [|split]].
  - unfold get_info.
    change n with (h_name row). rewrite (proof_habit_stored db' row Hrow).
    cbn [habit db']. rewrite filter_app_one, String.eqb_refl.
    rewrite Hnone; [reflexivity|].
    intros r Hr. apply String.eqb_eq in Hr. rewrite Hr. reflexivity.
  - unfold get_current_habit_names, get_current_habits. cbn [habit db'].
    rewrite map_app. reflexivity.
  - unfold get_periodicity. cbn [habit db']. rewrite filter_app_one.
    cbn [h_periodicity row stored_row]. rewrite String.eqb_refl.
    rewrite map_app. apply in_or_app. right. left. reflexivity.
  - unfold get_habit_periodicity. cbn [habit db']. rewrite filter_app_one.
    change (h_name row) with n. rewrite String.eqb_refl.
    rewrite Hnone; [reflexivity|].
    intros r Hr. apply String.eqb_eq in Hr. exact Hr.
Qed.

Lemma add_habit_then_lookup_witness :
  get_info
    (fst (add_habit Scenario.reading_db " Yoga " "" "weekly" "2024-12-05"))
    (Text.lower (Text.strip " Yoga "))
  = inl [stored_row Scenario.reading_db " Yoga " "" "weekly" "2024-12-05"].
Proof.
  assert (Hne : Text.is_empty (Text.lower (Text.strip " Yoga ")) = false)
    by (vm_compute; reflexivity).
  assert (Hnew : proof_habit Scenario.reading_db
                             (Text.lower (Text.strip " Yoga ")) = false)
    by (vm_compute; reflexivity).
  pose proof (add_habit_then_lookup Scenario.reading_db " Yoga " "" "weekly"
                "2024-12-05" Hne Hnew) as H.
  cbv zeta in H. destruct H as [H _]. exact H.
Defined.

(** X18: [DBHabit(name, ...).store(db)] twice: whatever the first call did,
    the second one changes nothing and reports the blank name, or the
    habit as already existing. *)
Theorem store_twice (now : string) (db : Database)
    (name description periodicity : string) (id : option Z) :
  let self := Habits.init now name description periodicity id in
  let db1 := fst (Habits.store self db) in
  Habits.store self db1
  = (db1,
     if Text.is_empty (Text.lower (Text.strip name))
     then "Habit name cannot be blank or just whitespace. It was not added."
     else "Habit '" ++ Text.lower (Text.strip name)
          ++ "' already exists. It was not added.").
Proof.
  cbv zeta.
  assert (Hnorm : Text.lower (Text.strip (Text.lower (Text.strip name)))
                  = Text.lower (Text.strip name))
    by (rewrite strip_lower, lower_idempotent, strip_idempotent; reflexivity).
  assert (Hstrip : Text.strip (Text.lower (Text.strip name))
                   = Text.lower (Text.strip name))
    by (rewrite strip_lower, strip_idempotent; reflexivity).
  unfold Habits.store, Habits.init.
  cbn [Habits.name Habits.description Habits.periodicity Habits.date].
  rewrite Hstrip.
  destruct (Text.is_empty (Text.lower (Text.strip name))) eqn:Hne.
  - reflexivity.
  - destruct (proof_habit db (Text.lower (Text.strip name))) eqn:Hex.
    + cbn [fst]. rewrite Hex. reflexivity.
    + rewrite add_habit_stores by (rewrite Hnorm; assumption).
      cbn [fst].
      set (row := stored_row db _ _ _ _).
      set (db1 := mk_db _ _ _ _).
      assert (Hrow : In row (habit db1))
        by (apply in_or_app; right; left; reflexivity).
      pose proof (proof_habit_stored db1 row Hrow) as Hp.
      unfold row, stored_row in Hp. cbn [h_name] in Hp.
      rewrite Hnorm in Hp. rewrite Hp. reflexivity.
Qed.

Lemma store_init_stores_witness :
  Habits.store (Habits.init Scenario.created " Work Out " "  " "daily" None)
               create_tables
  = (mk_db [mk_habit 1 "work out" "No description" "daily" Scenario.created]
           [] 1 0,
     "Habit 'work out' added successfully.").
Proof.
  apply (store_init_stores Scenario.created create_tables " Work Out " "  "
           "daily"); reflexivity.
Defined.

(** ** A name in another capitalisation *)

(** X9: The existence test folds ASCII case, the queries do not.  A name
    that passes the test without being the stored text of any habit reads
    nothing: no check-off, the streak 0 and an empty list of rows,
    instead of the data of the habit it matched. *)
Theorem other_capitalisation_reads_nothing (db : Database) (n : string) :
  foreign_keys_ok db -> proof_habit db n = true ->
  ~ In n (map h_name (habit db)) ->
  calculate_count db n = 0 /\
  calculate_streak db n = Return (VInt 0) /\
  get_info db n = inl [].
Proof.
  intros Hfk Hex Hno.
  assert (Hdata : get_habit_data db n = []).
  { unfold get_habit_data.
    destruct (filter _ (tracker db)) as [|t l] eqn:E; [reflexivity|].
    assert (H : In t (t :: l)) by (left; reflexivity).
    rewrite <- E in H. apply filter_In in H. destruct H as [Ht Hn].
    apply String.eqb_eq in Hn. exfalso. apply Hno. rewrite <- Hn.
    unfold foreign_keys_ok in Hfk. rewrite Forall_forall in Hfk.
    apply Hfk. exact Ht. }
  split; [unfold calculate_count; rewrite Hdata; reflexivity|].
  split.
  - unfold calculate_streak, select_check_off_dates. rewrite Hex.
    fold (get_habit_data db n). rewrite Hdata. reflexivity.
  - unfold get_info. rewrite Hex. f_equal.
    destruct (filter _ (habit db)) as [|r l] eqn:E; [reflexivity|].
    assert (H : In r (r :: l)) by (left; reflexivity).
    rewrite <- E in H. apply filter_In in H. destruct H as [Hr Hn].
    apply String.eqb_eq in Hn. exfalso. apply Hno. rewrite <- Hn.
    apply in_map. exact Hr.
Qed.

Lemma other_capitalisation_reads_nothing_witness :
  calculate_count Scenario.reading_db "Reading" = 0 /\
  calculate_streak Scenario.reading_db "Reading" = Return (VInt 0) /\
  get_info Scenario.reading_db "Reading" = inl [].
Proof.
  apply (other_capitalisation_reads_nothing Scenario.reading_db "Reading").
  - vm_compute. repeat constructor.
  - vm_compute. reflexivity.
  - vm_compute. intros [E|[]]. discriminate E.
Defined.

(** ** The dummy data *)

Lemma populate_has_habits (now : string) (clock : datetime)
    (t : list tracker_row) (hs ts : Z) :
  exists r l,
    habit (Population.populate_dummy_data now clock (mk_db [] t hs ts))
    = r :: l.
Proof. vm_compute. eauto. Qed.

Lemma check_and_populate_skips (now : string) (clock : datetime)
    (db : Database) :
  habit db <> [] ->
  Population.check_and_populate_dummy_data now clock db
  = (db, "Database already populated. Skipping dummy data population.").
Proof.
  intros Hne. unfold Population.check_and_populate_dummy_data,
    get_current_habits.
  destruct (habit db); [contradiction|reflexivity].
Qed.

Lemma check_and_populate_has_habits (now : string) (clock : datetime)
    (db : Database) :
  habit (fst (Population.check_and_populate_dummy_data now clock db)) <> [].
Proof.
  unfold Population.check_and_populate_dummy_data, get_current_habits.
  destruct (habit db) as [|r h] eqn:E; cbn [fst].
  - destruct db as [h t hs ts]. cbn [habit] in E. subst h.
    destruct (populate_has_habits now clock t hs ts) as (r & l & ->).
    discriminate.
  - rewrite E. discriminate.
Qed.

(** X19: [check_and_populate_dummy_data] acts at most once: after a first
    call the tables hold a habit, and any further call leaves them as
    they are. *)
Theorem check_and_populate_once
    (now now' : string) (clock clock' : datetime) (db : Database) :
  let db1 := fst (Population.check_and_populate_dummy_data now clock db) in
  habit db1 <> [] /\
  Population.check_and_populate_dummy_data now' clock' db1
  = (db1, "Database already populated. Skipping dummy data population.").
Proof.
  cbv zeta. split.
  - apply check_and_populate_has_habits.
  - apply check_and_populate_skips. apply check_and_populate_has_habits.
Qed.

(** X20: On a fresh database [populate_dummy_data] stores the five habits,
    three daily and two weekly, with the streaks 15, 2, 11, 3 and 14 the
    tests expect, "workout" alone holding the longest.  Run a second
    time it stores no habit again but logs every check-off again, and
    every streak falls to 2. *)
Theorem populate_dummy_data_fresh (now : string) (clock : datetime) :
  let db := Population.populate_dummy_data now clock create_tables in
  let db2 := Population.populate_dummy_data now clock db in
  map (fun n => (n, calculate_streak db n)) (get_current_habit_names db)
  = [("workout", Return (VInt 15)); ("car wash", Return (VInt 2));
     ("meditation", Return (VInt 11)); ("grocery shop", Return (VInt 3));
     ("studying", Return (VInt 14))] /\
  longest_streak_across db = Return [("workout", 15)] /\
  get_periodicity db "daily" = ["workout"; "meditation"; "studying"] /\
  get_periodicity db "weekly" = ["car wash"; "grocery shop"] /\
  get_current_habit_names db2 = get_current_habit_names db /\
  map (fun n => (calculate_count db2 n, calculate_streak db2 n))
      (get_current_habit_names db2)
  = map (fun n => (2 * calculate_count db n, Return (VInt 2)))
        (get_current_habit_names db).
Proof.
  cbv zeta. split; [|split; [|split; [|split; [|split]]]];
    vm_compute; reflexivity.
Qed.

(** ** The stored text *)

(** *** The order of the text and the order of the values *)

Lemma N_of_digit (n : Z) : N_of_ascii (digit n) = Z.to_N (48 + n mod 10).
Proof.
  unfold digit. apply N_ascii_embedding.
  pose proof (Z.mod_pos_bound n 10 ltac:(lia)). lia.
Qed.

Lemma compare_digit (a b : Z) :
  Ascii.compare (digit a) (digit b) = (a mod 10 ?= b mod 10).
Proof.
  unfold Ascii.compare. rewrite !N_of_digit.
  pose proof (Z.mod_pos_bound a 10 ltac:(lia)).
  pose proof (Z.mod_pos_bound b 10 ltac:(lia)).
  rewrite Z2N.inj_compare by lia.
  apply Z.add_compare_mono_l.
Qed.

Lemma compare_same_head (c : ascii) (s s' : string) :
  String.compare (String c s) (String c s') = String.compare s s'.
Proof.
  cbn [String.compare]. unfold Ascii.compare. rewrite N.compare_refl.
  reflexivity.
Qed.

(** Two digits in front of two texts: the texts compare as the numbers
    written, then as what follows. *)
Lemma compare_pad2 (x y : Z) (s s' : string) :
  String.compare (pad2 x ++ s) (pad2 y ++ s')
  = match x mod 100 ?= y mod 100 with
    | Eq => String.compare s s'
    | c => c
    end.
Proof.
  unfold pad2. cbn [append String.compare]. rewrite !compare_digit.
  destruct (Z.compare_spec ((x / 10) mod 10) ((y / 10) mod 10)),
           (Z.compare_spec (x mod 10) (y mod 10)),
           (Z.compare_spec (x mod 100) (y mod 100));
    try reflexivity; exfalso; Z.div_mod_to_equations; lia.
Qed.

Lemma pad4_pad2 (x : Z) (s : string) :
  pad4 x ++ s = pad2 (x / 100) ++ (pad2 x ++ s).
Proof.
  unfold pad4, pad2. cbn [append].
  rewrite (Z.div_div x 100 10) by lia. reflexivity.
Qed.

Lemma compare_pad4 (x y : Z) (s s' : string) :
  0 <= x < 10000 -> 0 <= y < 10000 ->
  String.compare (pad4 x ++ s) (pad4 y ++ s')
  = match x ?= y with
    | Eq => String.compare s s'
    | c => c
    end.
Proof.
  intros Hx Hy. rewrite !pad4_pad2, !compare_pad2.
  destruct (Z.compare_spec ((x / 100) mod 100) ((y / 100) mod 100)),
           (Z.compare_spec (x mod 100) (y mod 100)),
           (Z.compare_spec x y);
    try reflexivity; exfalso; Z.div_mod_to_equations; lia.
Qed.

Lemma compare_pad2_small (x y : Z) (s s' : string) :
  0 <= x < 100 -> 0 <= y < 100 ->
  String.compare (pad2 x ++ s) (pad2 y ++ s')
  = match x ?= y with
    | Eq => String.compare s s'
    | c => c
    end.
Proof.
  intros Hx Hy. rewrite compare_pad2, !Z.mod_small by lia. reflexivity.
Qed.

Lemma valid_datetime_fields (t : datetime) :
  valid_datetime t = true ->
  1 <= year t <= 9999 /\ 1 <= month t <= 12 /\ 1 <= day t <= 31 /\
  0 <= hour t < 24 /\ 0 <= minute t < 60 /\ 0 <= second t < 60.
Proof.
  unfold valid_datetime. rewrite !andb_true_iff.
  rewrite !Z.leb_le, !Z.ltb_lt.
  intros (((((((((((H1 & H2) & H3) & H4) & H5) & H6) & H7) & H8) & H9)
             & H10) & H11) & H12).
  assert (days_in_month (year t) (month t) <= 31).
  { unfold days_in_month, DAYS_IN_MONTH.
    destruct ((month t =? 2) && is_leap (year t)); [lia|].
    destruct (month t) as [|m|m]; try lia.
    do 4 (destruct m as [m|m|]; try lia). }
  lia.
Qed.

(** On the text [strftime] writes for valid values, the order of the
    text is the order of the values. *)
Lemma strftime_order (a b : datetime) :
  valid_datetime a = true -> valid_datetime b = true ->
  String.leb (strftime a) (strftime b) = Datetime.leb a b.
Proof.
  intros Ha Hb.
  apply valid_datetime_fields in Ha. apply valid_datetime_fields in Hb.
  unfold String.leb, strftime.
  rewrite compare_pad4 by lia. cbn [append].
  rewrite compare_same_head, compare_pad2_small by lia.
  rewrite compare_same_head, compare_pad2_small by lia.
  rewrite compare_same_head, compare_pad2_small by lia.
  rewrite compare_same_head, compare_pad2_small by lia.
  rewrite compare_same_head.
  change (pad2 (second a)) with (pad2 (second a) ++ "").
  change (pad2 (second b)) with (pad2 (second b) ++ "").
  rewrite compare_pad2_small by lia.
  unfold Datetime.leb, sort_key, lex_leb.
  repeat match goal with
         | |- context [?x ?= ?y] => destruct (Z.compare_spec x y)
         end;
    repeat match goal with
           | |- context [?x <? ?y] => destruct (Z.ltb_spec x y)
           end;
    first [reflexivity | lia].
Qed.

Lemma insert_text_strftime (d : datetime) (l : list datetime) :
  valid_datetime d = true -> Forall (fun e => valid_datetime e = true) l ->
  Stored.insert_text (strftime d) (map strftime l)
  = map strftime (insert_asc d l).
Proof.
  intros Hd Hl. induction Hl as [|e l He _ IH]; [reflexivity|].
  cbn [map Stored.insert_text insert_asc].
  rewrite (strftime_order d e Hd He).
  destruct (Datetime.leb d e); [reflexivity|].
  cbn [map]. rewrite IH. reflexivity.
Qed.

Lemma insert_asc_Forall (P : datetime -> Prop) (d : datetime)
    (l : list datetime) :
  P d -> Forall P l -> Forall P (insert_asc d l).
Proof.
  intros Hd Hl. induction Hl as [|e l He Hl IH]; cbn [insert_asc].
  - constructor; [exact Hd|constructor].
  - destruct (Datetime.leb d e); repeat constructor; assumption.
Qed.

Lemma order_by_asc_Forall (P : datetime -> Prop) (l : list datetime) :
  Forall P l -> Forall P (order_by_asc l).
Proof.
  induction 1 as [|d l Hd _ IH]; [constructor|].
  unfold order_by_asc in *. cbn [fold_right].
  apply insert_asc_Forall; assumption.
Qed.

Lemma order_by_text_strftime (l : list datetime) :
  Forall (fun e => valid_datetime e = true) l ->
  Stored.order_by_text (map strftime l) = map strftime (order_by_asc l).
Proof.
  induction 1 as [|d l Hd Hl IH]; [reflexivity|].
  unfold Stored.order_by_text, order_by_asc in *. cbn [map fold_right].
  rewrite IH. apply insert_text_strftime; [exact Hd|].
  apply (order_by_asc_Forall _ l Hl).
Qed.

(** *** Reading the stored text *)

Lemma insert_text_permutation (d : string) (l : list string) :
  Permutation (Stored.insert_text d l) (d :: l).
Proof.
  induction l as [|e l IH]; cbn [Stored.insert_text]; [reflexivity|].
  destruct (String.leb d e); [reflexivity|].
  rewrite IH. apply perm_swap.
Qed.

Lemma order_by_text_permutation (l : list string) :
  Permutation (Stored.order_by_text l) l.
Proof.
  induction l as [|d l IH]; [reflexivity|].
  unfold Stored.order_by_text in *. cbn [fold_right].
  rewrite insert_text_permutation. constructor. exact IH.
Qed.

Lemma stored_select_check_off_dates_length
    (db : Stored.Database) (habit_name : string) :
  Z.of_nat (List.length (Stored.select_check_off_dates db habit_name))
  = Stored.calculate_count db habit_name.
Proof.
  unfold Stored.select_check_off_dates, Stored.calculate_count.
  rewrite (Permutation_length (order_by_text_permutation _)), length_map.
  reflexivity.
Qed.

Lemma stored_proof_habit_stored (db : Stored.Database) (row : habit_row) :
  In row (Stored.habit db) -> Stored.proof_habit db (h_name row) = true.
Proof.
  intros Hin. unfold Stored.proof_habit. apply Z.ltb_lt.
  pose proof (filter_In_length
    (fun r => String.eqb (Text.LOWER (h_name r)) (Text.LOWER (h_name row)))
    (Stored.habit db) row Hin (String.eqb_refl _)).
  lia.
Qed.

Lemma stored_select_periodicity_stored
    (db : Stored.Database) (row : habit_row) :
  In row (Stored.habit db) ->
  exists p, Stored.select_periodicity db (h_name row) = Some p.
Proof.
  intros Hin. unfold Stored.select_periodicity.
  pose proof (filter_In_length
    (fun r => String.eqb (h_name r) (h_name row))
    (Stored.habit db) row Hin (String.eqb_refl _)) as Hlen.
  destruct (filter _ (Stored.habit db)) as [|r l]; simpl in Hlen; [lia|eauto].
Qed.

(** With the foreign key in force, a name with a check-off has a row
    for the periodicity lookup. *)
Lemma stored_select_periodicity_checked_off
    (db : Stored.Database) (habit_name : string) :
  stored_foreign_keys_ok db ->
  Stored.select_check_off_dates db habit_name <> [] ->
  exists p, Stored.select_periodicity db habit_name = Some p.
Proof.
  intros Hfk Hne.
  assert (Hdata : Stored.get_habit_data db habit_name <> []).
  { intros E. apply Hne. unfold Stored.select_check_off_dates.
    rewrite E. reflexivity. }
  unfold Stored.get_habit_data in Hdata.
  destruct (filter _ (Stored.tracker db)) as [|t l] eqn:E; [contradiction|].
  assert (H : In t (t :: l)) by (left; reflexivity).
  rewrite <- E in H. apply filter_In in H. destruct H as [Hin Hn].
  apply String.eqb_eq in Hn.
  unfold stored_foreign_keys_ok in Hfk. rewrite Forall_forall in Hfk.
  specialize (Hfk t Hin). rewrite Hn in Hfk.
  apply in_map_iff in Hfk. destruct Hfk as (r & <- & Hr).
  apply stored_select_periodicity_stored. exact Hr.
Qed.

(** When [strptime] reads every text, the loop on the text is the loop
    on the values. *)
Lemma stored_for_loop_parsed (strptime : string -> option datetime)
    (p : string) (rest : list string) :
  forall (vs : list datetime) (previous : string) (pv : datetime)
         (st : Z * Z),
    strptime previous = Some pv ->
    parse_all strptime rest = Some vs ->
    Stored.for_loop strptime p previous rest st
    = Return (for_loop p pv vs st).
Proof.
  induction rest as [|current rest IH]; intros vs previous pv st Hp Hr.
  - injection Hr as <-. reflexivity.
  - cbn [parse_all] in Hr.
    destruct (strptime current) as [cv|] eqn:Ec; [|discriminate].
    destruct (parse_all strptime rest) as [vs'|] eqn:Er; [|discriminate].
    injection Hr as <-.
    cbn [Stored.for_loop for_loop]. rewrite Ec, Hp.
    apply IH; [exact Ec|reflexivity].
Qed.

(** When some text of two or more is not read, the loop raises. *)
Lemma stored_for_loop_unparsed (strptime : string -> option datetime)
    (p : string) (rest : list string) :
  forall (previous : string) (st : Z * Z),
    rest <> [] ->
    parse_all strptime (previous :: rest) = None ->
    Stored.for_loop strptime p previous rest st = Raises ValueError.
Proof.
  induction rest as [|current rest IH]; intros previous st Hne Hr;
    [contradiction|].
  cbn [Stored.for_loop].
  destruct (strptime current) as [cv|] eqn:Ec; [|reflexivity].
  destruct (strptime previous) as [pv|] eqn:Ep; [|reflexivity].
  apply IH.
  - intros E. subst rest. cbn [parse_all] in Hr. rewrite Ep, Ec in Hr.
    discriminate.
  - cbn [parse_all] in Hr |- *. rewrite Ep in Hr. rewrite Ec in Hr |- *.
    destruct (parse_all strptime rest); [discriminate|reflexivity].
Qed.

(** What [calculate_streak] does with the fetched text of a name that
    matches a habit and has a row for the periodicity lookup. *)
Lemma stored_calculate_streak_texts (strptime : string -> option datetime)
    (db : Stored.Database) (habit_name p : string) :
  Stored.proof_habit db habit_name = true ->
  Stored.select_periodicity db habit_name = Some p ->
  Stored.calculate_streak strptime db habit_name
  = match Stored.select_check_off_dates db habit_name with
    | [] => Return (VInt 0)
    | [_] => Return (VInt 1)
    | texts =>
        match parse_all strptime texts with
        | Some vs => Return (VInt (streak_of_dates p vs))
        | None => Raises ValueError
        end
    end.
Proof.
  intros Hproof Hp. unfold Stored.calculate_streak. rewrite Hproof, Hp.
  destruct (Stored.select_check_off_dates db habit_name)
    as [|first [|second rest]]; [reflexivity|reflexivity|].
  destruct (parse_all strptime (first :: second :: rest)) as [vs|] eqn:E.
  - cbn [parse_all] in E.
    destruct (strptime first) as [fv|] eqn:Ef; [|discriminate].
    change (match strptime second with
            | Some v =>
                match parse_all strptime rest with
                | Some vs => Some (v :: vs)
                | None => None
                end
            | None => None
            end) with (parse_all strptime (second :: rest)) in E.
    destruct (parse_all strptime (second :: rest)) as [vs'|] eqn:Er;
      [|discriminate].
    injection E as <-.
    rewrite (stored_for_loop_parsed strptime p (second :: rest) vs'
               first fv (0, 1) Ef Er).
    unfold streak_of_dates, loop_state.
    destruct (for_loop p fv vs' (0, 1)); reflexivity.
  - rewrite (stored_for_loop_unparsed strptime p (second :: rest) first
               (0, 1) ltac:(discriminate) E).
    reflexivity.
Qed.

Lemma parse_all_length (strptime : string -> option datetime)
    (texts : list string) (vs : list datetime) :
  parse_all strptime texts = Some vs -> List.length vs = List.length texts.
Proof.
  revert vs. induction texts as [|t texts IH]; intros vs H.
  - injection H as <-. reflexivity.
  - cbn [parse_all] in H. destruct (strptime t); [|discriminate].
    destruct (parse_all strptime texts) as [vs'|]; [|discriminate].
    injection H as <-. cbn [List.length]. f_equal. apply IH. reflexivity.
Qed.

(** X8: the outcome of [calculate_streak] on the stored text, on tables
    that satisfy the foreign key.  A name that matches no habit gets the
    text of the miss.  Otherwise no check-off gives 0 and a single one
    gives 1, neither reading any text; with two or more check-offs the
    result is an integer between 1 and their number when [strptime]
    reads every stored text, and [ValueError] is raised when some text
    is not in the format.  The periodicity lookup never fails. *)
Theorem calculate_streak_outcome (strptime : string -> option datetime)
    (db : Stored.Database) (habit_name : string) :
  stored_foreign_keys_ok db ->
  let texts := Stored.select_check_off_dates db habit_name in
  let outcome := Stored.calculate_streak strptime db habit_name in
  Z.of_nat (List.length texts) = Stored.calculate_count db habit_name /\
  (Stored.proof_habit db habit_name = false ->
   outcome = Return (VStr ("Habit '" ++ habit_name ++ "' not found."))) /\
  (Stored.proof_habit db habit_name = true ->
   match texts with
   | [] => outcome = Return (VInt 0)
   | [_] => outcome = Return (VInt 1)
   | _ :: _ :: _ =>
       match parse_all strptime texts with
       | Some _ =>
           exists k, outcome = Return (VInt k) /\
                     1 <= k <= Stored.calculate_count db habit_name
       | None => outcome = Raises ValueError
       end
   end) /\
  outcome <> Raises TypeError.
Proof.
  intros Hfk. cbv zeta.
  pose proof (stored_select_check_off_dates_length db habit_name) as Hlen.
  split; [exact Hlen|].
  assert (Hfound : Stored.proof_habit db habit_name = true ->
            match Stored.select_check_off_dates db habit_name with
            | [] =>
                Stored.calculate_streak strptime db habit_name
                = Return (VInt 0)
            | [_] =>
                Stored.calculate_streak strptime db habit_name
                = Return (VInt 1)
            | _ :: _ :: _ =>
                match parse_all strptime
                        (Stored.select_check_off_dates db habit_name) with
                | Some _ =>
                    exists k,
                      Stored.calculate_streak strptime db habit_name
                      = Return (VInt k) /\
                      1 <= k <= Stored.calculate_count db habit_name
                | None =>
                    Stored.calculate_streak strptime db habit_name
                    = Raises ValueError
                end
            end).
  { intros Hproof.
    destruct (Stored.select_check_off_dates db habit_name)
      as [|first rest] eqn:Et.
    - unfold Stored.calculate_streak. rewrite Hproof, Et. reflexivity.
    - destruct (stored_select_periodicity_checked_off db habit_name Hfk)
        as [p Hp]; [rewrite Et; discriminate|].
      rewrite (stored_calculate_streak_texts strptime db habit_name p
                 Hproof Hp), Et.
      destruct rest as [|second rest]; [reflexivity|].
      destruct (parse_all strptime (first :: second :: rest)) as [vs|] eqn:E;
        [|reflexivity].
      eexists. split; [reflexivity|].
      pose proof (parse_all_length _ _ _ E) as Hl.
      destruct (streak_of_dates_bounds p vs) as [Hb Hz].
      assert (vs <> []) by (intros ->; discriminate Hl).
      assert (streak_of_dates p vs <> 0) by tauto.
      rewrite <- Hlen, <- Hl. lia. }
  split; [|split; [exact Hfound|]].
  - intros Hproof. unfold Stored.calculate_streak. rewrite Hproof.
    reflexivity.
  - destruct (Stored.proof_habit db habit_name) eqn:Hproof.
    + specialize (Hfound eq_refl).
      destruct (Stored.select_check_off_dates db habit_name)
        as [|first [|second rest]].
      * rewrite Hfound. discriminate.
      * rewrite Hfound. discriminate.
      * destruct (parse_all strptime (first :: second :: rest)).
        -- destruct Hfound as (k & -> & _). discriminate.
        -- rewrite Hfound. discriminate.
    + unfold Stored.calculate_streak. rewrite Hproof. discriminate.
Qed.

Lemma calculate_streak_outcome_witness :
  Stored.calculate_streak Scenario.read_padded Scenario.date_only_db
                          "test_habit_1"
  = Raises ValueError.
Proof.
  assert (Hfk : stored_foreign_keys_ok Scenario.date_only_db)
    by (vm_compute; repeat constructor).
  assert (Hp : Stored.proof_habit Scenario.date_only_db "test_habit_1" = true)
    by (vm_compute; reflexivity).
  assert (Et : Stored.select_check_off_dates Scenario.date_only_db
                 "test_habit_1"
               = ["2024-12-15"; "2024-12-16"; "2024-12-17"; "2024-12-19";
                  "2024-12-20"; "2024-12-21"])
    by (vm_compute; reflexivity).
  assert (Ep : parse_all Scenario.read_padded
                 ["2024-12-15"; "2024-12-16"; "2024-12-17"; "2024-12-19";
                  "2024-12-20"; "2024-12-21"] = None)
    by (vm_compute; reflexivity).
  pose proof (calculate_streak_outcome Scenario.read_padded
                Scenario.date_only_db "test_habit_1" Hfk)
    as (_ & _ & H & _).
  specialize (H Hp). rewrite Et, Ep in H. exact H.
Defined.

(** *** Text that [strftime] has written *)

Lemma parse_all_strftime (strptime : string -> option datetime)
    (l : list datetime) :
  Forall (reads_back strptime) l -> parse_all strptime (map strftime l) = Some l.
Proof.
  induction 1 as [|t l (_ & _ & Ht) _ IH]; [reflexivity|].
  cbn [map parse_all]. rewrite Ht, IH. reflexivity.
Qed.

Lemma reads_back_valid (strptime : string -> option datetime)
    (l : list datetime) :
  Forall (reads_back strptime) l ->
  Forall (fun e => valid_datetime e = true) l.
Proof.
  intros H. eapply Forall_impl; [|exact H]. intros t Ht. apply Ht.
Qed.

(** On check-offs written by [strftime] and read back by [strptime],
    [calculate_streak] returns the streak of the values in chronological
    order. *)
Lemma stored_calculate_streak_written (strptime : string -> option datetime)
    (db : Stored.Database) (habit_name p : string) (ts : list datetime) :
  Stored.proof_habit db habit_name = true ->
  Stored.select_periodicity db habit_name = Some p ->
  map Stored.t_check_of_date (Stored.get_habit_data db habit_name)
  = map strftime ts ->
  Forall (reads_back strptime) ts ->
  Stored.calculate_streak strptime db habit_name
  = Return (VInt (streak_of_dates p (order_by_asc ts))).
Proof.
  intros Hproof Hp Hcells Hts.
  rewrite (stored_calculate_streak_texts strptime db habit_name p Hproof Hp).
  unfold Stored.select_check_off_dates. rewrite Hcells.
  rewrite (order_by_text_strftime ts (reads_back_valid _ _ Hts)).
  pose proof (parse_all_strftime strptime (order_by_asc ts)
                (order_by_asc_Forall _ ts Hts)) as Hparse.
  destruct (order_by_asc ts) as [|a [|b l]]; [reflexivity|reflexivity|].
  cbn [map] in Hparse |- *. rewrite Hparse. reflexivity.
Qed.

(** X4: [ORDER BY check_of_date ASC] compares the stored text.  On
    check-offs whose text [strftime] has written, it hands
    [calculate_streak] the check-offs in chronological order, whatever
    order they were logged in. *)
Theorem select_check_off_dates_chronological
    (db : Stored.Database) (habit_name : string) (ts : list datetime) :
  map Stored.t_check_of_date (Stored.get_habit_data db habit_name)
  = map strftime ts ->
  Forall written ts ->
  Stored.select_check_off_dates db habit_name
  = map strftime (order_by_asc ts) /\
  ascending (order_by_asc ts) /\
  Permutation ts (order_by_asc ts).
Proof.
  intros Hcells Hts.
  assert (Hv : Forall (fun e => valid_datetime e = true) ts)
    by (eapply Forall_impl; [|exact Hts]; intros t Ht; apply Ht).
  split; [|split].
  - unfold Stored.select_check_off_dates. rewrite Hcells.
    apply order_by_text_strftime. exact Hv.
  - clear. unfold order_by_asc. induction ts as [|d l IH]; [constructor|].
    cbn [fold_right]. apply insert_asc_ascending. exact IH.
  - clear. unfold order_by_asc. induction ts as [|d l IH]; [constructor|].
    cbn [fold_right].
    eapply perm_trans; [apply perm_skip, IH|].
    apply insert_asc_permutation.
Qed.

(** Text that is not padded sorts out of order: October 2nd before
    October 1st. *)
Example order_by_text_not_padded :
  Stored.order_by_text
    ["2024-09-30 00:00:00"; "2024-10-1 00:00:00"; "2024-10-02 00:00:00"]
  = ["2024-09-30 00:00:00"; "2024-10-02 00:00:00"; "2024-10-1 00:00:00"].
Proof. vm_compute. reflexivity. Qed.

Lemma select_check_off_dates_chronological_witness :
  Stored.select_check_off_dates
    (Stored.of_values
       (Scenario.one_habit "reading" "Read" "daily"
          [mk_datetime 2024 12 2 1 0 0; mk_datetime 2024 12 1 23 0 0]))
    "reading"
  = ["2024-12-01 23:00:00"; "2024-12-02 01:00:00"].
Proof.
  assert (Hcells :
    map Stored.t_check_of_date
        (Stored.get_habit_data
           (Stored.of_values
              (Scenario.one_habit "reading" "Read" "daily"
                 [mk_datetime 2024 12 2 1 0 0; mk_datetime 2024 12 1 23 0 0]))
           "reading")
    = map strftime
          [mk_datetime 2024 12 2 1 0 0; mk_datetime 2024 12 1 23 0 0])
    by (vm_compute; reflexivity).
  assert (Hw : Forall written
                 [mk_datetime 2024 12 2 1 0 0; mk_datetime 2024 12 1 23 0 0])
    by (repeat constructor; vm_compute; congruence).
  destruct (select_check_off_dates_chronological _ _ _ Hcells Hw) as [E _].
  rewrite E. vm_compute. reflexivity.
Defined.

Lemma strftime_truthy (t : datetime) :
  truthy (Some (strftime t)) = Some (strftime t).
Proof. reflexivity. Qed.

(** X5: logging through [increment_tracker] the text of one more
    check-off that is not before any check-off of the habit never lowers
    the streak [calculate_streak] returns for it, when the text of all
    of them was written by [strftime] and is read back by [strptime]. *)
Theorem calculate_streak_monotone_increment
    (strptime : string -> option datetime) (now : string)
    (db : Stored.Database) (row : habit_row)
    (ts : list datetime) (t : datetime) :
  In row (Stored.habit db) ->
  map Stored.t_check_of_date (Stored.get_habit_data db (h_name row))
  = map strftime ts ->
  Forall (reads_back strptime) (t :: ts) ->
  Forall (fun e => Datetime.leb e t = true) ts ->
  exists n n',
    Stored.calculate_streak strptime db (h_name row) = Return (VInt n) /\
    Stored.calculate_streak strptime
      (fst (Stored.increment_tracker now db (h_name row)
              (Some (strftime t))))
      (h_name row)
    = Return (VInt n') /\
    n <= n'.
Proof.
  intros Hin Hcells Hrb Hlate.
  inversion Hrb as [|? ? Ht Hts]; subst.
  pose proof (stored_proof_habit_stored db row Hin) as Hproof.
  destruct (stored_select_periodicity_stored db row Hin) as [p Hp].
  exists (streak_of_dates p (order_by_asc ts)).
  rewrite (stored_calculate_streak_written strptime db (h_name row) p ts
             Hproof Hp Hcells Hts).
  unfold Stored.increment_tracker. rewrite strftime_truthy.
  destruct (Stored.select_name_lower db (h_name row)) as [|matched rest].
  { cbn [fst]. exists (streak_of_dates p (order_by_asc ts)).
    rewrite (stored_calculate_streak_written strptime db (h_name row) p ts
               Hproof Hp Hcells Hts).
    split; [reflexivity|]. split; [reflexivity|lia]. }
  cbn [fst].
  set (db' := Stored.mk_db _ _ _ _).
  assert (Hproof' : Stored.proof_habit db' (h_name row) = true)
    by exact Hproof.
  assert (Hp' : Stored.select_periodicity db' (h_name row) = Some p)
    by exact Hp.
  assert (Hdata : Stored.get_habit_data db' (h_name row)
                  = (Stored.get_habit_data db (h_name row)
                     ++ (if String.eqb matched (h_name row)
                         then [Stored.mk_tracker (Stored.tracker_seq db + 1)
                                                 (strftime t) matched]
                         else []))%list).
  { unfold Stored.get_habit_data, db'. cbn [Stored.tracker].
    rewrite filter_app_one. reflexivity. }
  destruct (String.eqb matched (h_name row)).
  - assert (Hcells' :
      map Stored.t_check_of_date (Stored.get_habit_data db' (h_name row))
      = map strftime (ts ++ [t])%list).
    { rewrite Hdata, !map_app, Hcells. reflexivity. }
    assert (Hts' : Forall (reads_back strptime) (ts ++ [t])%list).
    { apply Forall_app. split; [exact Hts|].
      constructor; [exact Ht|constructor]. }
    exists (streak_of_dates p (order_by_asc (ts ++ [t])%list)).
    rewrite (stored_calculate_streak_written strptime db' (h_name row) p _
               Hproof' Hp' Hcells' Hts').
    split; [reflexivity|]. split; [reflexivity|].
    rewrite (order_by_asc_last ts t Hlate).
    apply streak_of_dates_append_le.
  - assert (Hcells' :
      map Stored.t_check_of_date (Stored.get_habit_data db' (h_name row))
      = map strftime ts)
      by (rewrite Hdata, app_nil_r; exact Hcells).
    exists (streak_of_dates p (order_by_asc ts)).
    rewrite (stored_calculate_streak_written strptime db' (h_name row) p ts
               Hproof' Hp' Hcells' Hts).
    split; [reflexivity|]. split; [reflexivity|lia].
Qed.

Lemma calculate_streak_monotone_increment_witness :
  exists n n',
    Stored.calculate_streak Scenario.read_padded
      (Stored.of_values Scenario.reading_db) "reading" = Return (VInt n) /\
    Stored.calculate_streak Scenario.read_padded
      (fst (Stored.increment_tracker Scenario.created
              (Stored.of_values Scenario.reading_db) "reading"
              (Some (strftime (mk_datetime 2024 12 3 1 0 0)))))
      "reading"
    = Return (VInt n') /\
    n <= n'.
Proof.
  assert (Hin : In (mk_habit 1 "reading" "Read a chapter" "daily"
                             Scenario.created)
                   (Stored.habit (Stored.of_values Scenario.reading_db)))
    by (vm_compute; left; reflexivity).
  assert (Hcells :
    map Stored.t_check_of_date
        (Stored.get_habit_data (Stored.of_values Scenario.reading_db)
           "reading")
    = map strftime Scenario.late_then_early)
    by (vm_compute; reflexivity).
  assert (Hrb : Forall (reads_back Scenario.read_padded)
                  (mk_datetime 2024 12 3 1 0 0 :: Scenario.late_then_early))
    by (repeat constructor; vm_compute; congruence).
  assert (Hlate : Forall (fun e => Datetime.leb e (mk_datetime 2024 12 3 1 0 0)
                                   = true)
                    Scenario.late_then_early)
    by (repeat constructor).
  exact (calculate_streak_monotone_increment Scenario.read_padded
           Scenario.created (Stored.of_values Scenario.reading_db) _
           Scenario.late_then_early (mk_datetime 2024 12 3 1 0 0)
           Hin Hcells Hrb Hlate).
Defined.

(** *** The embedding on the values *)

Lemma stored_get_habit_data_of_values (db : Database) (habit_name : string) :
  Stored.get_habit_data (Stored.of_values db) habit_name
  = map (fun r => Stored.mk_tracker (t_id r) (strftime (t_check_of_date r))
                                    (t_habit_name r))
        (get_habit_data db habit_name).
Proof.
  unfold Stored.get_habit_data, get_habit_data, Stored.of_values.
  cbn [Stored.tracker].
  induction (tracker db) as [|r l IH]; [reflexivity|].
  cbn [map filter Stored.t_habit_name].
  destruct (String.eqb (t_habit_name r) habit_name); cbn [map];
    rewrite IH; reflexivity.
Qed.

(** X21: on tables whose check-offs of the habit were written by
    [strftime] and are read back by [strptime], [calculate_streak] on
    the stored text returns what [calculate_streak] on the values
    returns, and [increment_tracker] with the text of a value stores the
    text of what [increment_tracker] on the values stores. *)
Theorem calculate_streak_on_written_text
    (strptime : string -> option datetime) (db : Database)
    (habit_name : string) :
  Forall (fun r => reads_back strptime (t_check_of_date r))
         (get_habit_data db habit_name) ->
  Stored.calculate_streak strptime (Stored.of_values db) habit_name
  = calculate_streak db habit_name /\
  forall now name event_date,
    Stored.increment_tracker (strftime now) (Stored.of_values db) name
                             (option_map strftime event_date)
    = (Stored.of_values (fst (increment_tracker now db name event_date)),
       snd (increment_tracker now db name event_date)).
Proof.
  intros Hrb. split.
  - set (ts := map t_check_of_date (get_habit_data db habit_name)).
    assert (Hts : Forall (reads_back strptime) ts)
      by (unfold ts; rewrite Forall_map; exact Hrb).
    assert (Hcells :
      map Stored.t_check_of_date
          (Stored.get_habit_data (Stored.of_values db) habit_name)
      = map strftime ts).
    { rewrite stored_get_habit_data_of_values. unfold ts.
      rewrite !map_map. reflexivity. }
    assert (Hdates : select_check_off_dates db habit_name = order_by_asc ts)
      by reflexivity.
    unfold calculate_streak. rewrite Hdates.
    change (proof_habit db habit_name)
      with (Stored.proof_habit (Stored.of_values db) habit_name).
    change (select_periodicity db habit_name)
      with (Stored.select_periodicity (Stored.of_values db) habit_name).
    destruct (Stored.proof_habit (Stored.of_values db) habit_name) eqn:Hproof.
    + destruct (Stored.select_periodicity (Stored.of_values db) habit_name)
        as [p|] eqn:Hp.
      * rewrite (stored_calculate_streak_written strptime _ habit_name p ts
                   Hproof Hp Hcells Hts).
        destruct (order_by_asc ts); reflexivity.
      * unfold Stored.calculate_streak. rewrite Hproof, Hp.
        unfold Stored.select_check_off_dates. rewrite Hcells.
        rewrite (order_by_text_strftime ts (reads_back_valid _ _ Hts)).
        destruct (order_by_asc ts); reflexivity.
    + unfold Stored.calculate_streak. rewrite Hproof. reflexivity.
  - intros now name event_date.
    unfold Stored.increment_tracker, increment_tracker.
    change (Stored.select_name_lower (Stored.of_values db) name)
      with (select_name_lower db name).
    assert (Hd : match truthy (option_map strftime event_date) with
                 | Some d => d
                 | None => strftime now
                 end
                 = strftime match event_date with
                            | Some d => d
                            | None => now
                            end)
      by (destruct event_date; reflexivity).
    rewrite Hd.
    destruct (select_name_lower db name) as [|matched rest]; [reflexivity|].
    cbn [fst snd]. unfold Stored.of_values.
    cbn [habit tracker habit_seq tracker_seq Stored.habit Stored.tracker
         Stored.habit_seq Stored.tracker_seq].
    rewrite map_app. reflexivity.
Qed.

Lemma calculate_streak_on_written_text_witness :
  Stored.calculate_streak Scenario.read_padded
    (Stored.of_values Scenario.reading_db) "reading"
  = calculate_streak Scenario.reading_db "reading".
Proof.
  assert (Hl : get_habit_data Scenario.reading_db "reading"
               = [mk_tracker 1 (mk_datetime 2024 12 1 23 0 0) "reading";
                  mk_tracker 2 (mk_datetime 2024 12 2 1 0 0) "reading"])
    by (vm_compute; reflexivity).
  assert (Hrb : Forall (fun r => reads_back Scenario.read_padded
                                   (t_check_of_date r))
                  (get_habit_data Scenario.reading_db "reading")).
  { rewrite Hl. repeat constructor; vm_compute; congruence. }
  exact (proj1 (calculate_streak_on_written_text Scenario.read_padded
                  Scenario.reading_db "reading" Hrb)).
Defined.

(** ** Checking off through [add_event] *)












(** X14: [add_event] on a name for which the periodicity fetched is
    neither "daily" nor "weekly": a text that [strptime] turns down is
    still answered with the message about the format; otherwise an empty
    periodicity gives the message that it could not be determined, and
    any other periodicity raises [TypeError] out of
    [check_event_exists]; in no case is anything logged. *)
Theorem add_event_unknown_periodicity
    (strptime_date : string -> bool)
    (DATE strftime_year_week : string -> option string)
    (now : string) (self : Habits.Habit) (db : Stored.Database)
    (p : string) :
  Stored.proof_habit db (Habits.name self) = true ->
  Stored.get_habit_periodicity db (Habits.name self) = Some p ->
  ~ recognized p ->
  forall date,
    Stored.add_event strptime_date DATE strftime_year_week now self db date
    = let unknown :=
        if Text.is_empty p
        then Return (db, "Could not determine periodicity for habit '"
                         ++ Habits.name self ++ "'.")
        else Raises TypeError in
      match truthy date with
      | Some text =>
          if strptime_date text then unknown
          else Return (db, "Invalid date format: '" ++ text
                           ++ "'. Please use YYYY-MM-DD.")
      | None => unknown
      end.
Proof.
  intros Hproof Hper Hp date. cbv zeta.
  unfold Stored.add_event. rewrite Hproof, Hper.
  assert (Hcheck : forall text,
            Stored.check_event_exists DATE strftime_year_week db
              (Habits.name self) text p = Raises TypeError).
  { intros text. unfold Stored.check_event_exists.
    destruct (String.eqb_spec p "daily") as [E|_];
      [exfalso; apply Hp; left; exact E|].
    destruct (String.eqb_spec p "weekly") as [E|_];
      [exfalso; apply Hp; right; exact E|].
    reflexivity. }
  destruct (truthy date) as [text|];
    [destruct (strptime_date text); [|reflexivity]|];
    cbn [truthy]; destruct (Text.is_empty p); try reflexivity;
    rewrite Hcheck; reflexivity.
Qed.

Lemma add_event_unknown_periodicity_witness :
  Stored.add_event Scenario.read_date Scenario.padded_DATE
    Scenario.padded_year_week Scenario.created
    (Habits.init Scenario.created "yoga" "" "daily" None)
    (Stored.of_values Scenario.yoga_db) (Some "2024-12-10")
  = Raises TypeError.
Proof.
  assert (Hproof : Stored.proof_habit (Stored.of_values Scenario.yoga_db)
                     (Habits.name
                        (Habits.init Scenario.created "yoga" "" "daily" None))
                   = true)
    by (vm_compute; reflexivity).
  assert (Hper : Stored.get_habit_periodicity
                   (Stored.of_values Scenario.yoga_db)
                   (Habits.name
                      (Habits.init Scenario.created "yoga" "" "daily" None))
                 = Some "monthly")
    by (vm_compute; reflexivity).
  assert (Hp : ~ recognized "monthly") by (intros [E|E]; discriminate E).
  rewrite (add_event_unknown_periodicity Scenario.read_date
             Scenario.padded_DATE Scenario.padded_year_week Scenario.created
             _ _ "monthly" Hproof Hper Hp (Some "2024-12-10")).
  vm_compute. reflexivity.
Defined.

(** ** The longest streak across all habits, on the stored text *)

Lemma stored_select_names_In (db : Stored.Database) (n : string) :
  In n (Stored.select_names db)
  <-> exists r, In r (Stored.habit db) /\ h_name r = n.
Proof.
  unfold Stored.select_names. rewrite name_index_In, in_map_iff.
  split; intros (r & H1 & H2); exists r; tauto.
Qed.

(** The counters of the loop on the text, when it ends without raising. *)
Lemma stored_for_loop_bounds (strptime : string -> option datetime)
    (p : string) (rest : list string) :
  forall (previous : string) (l c : Z) (st : Z * Z),
    Stored.for_loop strptime p previous rest (l, c) = Return st ->
    0 <= l -> 1 <= c -> 0 <= fst st /\ 1 <= snd st.
Proof.
  induction rest as [|current rest IH]; intros previous l c st H Hl Hc.
  - injection H as <-. cbn [fst snd]. lia.
  - cbn [Stored.for_loop] in H.
    destruct (strptime current) as [cv|]; [|discriminate].
    destruct (strptime previous) as [pv|]; [|discriminate].
    destruct (loop_body_cases p pv cv l c) as [E|[E|E]]; rewrite E in H;
      apply (IH _ _ _ _ H); lia.
Qed.

(** A streak is never negative. *)
Lemma stored_calculate_streak_nonneg (strptime : string -> option datetime)
    (db : Stored.Database) (habit_name : string) (k : Z) :
  Stored.calculate_streak strptime db habit_name = Return (VInt k) ->
  0 <= k.
Proof.
  unfold Stored.calculate_streak.
  destruct (Stored.proof_habit db habit_name); [|discriminate].
  destruct (Stored.select_check_off_dates db habit_name) as [|first rest].
  { intros H. injection H as <-. lia. }
  destruct (Stored.select_periodicity db habit_name) as [p|]; [|discriminate].
  destruct (Stored.for_loop strptime p first rest (0, 1)) as [[l c]|e] eqn:E;
    [|discriminate].
  intros H. injection H as <-.
  pose proof (stored_for_loop_bounds strptime p rest first 0 1 (l, c) E
                ltac:(lia) ltac:(lia)) as Hb.
  cbn [fst snd] in Hb. lia.
Qed.

(** A stored habit without check-offs has the streak 0, whatever text
    the other habits hold. *)
Lemma stored_calculate_streak_idle (strptime : string -> option datetime)
    (db : Stored.Database) (row : habit_row) :
  In row (Stored.habit db) ->
  Stored.calculate_count db (h_name row) = 0 ->
  Stored.calculate_streak strptime db (h_name row) = Return (VInt 0).
Proof.
  intros Hin Hcount. unfold Stored.calculate_streak.
  rewrite (stored_proof_habit_stored db row Hin).
  rewrite <- stored_select_check_off_dates_length in Hcount.
  destruct (Stored.select_check_off_dates db (h_name row));
    [reflexivity|cbn [List.length] in Hcount; lia].
Qed.

(** The aggregator's loop, once every name yields an integer: the pairs
    kept are those of [acc] and of the remaining names that reach the
    final running maximum. *)
Lemma stored_across_loop_attaining (strptime : string -> option datetime)
    (db : Stored.Database) (streak : string -> Z) (names : list string) :
  (forall n, In n names ->
     Stored.calculate_streak strptime db n = Return (VInt (streak n))) ->
  forall m acc,
    (forall p, In p acc -> snd p = m) ->
    let ps := map (fun n => (n, streak n)) names in
    Stored.across_loop strptime db names m acc
    = Return (attaining (running_max m ps) (acc ++ ps)%list).
Proof.
  cbv zeta.
  induction names as [|r names IH]; intros Hint m acc Hacc.
  - cbn [map Stored.across_loop running_max fold_left]. rewrite app_nil_r.
    f_equal. unfold attaining.
    induction acc as [|a acc IHacc]; [reflexivity|].
    cbn [filter]. rewrite (Hacc a (or_introl eq_refl)), Z.eqb_refl.
    f_equal. apply IHacc. intros p Hp. apply Hacc. right. exact Hp.
  - cbn [map Stored.across_loop].
    rewrite (Hint r (or_introl eq_refl)).
    set (k := streak r).
    set (ps := map (fun n => (n, streak n)) names).
    assert (Hint' : forall n, In n names ->
              Stored.calculate_streak strptime db n
              = Return (VInt (streak n)))
      by (intros n H0; apply Hint; right; exact H0).
    change (running_max m ((r, k) :: ps))
      with (running_max (Z.max m k) ps).
    unfold attaining. rewrite filter_app. cbn [filter snd].
    destruct (Z.ltb_spec m k) as [Hlt|Hge].
    + rewrite (IH Hint' k [(r, k)])
        by (intros p [<-|[]]; reflexivity).
      fold ps. rewrite Z.max_r by lia.
      pose proof (running_max_ge ps k) as HM.
      pose proof (attaining_none m (running_max k ps) acc Hacc ltac:(lia))
        as Hnone.
      unfold attaining in *. rewrite Hnone. reflexivity.
    + destruct (Z.eqb_spec k m) as [->|Hne].
      * rewrite (IH Hint' m (acc ++ [(r, m)])%list).
        -- fold ps. rewrite Z.max_id.
           unfold attaining. rewrite !filter_app. cbn [filter snd].
           rewrite <- app_assoc.
           destruct (m =? running_max m ps); reflexivity.
        -- intros p Hp. apply in_app_or in Hp.
           destruct Hp as [Hp|[<-|[]]]; [apply Hacc; exact Hp|reflexivity].
      * rewrite (IH Hint' m acc Hacc). fold ps.
        rewrite Z.max_l by lia.
        pose proof (running_max_ge ps m) as HM.
        destruct (Z.eqb_spec k (running_max m ps)) as [E|_]; [lia|].
        unfold attaining. rewrite filter_app. reflexivity.
Qed.

(** C4: [longest_streak_across] walks the names in the order in which
    [SELECT name FROM habit] yields them.  Without habits it returns the
    empty list.  When no habit has a check-off, it returns every habit
    with the streak 0.  When [calculate_streak] hands back the integer
    [streak name] for every stored name, it returns exactly the pairs
    (name, streak) of the stored habits whose streak is not below that
    of any other stored habit, and every pair of the result carries the
    same value, the maximum. *)
Theorem longest_streak_across_ties
    (strptime : string -> option datetime) (db : Stored.Database) :
  (Stored.habit db = [] ->
   Stored.longest_streak_across strptime db = Return []) /\
  ((forall r, In r (Stored.habit db) ->
      Stored.calculate_count db (h_name r) = 0) ->
   Stored.longest_streak_across strptime db
   = Return (map (fun n => (n, 0)) (Stored.select_names db)) /\
   forall r, In r (Stored.habit db) ->
     In (h_name r, 0) (map (fun n => (n, 0)) (Stored.select_names db))) /\
  (forall streak : string -> Z,
     (forall r, In r (Stored.habit db) ->
        Stored.calculate_streak strptime db (h_name r)
        = Return (VInt (streak (h_name r)))) ->
     let all := map (fun n => (n, streak n)) (Stored.select_names db) in
     let M := running_max 0 all in
     Stored.longest_streak_across strptime db = Return (attaining M all) /\
     (forall name s,
        In (name, s) (attaining M all)
        <-> (exists r, In r (Stored.habit db) /\ h_name r = name) /\
            s = streak name /\
            forall r, In r (Stored.habit db) -> streak (h_name r) <= s) /\
     (forall p, In p (attaining M all) -> snd p = M)).
Proof.
  assert (Hgiven : forall streak : string -> Z,
     (forall r, In r (Stored.habit db) ->
        Stored.calculate_streak strptime db (h_name r)
        = Return (VInt (streak (h_name r)))) ->
     Stored.longest_streak_across strptime db
     = Return (attaining
                 (running_max 0
                    (map (fun n => (n, streak n)) (Stored.select_names db)))
                 (map (fun n => (n, streak n)) (Stored.select_names db)))).
  { intros streak Hint. unfold Stored.longest_streak_across.
    rewrite (stored_across_loop_attaining strptime db streak
               (Stored.select_names db)).
    - reflexivity.
    - intros n Hn. apply stored_select_names_In in Hn.
      destruct Hn as (r & Hr & <-). apply Hint. exact Hr.
    - intros p []. }
  split; [|split].
  - intros E. unfold Stored.longest_streak_across, Stored.select_names.
    rewrite E. reflexivity.
  - intros Hidle. split.
    + rewrite (Hgiven (fun _ => 0)).
      * rewrite running_max_zero, attaining_zero. reflexivity.
      * intros r Hr. apply stored_calculate_streak_idle; [exact Hr|].
        apply Hidle. exact Hr.
    + intros r Hr. apply in_map_iff. exists (h_name r).
      split; [reflexivity|]. apply stored_select_names_In. exists r. tauto.
  - intros streak Hint. cbv zeta.
    set (all := map (fun n => (n, streak n)) (Stored.select_names db)).
    assert (Hall : forall name s,
              In (name, s) all
              <-> (exists r, In r (Stored.habit db) /\ h_name r = name) /\
                  s = streak name).
    { intros name s. unfold all. rewrite in_map_iff. split.
      - intros (n & E & Hn). injection E as -> <-.
        apply stored_select_names_In in Hn. tauto.
      - intros [Hn ->]. exists name. split; [reflexivity|].
        apply stored_select_names_In. exact Hn. }
    assert (Hnonneg : forall r, In r (Stored.habit db) ->
              0 <= streak (h_name r)).
    { intros r Hr.
      apply (stored_calculate_streak_nonneg strptime db (h_name r)).
      apply Hint. exact Hr. }
    assert (Hmem : forall p, In p (attaining (running_max 0 all) all)
                   <-> In p all /\ snd p = running_max 0 all).
    { intros p. unfold attaining. rewrite filter_In, Z.eqb_eq. tauto. }
    split; [apply (Hgiven streak Hint)|]. split.
    + intros name s. rewrite Hmem, Hall. cbn [snd]. split.
      * intros [[Hn ->] E]. split; [exact Hn|]. split; [reflexivity|].
        intros r Hr. rewrite E.
        apply (running_max_upper all 0 (h_name r, streak (h_name r))).
        apply Hall. split; [exists r; tauto|reflexivity].
      * intros (Hn & -> & Hmax). split; [tauto|].
        assert (Hin : In (name, streak name) all) by (apply Hall; tauto).
        pose proof (running_max_upper all 0 _ Hin) as Hup. cbn [snd] in Hup.
        destruct (running_max_cases all 0) as [E|(q & Hq & E)].
        -- destruct Hn as (r & Hr & <-). specialize (Hnonneg r Hr). lia.
        -- destruct q as [qn qs]. apply Hall in Hq.
           destruct Hq as [(r & Hr & <-) ->]. cbn [snd] in E.
           specialize (Hmax r Hr). lia.
    + intros p Hp. apply Hmem in Hp. tauto.
Qed.

Lemma longest_streak_across_ties_witness :
  Stored.longest_streak_across Scenario.read_padded
    (Stored.of_values Scenario.ties_db)
  = Return [("habit1", 3); ("habit2", 3)] /\
  Stored.longest_streak_across Scenario.read_padded
    (Stored.of_values Scenario.idle_db)
  = Return [("car wash", 0); ("reading", 0)].
Proof.
  split.
  - assert (Hties : forall r,
              In r (Stored.habit (Stored.of_values Scenario.ties_db)) ->
              Stored.calculate_streak Scenario.read_padded
                (Stored.of_values Scenario.ties_db) (h_name r)
              = Return (VInt ((fun n => if String.eqb n "habit3"
                                        then 1 else 3) (h_name r)))).
    { intros r Hr. vm_compute in Hr.
      destruct Hr as [<-|[<-|[<-|[]]]]; vm_compute; reflexivity. }
    destruct (longest_streak_across_ties Scenario.read_padded
                (Stored.of_values Scenario.ties_db)) as (_ & _ & H).
    destruct (H _ Hties) as [E _]. rewrite E. vm_compute. reflexivity.
  - assert (Hnone : forall r,
              In r (Stored.habit (Stored.of_values Scenario.idle_db)) ->
              Stored.calculate_count (Stored.of_values Scenario.idle_db)
                                     (h_name r) = 0).
    { intros r Hr. vm_compute in Hr.
      destruct Hr as [<-|[<-|[]]]; vm_compute; reflexivity. }
    destruct (longest_streak_across_ties Scenario.read_padded
                (Stored.of_values Scenario.idle_db)) as (_ & H & _).
    destruct (H Hnone) as [E _]. rewrite E. vm_compute. reflexivity.
Defined.

Lemma stored_for_loop_raises (strptime : string -> option datetime)
    (p : string) (rest : list string) :
  forall (previous : string) (st : Z * Z) (e : exn),
    Stored.for_loop strptime p previous rest st = Raises e ->
    e = ValueError.
Proof.
  induction rest as [|current rest IH]; intros previous st e H;
    [discriminate|].
  cbn [Stored.for_loop] in H.
  destruct (strptime current); [|congruence].
  destruct (strptime previous); [|congruence].
  apply (IH _ _ _ H).
Qed.

(** For the name of a stored habit [calculate_streak] returns an
    integer, or raises [ValueError]. *)
Lemma stored_calculate_streak_stored (strptime : string -> option datetime)
    (db : Stored.Database) (row : habit_row) :
  In row (Stored.habit db) ->
  (exists k, Stored.calculate_streak strptime db (h_name row)
             = Return (VInt k)) \/
  Stored.calculate_streak strptime db (h_name row) = Raises ValueError.
Proof.
  intros Hin. unfold Stored.calculate_streak.
  rewrite (stored_proof_habit_stored db row Hin).
  destruct (Stored.select_check_off_dates db (h_name row)) as [|first rest];
    [left; eauto|].
  destruct (stored_select_periodicity_stored db row Hin) as [p ->].
  destruct (Stored.for_loop strptime p first rest (0, 1)) as [[l c]|e] eqn:E;
    [left; eauto|].
  right. rewrite (stored_for_loop_raises _ _ _ _ _ _ E). reflexivity.
Qed.

Lemma stored_across_loop_raises (strptime : string -> option datetime)
    (db : Stored.Database) (names : list string) (n : string) :
  (forall m, In m names -> exists r, In r (Stored.habit db) /\ h_name r = m) ->
  In n names ->
  Stored.calculate_streak strptime db n = Raises ValueError ->
  forall m acc,
    Stored.across_loop strptime db names m acc = Raises ValueError.
Proof.
  intros Hstored Hin Hraise.
  induction names as [|h names IH]; [contradiction|].
  intros m acc. cbn [Stored.across_loop].
  destruct (Hstored h (or_introl eq_refl)) as (r & Hr & <-).
  destruct (stored_calculate_streak_stored strptime db r Hr)
    as [[k Ek]|Ee]; [|rewrite Ee; reflexivity].
  rewrite Ek.
  assert (Hin' : In n names)
    by (destruct Hin as [E|Hin]; [congruence|exact Hin]).
  assert (Hstored' : forall m, In m names ->
            exists r, In r (Stored.habit db) /\ h_name r = m)
    by (intros x Hx; apply Hstored; right; exact Hx).
  destruct (m <? k); [apply (IH Hstored' Hin')|].
  destruct (k =? m); apply (IH Hstored' Hin').
Qed.

(** X22: an exception of [calculate_streak] is not caught by
    [longest_streak_across].  For the name of a stored habit the only
    exception is the [ValueError] of [strptime] on stored text that is
    not in the format, and the check-offs of one such habit make the
    aggregator raise it, whatever the other habits hold. *)
Theorem longest_streak_across_raises
    (strptime : string -> option datetime) (db : Stored.Database)
    (row : habit_row) (e : exn) :
  In row (Stored.habit db) ->
  Stored.calculate_streak strptime db (h_name row) = Raises e ->
  e = ValueError /\
  Stored.longest_streak_across strptime db = Raises ValueError.
Proof.
  intros Hin Hraise.
  assert (He : e = ValueError).
  { destruct (stored_calculate_streak_stored strptime db row Hin)
      as [[k Ek]|Ee]; congruence. }
  subst e. split; [reflexivity|].
  unfold Stored.longest_streak_across.
  apply (stored_across_loop_raises strptime db _ (h_name row)).
  - intros m Hm. apply stored_select_names_In. exact Hm.
  - apply stored_select_names_In. exists row. tauto.
  - exact Hraise.
Qed.

Lemma longest_streak_across_raises_witness :
  Stored.longest_streak_across Scenario.read_padded Scenario.date_only_db
  = Raises ValueError.
Proof.
  apply (longest_streak_across_raises Scenario.read_padded
           Scenario.date_only_db
           (mk_habit 1 "test_habit_1" "test_description_1" "daily"
                     Scenario.created) ValueError).
  - vm_compute. left. reflexivity.
  - vm_compute. reflexivity.
Defined.
